(** * StoX: stochastic multistage recruitment model

    A shallow embedding of the model core of StoX (stox.h, stox.cpp):
    the casting tables ([TableModel]), the stage tree held by the tree
    widget, the consistency check, the model run ([Cast]) and the model
    file written by Save and read by Open.

    Conventions of the embedding.
    - A C++ [float] is an IEEE 754 binary32 number ([F32.t]) and a
      [double] a binary64 number, with the operations of the Standard
      Library's specification of floating-point arithmetic ([SpecFloat]):
      rounding to nearest even, signed zeros, infinities and NaN.
    - [int] sizes and indices that the program only ever uses as
      non-negative counts are [nat]; integers read from a stream or typed
      by the user are [Z].
    - A slot that can dereference a null item or let a C++ exception escape
      returns a [result]; [Crash] is the abnormal end of the program.
    - Answers of the user to message boxes and file dialogs, and the
      item that is current in a widget while a slot runs, are inputs
      ([Dialogs], [Selection]); the status bar, the highlighting of
      selected items and the widget geometry are not modelled. *)

From Stdlib Require Import List String Ascii ZArith Lia Bool Permutation SpecFloat.
From Stdlib Require Import DecimalString.
From Stdlib Require DecimalNat DecimalFacts.
Import ListNotations.

Set Implicit Arguments.

(** ** Outcomes *)

Inductive fault : Type :=
| OutOfRange      (* std::out_of_range thrown by vector::at *)
| NullItem        (* a null QTreeWidgetItem* is dereferenced *)
| LengthError.    (* std::vector::resize with a negative size *)

Inductive result (A : Type) : Type :=
| Ret (a : A)
| Crash (f : fault).

Arguments Crash {A} f.

Definition bind {A B : Type} (m : result A) (k : A -> result B) : result B :=
  match m with
  | Ret a => k a
  | Crash f => Crash f
  end.

Notation "x <- m ;; k" := (bind m (fun x => k))
  (at level 61, m at next level, right associativity).
Notation "' p <- m ;; k" := (bind m (fun x => match x with p => k end))
  (at level 61, p pattern, m at next level, right associativity).

(** ** Floating point *)

(** A C++ [float]. *)
Module F32.

Definition prec : Z := 24.
Definition emax : Z := 128.

Definition t : Type := spec_float.

Definition zero : t := S754_zero false.                 (* 0.0f *)
Definition one : t := S754_finite false 8388608 (-23).  (* 1.0f *)

Definition add : t -> t -> t := SFadd prec emax.
Definition sub : t -> t -> t := SFsub prec emax.
Definition mul : t -> t -> t := SFmul prec emax.
Definition opp : t -> t := SFopp.

(** [a < b]; false when either is NaN. *)
Definition ltb : t -> t -> bool := SFltb.
Definition leb : t -> t -> bool := SFleb.


(** The float nearest to an integer, and to a fraction of two integers. *)
Definition of_Z (z : Z) : t := binary_normalize prec emax z 0 false.
Definition ratio (p q : Z) : t := SFdiv prec emax (of_Z p) (of_Z q).

End F32.

(** A C++ [double], where the program computes in one. *)
Module F64.

Definition prec : Z := 53.
Definition emax : Z := 1024.

Definition one : spec_float := S754_finite false 4503599627370496 (-52).  (* 1.0 *)

(** The literal 0.001. *)
Definition thousandth : spec_float := S754_finite false 4611686018427388 (-62).

(** The conversion of a [float] operand to [double]: exact. *)
Definition of_float (x : F32.t) : spec_float :=
  match x with
  | S754_finite s m e => binary_normalize prec emax (cond_Zopp s (Zpos m)) e s
  | _ => x
  end.

Definition sub : spec_float -> spec_float -> spec_float := SFsub prec emax.

End F64.

(** [std::accumulate(first, last, init)]: a left fold with [+]. *)
Definition accumulate (row : list F32.t) (init : F32.t) : F32.t :=
  fold_left F32.add row init.

(** [v[i] = x] on a vector, for an index in range. *)
Fixpoint assign {A : Type} (i : nat) (x : A) (v : list A) : list A :=
  match v, i with
  | [], _ => []
  | _ :: v', O => x :: v'
  | y :: v', S j => y :: assign j x v'
  end.

(** ** Casting tables (stox.h, class TableModel) *)

Inductive ItemDataRole : Type := DisplayRole | EditRole | TextAlignmentRole.

Definition role_is_edit (r : ItemDataRole) : bool :=
  match r with EditRole => true | _ => false end.

Module TableModel.

Record t : Type := mk {
  rawdata : list (list F32.t);   (* std::vector<std::vector<float>> *)
  myrows : nat;
  mycols : nat;
  name : string
}.

(** "Always created empty". *)
Definition create : t := mk [] 0 0 "".

(** [FillFromRaw]: [raw] is the buffer the pointer walks, row-major.
    The name is left as it was. *)
Definition FillFromRaw (tm : t) (raw : list F32.t) (rows cols : nat) : t :=
  mk (map (fun r => map (fun c => nth (r * cols + c) raw F32.zero) (seq 0 cols))
          (seq 0 rows))
     rows cols (name tm).

Definition readRows (tm : t) : nat := myrows tm.
Definition readCols (tm : t) : nat := mycols tm.
Definition readName (tm : t) : string := name tm.
Definition setName (tm : t) (nam : string) : t :=
  mk (rawdata tm) (myrows tm) (mycols tm) nam.

(** [readCell]: [rawdata.at(r).at(c)]; [None] is the std::out_of_range
    that [at] throws. *)
Definition readCell (tm : t) (r c : nat) : option F32.t :=
  match nth_error (rawdata tm) r with
  | Some row => nth_error row c
  | None => None
  end.

Definition FillFromCopy (source : t) (nam : string) : t :=
  mk (map (fun r => map (fun c => match readCell source r c with
                                  | Some v => v
                                  | None => F32.zero
                                  end)
                        (seq 0 (readCols source)))
          (seq 0 (readRows source)))
     (readRows source) (readCols source) nam.

Definition FillZeroes (rows cols : nat) (nam : string) : t :=
  mk (repeat (repeat F32.zero cols) rows) rows cols nam.

(** [sumCols]: [std::accumulate(row.begin(),row.end(),0.0f)]; 0 for a row
    that does not exist (where the C++ indexes out of bounds). *)
Definition sumCols (tm : t) (irow : nat) : F32.t :=
  accumulate (nth irow (rawdata tm) []) F32.zero.

(** A model index built by the table view is valid exactly when it lies
    inside [rowCount] x [columnCount]. *)
Definition isValid (tm : t) (row col : nat) : bool :=
  (row <? myrows tm)%nat && (col <? mycols tm)%nat.

(** The two clamps of [setData], on the value alone.
    [if(val<0.0f) val=0.0f; else if(val>1.0f) val=1.0f;] *)
Definition clamp01 (val : F32.t) : F32.t :=
  if F32.ltb val F32.zero then F32.zero
  else if F32.ltb F32.one val then F32.one else val.

(** [float sum=std::accumulate(row.begin(),row.end(),-pos);
     if(sum+val>1.0f) val=1.0f-sum;] *)
Definition clampRow (row : list F32.t) (pos val : F32.t) : F32.t :=
  let sum := accumulate row (F32.opp pos) in
  if F32.ltb F32.one (F32.add sum val) then F32.sub F32.one sum else val.

(** [setData]: edit one cell from the table view.  Returns the boolean
    the C++ returns and the table afterwards.  The C++ indexes [rawdata]
    without a bound check; in a table that keeps the class's sizes a valid
    index always addresses a cell, and the two [None] branches are only
    there for records that do not. *)
Definition setData (tm : t) (row col : nat) (value : F32.t) (role : ItemDataRole)
  : bool * t :=
  if isValid tm row col && role_is_edit role then
    match nth_error (rawdata tm) row with
    | Some rowv =>
        match nth_error rowv col with
        | Some pos =>
            let val := clampRow rowv pos (clamp01 value) in
            (true, mk (assign row (assign col val rowv) (rawdata tm))
                      (myrows tm) (mycols tm) (name tm))
        | None => (false, tm)
        end
    | None => (false, tm)
    end
  else (false, tm).

(** The class invariant on sizes, set up by every Fill function. *)
Definition shaped (tm : t) : Prop :=
  List.length (rawdata tm) = myrows tm /\
  Forall (fun row => List.length row = mycols tm) (rawdata tm).

End TableModel.




(** ** The stage tree (QTreeWidget / QTreeWidgetItem) *)

(** The data one tree item carries: the columns set by [AddTreeChild] and
    [IDMarkTree], and the population [Cast] stores under Qt::UserRole.
    This is also what [stream << item] writes: the children are not part
    of it. *)
Record Stage : Type := mkStage {
  text0 : string;       (* column 0: stage name *)
  text1 : string;       (* column 1: stage type, or name of its casting *)
  check2 : bool;        (* column 2: the 'report' check mark *)
  text3 : string;       (* column 3: hierarchical ID *)
  userData : option F32.t   (* column 0, Qt::UserRole: population received *)
}.

Local Unset Elimination Schemes.

Inductive Item : Type :=
| Node (d : Stage) (children : list Item).

Local Set Elimination Schemes.

Definition stage (it : Item) : Stage := match it with Node d _ => d end.
Definition children (it : Item) : list Item := match it with Node _ cs => cs end.
Definition childCount (it : Item) : nat := List.length (children it).

(** A freshly constructed item: no text, unchecked, no data, no child. *)
Definition emptyStage : Stage := mkStage "" "" false "" None.

Definition setText0 (d : Stage) (s : string) : Stage :=
  mkStage s (text1 d) (check2 d) (text3 d) (userData d).
Definition setText1 (d : Stage) (s : string) : Stage :=
  mkStage (text0 d) s (check2 d) (text3 d) (userData d).
Definition setCheckState2 (d : Stage) (b : bool) : Stage :=
  mkStage (text0 d) (text1 d) b (text3 d) (userData d).
Definition setText3 (d : Stage) (s : string) : Stage :=
  mkStage (text0 d) (text1 d) (check2 d) s (userData d).
Definition setUserData (d : Stage) (n : F32.t) : Stage :=
  mkStage (text0 d) (text1 d) (check2 d) (text3 d) (Some n).

(** The order of QTreeWidgetItemIterator: an item, then its children's
    subtrees from first to last. *)
Fixpoint preorder (it : Item) : list Item :=
  match it with
  | Node d cs => Node d cs :: flat_map preorder cs
  end.

(** Apply [f] to the data of every item of a subtree. *)
Fixpoint mapItem (f : Stage -> Stage) (it : Item) : Item :=
  match it with
  | Node d cs => Node (f d) (map (mapItem f) cs)
  end.

(** [QString::number] of a non-negative int. *)
Definition number (n : nat) : string := NilZero.string_of_uint (Nat.to_uint n).

(** ** The output table (stox.h, class OutTableModel) *)

(** What the program formats into an output cell; the formatting itself
    (QString::number, QString::arg) is not modelled. *)
Inductive cell : Type :=
| Blank
| Text (s : string)
| Number (q : F32.t)    (* QString::number(float) *)
| IterNo (i : Z)        (* QString("%1").arg(i,4) *)
| Fixed3 (q : F32.t).   (* QString("%1").arg(x,10,'f',3) *)

Module OutTableModel.

Record t : Type := mk {
  rawdata : list (list cell);
  myrows : nat;
  mycols : nat
}.

(** [Init(rows, cols)]: a negative size makes [resize] throw. *)
Definition Init (rows cols : Z) : result t :=
  if (rows <? 0)%Z || (cols <? 0)%Z then Crash LengthError
  else Ret (mk (repeat (repeat Blank (Z.to_nat cols)) (Z.to_nat rows))
               (Z.to_nat rows) (Z.to_nat cols)).

(** [setCell]: [rawdata.at(r).at(c) = v]. *)
Definition setCell (o : t) (r c : Z) (v : cell) : result t :=
  if (r <? 0)%Z || (c <? 0)%Z then Crash OutOfRange
  else match nth_error (rawdata o) (Z.to_nat r) with
       | Some row =>
           if (Z.to_nat c <? List.length row)%nat
           then Ret (mk (assign (Z.to_nat r) (assign (Z.to_nat c) v row) (rawdata o))
                        (myrows o) (mycols o))
           else Crash OutOfRange
       | None => Crash OutOfRange
       end.

(** [readCell]: [rawdata.at(r).at(c)]; [None] is the std::out_of_range
    that [at] throws. *)
Definition readCell (o : t) (r c : Z) : option cell :=
  if (r <? 0)%Z || (c <? 0)%Z then None
  else match nth_error (rawdata o) (Z.to_nat r) with
       | Some row => nth_error row (Z.to_nat c)
       | None => None
       end.

End OutTableModel.

(** ** The model file as a sequence of typed fields

    QDataStream is a library: what the program relies on is that each
    [>>] reads back what the [<<] of the same type wrote.  The stream is
    therefore a list of typed fields instead of bytes. *)
Inductive token : Type :=
| TInt (z : Z)
| TString (s : string)
| TFloat (q : F32.t)
| TItem (d : Stage).

(** Tree node data for temporary storage during save and open. *)
Record NodeData : Type := mkNodeData { getLevel : Z; getItem : Item }.

(** ** The main window (stox.h, class Stox) *)

Record Stox : Type := mkStox {
  TreeWid : option Item;            (* the tree widget: its top-level item *)
  Tables : list TableModel.t;       (* std::list<TableModel*> *)
  NumTables : Z;
  Output : option OutTableModel.t;  (* nullptr until the first run *)
  Checked : bool;
  Saved : bool;
  FileName : string;
  Eps : F32.t;
  GoOn : bool;
  CloneMode : bool;
  generator : list nat;             (* the draws the Mersenne Twister will give *)
  ENewCastName : string;            (* line edit: name of a new casting *)
  CBCastings : list string;         (* combo box: names of the castings *)
  EInitial : F32.t;                 (* line edits, as toFloat / toInt read them *)
  EIters : Z;
  EEps : F32.t;
  Disk : list (string * list token) (* the files the program wrote or can read *)
}.

Definition with_TreeWid (st : Stox) (x : option Item) : Stox :=
  mkStox x (Tables st) (NumTables st) (Output st) (Checked st) (Saved st)
    (FileName st) (Eps st) (GoOn st) (CloneMode st) (generator st)
    (ENewCastName st) (CBCastings st) (EInitial st) (EIters st)
    (EEps st) (Disk st).
Definition with_Tables (st : Stox) (x : list TableModel.t) : Stox :=
  mkStox (TreeWid st) x (NumTables st) (Output st) (Checked st) (Saved st)
    (FileName st) (Eps st) (GoOn st) (CloneMode st) (generator st)
    (ENewCastName st) (CBCastings st) (EInitial st) (EIters st)
    (EEps st) (Disk st).
Definition with_NumTables (st : Stox) (x : Z) : Stox :=
  mkStox (TreeWid st) (Tables st) x (Output st) (Checked st) (Saved st)
    (FileName st) (Eps st) (GoOn st) (CloneMode st) (generator st)
    (ENewCastName st) (CBCastings st) (EInitial st) (EIters st)
    (EEps st) (Disk st).
Definition with_Output (st : Stox) (x : option OutTableModel.t) : Stox :=
  mkStox (TreeWid st) (Tables st) (NumTables st) x (Checked st) (Saved st)
    (FileName st) (Eps st) (GoOn st) (CloneMode st) (generator st)
    (ENewCastName st) (CBCastings st) (EInitial st) (EIters st)
    (EEps st) (Disk st).
Definition with_FileName (st : Stox) (x : string) : Stox :=
  mkStox (TreeWid st) (Tables st) (NumTables st) (Output st) (Checked st) (Saved st)
    x (Eps st) (GoOn st) (CloneMode st) (generator st)
    (ENewCastName st) (CBCastings st) (EInitial st) (EIters st)
    (EEps st) (Disk st).
Definition with_Eps (st : Stox) (x : F32.t) : Stox :=
  mkStox (TreeWid st) (Tables st) (NumTables st) (Output st) (Checked st) (Saved st)
    (FileName st) x (GoOn st) (CloneMode st) (generator st)
    (ENewCastName st) (CBCastings st) (EInitial st) (EIters st)
    (EEps st) (Disk st).
Definition with_GoOn (st : Stox) (x : bool) : Stox :=
  mkStox (TreeWid st) (Tables st) (NumTables st) (Output st) (Checked st) (Saved st)
    (FileName st) (Eps st) x (CloneMode st) (generator st)
    (ENewCastName st) (CBCastings st) (EInitial st) (EIters st)
    (EEps st) (Disk st).
Definition with_generator (st : Stox) (x : list nat) : Stox :=
  mkStox (TreeWid st) (Tables st) (NumTables st) (Output st) (Checked st) (Saved st)
    (FileName st) (Eps st) (GoOn st) (CloneMode st) x
    (ENewCastName st) (CBCastings st) (EInitial st) (EIters st)
    (EEps st) (Disk st).
Definition with_ENewCastName (st : Stox) (x : string) : Stox :=
  mkStox (TreeWid st) (Tables st) (NumTables st) (Output st) (Checked st) (Saved st)
    (FileName st) (Eps st) (GoOn st) (CloneMode st) (generator st)
    x (CBCastings st) (EInitial st) (EIters st)
    (EEps st) (Disk st).
Definition with_CBCastings (st : Stox) (x : list string) : Stox :=
  mkStox (TreeWid st) (Tables st) (NumTables st) (Output st) (Checked st) (Saved st)
    (FileName st) (Eps st) (GoOn st) (CloneMode st) (generator st)
    (ENewCastName st) x (EInitial st) (EIters st)
    (EEps st) (Disk st).
Definition with_Disk (st : Stox) (x : list (string * list token)) : Stox :=
  mkStox (TreeWid st) (Tables st) (NumTables st) (Output st) (Checked st) (Saved st)
    (FileName st) (Eps st) (GoOn st) (CloneMode st) (generator st)
    (ENewCastName st) (CBCastings st) (EInitial st) (EIters st)
    (EEps st) x.

(** [setChecked] and [setSaved]; the status bar labels are not modelled. *)
Definition setChecked (st : Stox) (stat : bool) : Stox :=
  mkStox (TreeWid st) (Tables st) (NumTables st) (Output st) stat (Saved st)
    (FileName st) (Eps st) (GoOn st) (CloneMode st) (generator st)
    (ENewCastName st) (CBCastings st) (EInitial st) (EIters st)
    (EEps st) (Disk st).
Definition setSaved (st : Stox) (stat : bool) : Stox :=
  mkStox (TreeWid st) (Tables st) (NumTables st) (Output st) (Checked st) stat
    (FileName st) (Eps st) (GoOn st) (CloneMode st) (generator st)
    (ENewCastName st) (CBCastings st) (EInitial st) (EIters st)
    (EEps st) (Disk st).

Definition TypeNames : list string := ["Direct"; "Caster"; "Success"; "Sink"]%string.

(** What the user answers and what the surroundings hold while a slot runs. *)
Inductive button : Type := Yes | No | Cancel.

Record Dialogs : Type := mkDialogs {
  saveAnswer : button;          (* "... has not been saved ... Save?" *)
  checkAnswer : button;         (* "... has not been checked ... Check or cancel?" *)
  continueCheck : nat -> button;(* "Continue check?" at the k-th warning, k = 1, 2, ... *)
  saveAsName : string;          (* file chosen in the Save dialog, empty if dismissed *)
  openName : string;            (* file chosen in the Open dialog, empty if dismissed *)
  canWrite : bool;              (* file.open(WriteOnly) succeeds *)
  clipboard : option string;    (* text on the clipboard, if it has text *)
  cancelDuring : nat -> bool;   (* Cancel pressed while iteration i is shown *)
  treeCurrent : option (list nat)
    (* ui->TreeWid->currentItem(): the child positions that lead to it from
       the top-level item; [None] when no item is current, as after the
       tree is cleared and until the user selects a stage *)
}.

Definition is_yes (b : button) : bool := match b with Yes => true | _ => false end.
Definition is_cancel (b : button) : bool := match b with Cancel => true | _ => false end.

(** ** The list of castings (combo box)

    [ui->CBCastings->model()->sort(0)]: the entries in ascending order of
    their text.  The items are compared as [QString::compare] compares
    them, character code by character code, and the sort is stable: an
    entry goes before the first one of the sorted rest that is not
    smaller. *)
Fixpoint insertSorted (x : string) (l : list string) : list string :=
  match l with
  | [] => [x]
  | y :: l' => if String.leb x y then x :: y :: l' else y :: insertSorted x l'
  end.

Definition sort0 (l : list string) : list string := fold_right insertSorted [] l.

(** ** Hierarchical IDs ([IDMarkTree]) *)

(** The iterator visits a parent before its children, so the ID a child is
    given while its parent is visited is the one read when the child is
    visited in turn: the loop is this recursion, [id] being the text the
    item got from its parent ("1" for the top-level item). *)
Section MarkChildren.

(** [for(int c=0;c<C;) child(c)->setText(3,IDp+"."+QString::number(++c))],
    each child then being visited in turn ([visit]). *)
Variable visit : string -> Item -> Item.
Variable IDp : string.

Fixpoint markChildren (c : nat) (l : list Item) : list Item :=
  match l with
  | [] => []
  | ch :: l' => visit (IDp ++ "." ++ number (S c)) ch :: markChildren (S c) l'
  end.

End MarkChildren.

Fixpoint IDMarkFrom (id : string) (it : Item) : Item :=
  match it with
  | Node d cs => Node (setText3 d id) (markChildren IDMarkFrom id 0 cs)
  end.

Definition IDMarkTree (st : Stox) : result Stox :=
  match TreeWid st with
  | None => Crash NullItem
  | Some root => Ret (with_TreeWid st (Some (IDMarkFrom "1" root)))
  end.

(** ** Consistency check ([on_actionCheck_triggered]) *)

(** The four critical message boxes of the check. *)
Inductive CheckError : Type :=
| NoFollowing (stageName id : string)
    (* "has no following stages, it should be type 'sink' or type 'success'" *)
| OneFollowing (stageName id : string)
    (* "has only one following stage, it should be type 'direct'" *)
| NoCasting (stageName id : string)
    (* "has more than one following stage but no casting, it should have a casting set" *)
| ColumnsMismatch (stageName id : string) (n : nat) (casting : string) (cols : nat).
    (* "has n following stages but its casting '...' has c columns" *)

(** [for(auto &&t: Tables) if(t->readName()==Casting) { ...; break; }]:
    the first table of that name. *)
Definition findTable (Casting : string) (tables : list TableModel.t)
  : option TableModel.t :=
  find (fun t => String.eqb (TableModel.readName t) Casting) tables.

Definition isReserved (Casting : string) : bool :=
  String.eqb Casting "Direct" || String.eqb Casting "Success"
  || String.eqb Casting "Sink".

(** The body of the checking loop for one item. *)
Definition checkStage (tables : list TableModel.t) (it : Item) : option CheckError :=
  let n := childCount it in
  let Casting := text1 (stage it) in
  match n with
  | O =>
      if negb (String.eqb Casting "Success") && negb (String.eqb Casting "Sink")
      then Some (NoFollowing (text0 (stage it)) (text3 (stage it)))
      else None
  | S O =>
      if negb (String.eqb Casting "Direct")
      then Some (OneFollowing (text0 (stage it)) (text3 (stage it)))
      else None
  | _ =>
      if isReserved Casting
      then Some (NoCasting (text0 (stage it)) (text3 (stage it)))
      else match findTable Casting tables with
           | Some t =>
               if negb (TableModel.readCols t =? n)%nat
               then Some (ColumnsMismatch (text0 (stage it)) (text3 (stage it)) n
                                          Casting (TableModel.readCols t))
               else None
           | None => None
           end
  end.

(** The loop stops at the first item that fails. *)
Fixpoint firstError (tables : list TableModel.t) (its : list Item)
  : option CheckError :=
  match its with
  | [] => None
  | it :: its' =>
      match checkStage tables it with
      | Some e => Some e
      | None => firstError tables its'
      end
  end.

(** [fabs(1.0-sum)>0.001]: the literals are [double]s, so [sum] is
    converted and the difference and the comparison are made in double
    precision. *)
Definition leaks (sum : F32.t) : bool :=
  SFltb F64.thousandth (SFabs (F64.sub F64.one (F64.of_float sum))).

(** The rows of one table; [None] when the user stops at a warning. *)
Fixpoint warnRows (ask : nat -> button) (t : TableModel.t) (rs : list nat)
  (warnings : nat) : option nat :=
  match rs with
  | [] => Some warnings
  | r :: rs' =>
      if leaks (TableModel.sumCols t r)
      then if is_yes (ask (S warnings))
           then warnRows ask t rs' (S warnings)
           else None
      else warnRows ask t rs' warnings
  end.

Fixpoint warnTables (ask : nat -> button) (tables : list TableModel.t)
  (warnings : nat) : option nat :=
  match tables with
  | [] => Some warnings
  | t :: tables' =>
      match warnRows ask t (seq 0 (TableModel.readRows t)) warnings with
      | Some w => warnTables ask tables' w
      | None => None
      end
  end.

Inductive CheckStatus : Type :=
| ReplicationPending            (* a replication is in process: nothing done *)
| Inconsistent (e : CheckError) (* critical box, check abandoned *)
| CheckStopped                  (* the user did not continue at a warning *)
| Consistent                    (* "Model checked and found consistent." *)
| Workable (warnings : nat).    (* "... found workable (with n warnings)." *)

Definition on_actionCheck_triggered (dlg : Dialogs) (st : Stox)
  : result (Stox * CheckStatus) :=
  if CloneMode st then Ret (st, ReplicationPending)
  else
    st1 <- IDMarkTree (setChecked st false) ;;
    match TreeWid st1 with
    | None => Crash NullItem
    | Some root =>
        match firstError (Tables st1) (preorder root) with
        | Some e =>
            (* ui->TreeWid->currentItem()->setSelected(false), before the
               box is shown *)
            match treeCurrent dlg with
            | None => Crash NullItem
            | Some _ => Ret (st1, Inconsistent e)
            end
        | None =>
            match warnTables (continueCheck dlg) (Tables st1) 0 with
            | None => Ret (st1, CheckStopped)
            | Some O => Ret (setChecked st1 true, Consistent)
            | Some w => Ret (setChecked st1 true, Workable w)
            end
        end
    end.

(** ** Model run ([Cast], [on_actionRun_triggered]) *)

(** One call of [std::uniform_int_distribution<int>(0, r-1)] on the
    generator: the generator is the supply of its future draws, each
    reduced into the requested range. *)
Definition draw (r : nat) (g : list nat) : nat * list nat :=
  match g with
  | [] => (0%nat, [])
  | x :: g' => (x mod r, g')
  end.

(** The row index [Cast] reads the casting from: [r] starts as the number
    of rows and is replaced by a draw only when there is more than one. *)
Definition sampleRow (t : TableModel.t) (g : list nat) : nat * list nat :=
  let r := TableModel.readRows t in
  if (1 <? r)%nat then draw r g else (r, g).

(** [(f>0.0?f:Eps)]; comparing [f] with the double 0.0 is comparing it
    with zero. *)
Definition share (Eps f : F32.t) : F32.t := if F32.ltb F32.zero f then f else Eps.

Section Distribute.

(** "Distribute the lot": the loop over the following stages, [c] being
    the column of the next one and [cast] the call made on each. *)
Variable cast : Item -> F32.t -> list nat -> result (Item * list nat).
Variable t : TableModel.t.
Variable r : nat.
Variables n Eps : F32.t.

Fixpoint distribute (c : nat) (l : list Item) (g : list nat)
  : result (list Item * list nat) :=
  match l with
  | [] => Ret ([], g)
  | ch :: l' =>
      match TableModel.readCell t r c with
      | None => Crash OutOfRange
      | Some f =>
          match cast ch (F32.mul n (share Eps f)) g with
          | Crash e => Crash e
          | Ret (ch', g') =>
              match distribute (S c) l' g' with
              | Crash e => Crash e
              | Ret (l'', g'') => Ret (ch' :: l'', g'')
              end
          end
      end
  end.

End Distribute.

(** [Cast(node, n)].  Returns the subtree with the populations stored in
    it and the generator after the draws made. *)
Fixpoint Cast (tables : list TableModel.t) (Eps : F32.t) (node : Item) (n : F32.t)
  (g : list nat) {struct node} : result (Item * list nat) :=
  match node with
  | Node d cs =>
      (* Receive population *)
      let d' := setUserData d n in
      (* Terminal stage: all ends here *)
      if String.eqb (text1 d) "Success" || String.eqb (text1 d) "Sink"
      then Ret (Node d' cs, g)
      (* Direct transit stage: pass the whole lot *)
      else if String.eqb (text1 d) "Direct"
      then match cs with
           | [] => Crash NullItem
           | c0 :: rest =>
               match Cast tables Eps c0 n g with
               | Ret (c0', g') => Ret (Node d' (c0' :: rest), g')
               | Crash f => Crash f
               end
           end
      (* Caster stage: cast population to following stages *)
      else match findTable (text1 d) tables with
           | None => Ret (Node d' cs, g)
           | Some t =>
               let (r, g1) := sampleRow t g in
               match distribute (Cast tables Eps) t r n Eps 0 cs g1 with
               | Crash e => Crash e
               | Ret (cs', g') => Ret (Node d' cs', g')
               end
           end
  end.

(** The items whose 'report' mark is checked, in iterator order. *)
Definition reported (root : Item) : list Item :=
  filter (fun it => check2 (stage it)) (preorder root).

(** Header rows 1 and 2: ID and name of every reported stage. *)
Fixpoint headerCols (o : OutTableModel.t) (cols : Z) (its : list Item)
  : result OutTableModel.t :=
  match its with
  | [] => Ret o
  | it :: its' =>
      o1 <- OutTableModel.setCell o 1 cols (Text (text3 (stage it))) ;;
      o2 <- OutTableModel.setCell o1 2 cols (Text (text0 (stage it))) ;;
      headerCols o2 (cols + 1) its'
  end.

(** One output row: the population stored at every reported stage;
    [toFloat] of data never set is 0. *)
Fixpoint resultCols (o : OutTableModel.t) (row cols : Z) (its : list Item)
  : result OutTableModel.t :=
  match its with
  | [] => Ret o
  | it :: its' =>
      let x := match userData (stage it) with Some q => q | None => F32.zero end in
      o1 <- OutTableModel.setCell o row cols (Fixed3 x) ;;
      resultCols o1 row (cols + 1) its'
  end.

(** [for(int i=1;i<=Iters&&GoOn;++i)]: [todo] iterations are left, the
    next one is number [i]. *)
Fixpoint iterations (dlg : Dialogs) (N : F32.t) (todo : nat) (i : nat)
  (o : OutTableModel.t) (st : Stox) : result Stox :=
  match todo with
  | O => Ret (with_Output st (Some o))
  | S todo' =>
      if negb (GoOn st) then Ret (with_Output st (Some o))
      else
        o1 <- OutTableModel.setCell o (Z.of_nat i + 2) 0 (IterNo (Z.of_nat i)) ;;
        match TreeWid st with
        | None => Crash NullItem
        | Some root =>
            ' (root', g') <- Cast (Tables st) (Eps st) root N (generator st) ;;
            o2 <- resultCols o1 (Z.of_nat i + 2) 1 (reported root') ;;
            let st1 := with_generator (with_TreeWid st (Some root')) g' in
            (* QApplication::processEvents(): on_BCancel_clicked may run *)
            let st2 := if cancelDuring dlg i then with_GoOn st1 false else st1 in
            iterations dlg N todo' (S i) o2 st2
        end
  end.

(** ** Save ([Dump], [on_actionSave_triggered]) *)

Fixpoint Dump (node : Item) (n : Z) : list NodeData :=
  match node with
  | Node d cs => mkNodeData n (Node d cs) :: flat_map (fun c => Dump c (n + 1)%Z) cs
  end.

Fixpoint collect {A B : Type} (f : A -> result B) (l : list A) : result (list B) :=
  match l with
  | [] => Ret []
  | a :: l' =>
      b <- f a ;;
      bs <- collect f l' ;;
      Ret (b :: bs)
  end.

(** [for r, for c: stream << t->readCell(r,c)] *)
Definition writeCells (t : TableModel.t) : result (list token) :=
  rows <- collect (fun r =>
            collect (fun c => match TableModel.readCell t r c with
                              | Some v => Ret (TFloat v)
                              | None => Crash OutOfRange
                              end)
                    (seq 0 (TableModel.readCols t)))
          (seq 0 (TableModel.readRows t)) ;;
  Ret (List.concat rows).

Definition writeTable (t : TableModel.t) : result (list token) :=
  cells <- writeCells t ;;
  Ret (TString (TableModel.readName t)
       :: TInt (Z.of_nat (TableModel.readRows t))
       :: TInt (Z.of_nat (TableModel.readCols t)) :: cells).

(** What Save writes to the stream. *)
Definition writeModel (DumpList : list NodeData) (tables : list TableModel.t)
  : result (list token) :=
  tabs <- collect writeTable tables ;;
  Ret (TInt (Z.of_nat (List.length DumpList))
       :: flat_map (fun i => [TInt (getLevel i); TItem (stage (getItem i))]) DumpList
       ++ TInt (Z.of_nat (List.length tables)) :: List.concat tabs).

(** The part of [on_actionSave_triggered] that runs once the file name is
    known. *)
Definition saveModel (dlg : Dialogs) (st : Stox) : result Stox :=
  match TreeWid st with
  | None => Crash NullItem
  | Some root =>
      let DumpList := Dump root 0 in
      if canWrite dlg then
        bytes <- writeModel DumpList (Tables st) ;;
        Ret (setSaved (with_Disk st ((FileName st, bytes) :: Disk st)) true)
      else Ret st
  end.

Definition on_actionSave_as_triggered (dlg : Dialogs) (st : Stox) : result Stox :=
  if String.eqb (saveAsName dlg) "" then Ret st
  else saveModel dlg (with_FileName st (saveAsName dlg)).

Definition on_actionSave_triggered (dlg : Dialogs) (st : Stox) : result Stox :=
  if String.eqb (FileName st) "" then on_actionSave_as_triggered dlg st
  else saveModel dlg st.

(** ** Run *)

Inductive RunStatus : Type :=
| NotValidated   (* "Cannot run a model not validated by checking." *)
| Ran.           (* "Model successfully ran." *)

(** [int] addition of a small positive literal as the machine does it: a
    sum past INT_MAX wraps around. *)
Definition INT_MAX : Z := 2147483647.

Definition wrapInt (z : Z) : Z :=
  if (INT_MAX <? z)%Z then (z - 4294967296)%Z else z.

(** The run proper, once the model is known to be checked. *)
Definition runModel (dlg : Dialogs) (st : Stox) : result Stox :=
  let N := EInitial st in
  let Iters := EIters st in
  let st := with_Eps st (EEps st) in
  (* the stages the iterators over the tree stop at: none in an empty tree *)
  let shown := match TreeWid st with
               | Some root => reported root
               | None => []
               end in
  let cols := (1 + Z.of_nat (List.length shown))%Z in
  let cols := if (cols <? 5)%Z then 5%Z else cols in
  o <- OutTableModel.Init (wrapInt (Iters + 3)) cols ;;
  o <- OutTableModel.setCell o 0 1 (Text "Initial") ;;
  o <- OutTableModel.setCell o 0 2 (Number N) ;;
  o <- OutTableModel.setCell o 0 3 (Text "Eps") ;;
  o <- OutTableModel.setCell o 0 4 (Number (Eps st)) ;;
  o <- OutTableModel.setCell o 2 0 (Text "Iter") ;;
  o <- headerCols o 1 shown ;;
  iterations dlg N (Z.to_nat Iters) 1 o (with_GoOn (with_Output st (Some o)) true).

Definition on_actionRun_triggered (dlg : Dialogs) (st : Stox)
  : result (Stox * RunStatus) :=
  st1 <- (if negb (Saved st) && is_yes (saveAnswer dlg)
          then on_actionSave_triggered dlg st else Ret st) ;;
  st2 <- (if negb (Checked st1) && is_yes (checkAnswer dlg)
          then ' (s, _) <- on_actionCheck_triggered dlg st1 ;; Ret s
          else Ret st1) ;;
  if negb (Checked st2) then Ret (st2, NotValidated)
  else
    st3 <- runModel dlg st2 ;;
    Ret (st3, Ran).

(** ** New and Open ([on_actionNew_triggered], [on_actionOpen_triggered]) *)

(** "The first node is always the same". *)
Definition startItem : Item := Node (mkStage "Start" "" false "" None) [].

Definition on_actionNew_triggered (dlg : Dialogs) (st : Stox) : result Stox :=
  st1 <- (if negb (Saved st) && is_yes (saveAnswer dlg)
          then on_actionSave_triggered dlg st else Ret st) ;;
  let st2 := with_FileName st1 "" in
  let st3 := with_TreeWid st2 (Some startItem) in
  let st4 := with_CBCastings (with_NumTables (with_Tables st3 []) 0) [] in
  Ret (setChecked (setSaved st4 false) false).

(** [stream >> x]: the next field when it has the type read, else the
    value a stream past its end gives (zero, empty) with the stream left
    where it is. *)
Definition readInt (s : list token) : Z * list token :=
  match s with TInt z :: s' => (z, s') | _ => (0%Z, s) end.
Definition readString (s : list token) : string * list token :=
  match s with TString x :: s' => (x, s') | _ => (""%string, s) end.
Definition readFloat (s : list token) : F32.t * list token :=
  match s with TFloat q :: s' => (q, s') | _ => (F32.zero, s) end.
Definition readItem (s : list token) : Stage * list token :=
  match s with TItem d :: s' => (d, s') | _ => (emptyStage, s) end.

(** [for(int i=0;i<stages&&!stream.atEnd();++i)]: [n] stages are still
    to be read. *)
Fixpoint readStages (n : nat) (s : list token) (DumpList : list NodeData)
  : list NodeData * list token :=
  match n with
  | O => (DumpList, s)
  | S n' =>
      match s with
      | [] => (DumpList, s)
      | _ =>
          let (lev, s1) := readInt s in
          let (d, s2) := readItem s1 in
          readStages n' s2 (DumpList ++ [mkNodeData lev (Node d [])])
      end
  end.

(** [for(int i=0;i<rows*cols;++i) stream>>raw[i]] *)
Fixpoint readFloats (n : nat) (s : list token) : list F32.t * list token :=
  match n with
  | O => ([], s)
  | S n' =>
      let (q, s1) := readFloat s in
      let (qs, s2) := readFloats n' s1 in
      (q :: qs, s2)
  end.

(** The loop over the [NumTables] slots of [Tables]; also gathers
    [tablenames].  A negative size makes [new float[]] or [resize] throw. *)
Fixpoint readTables (n : nat) (s : list token)
  : result (list TableModel.t * list string * list token) :=
  match n with
  | O => Ret ([], [], s)
  | S n' =>
      let (name, s1) := readString s in
      let t := TableModel.setName TableModel.create name in
      let (rows, s2) := readInt s1 in
      let (cols, s3) := readInt s2 in
      if (rows <? 0)%Z || (cols <? 0)%Z then Crash LengthError
      else
        let (raw, s4) := readFloats (Z.to_nat (rows * cols)) s3 in
        let t := TableModel.FillFromRaw t raw (Z.to_nat rows) (Z.to_nat cols) in
        ' (ts, names, s5) <- readTables n' s4 ;;
        Ret (t :: ts, name :: names, s5)
  end.

Definition insertChild0 (parent child : Item) : Item :=
  match parent with Node d cs => Node d (child :: cs) end.

(** [std::find_if(rbegin(DumpList), rend(DumpList), level == pl)] followed
    by [insertChild(0, ...)] on the item found.  [stack] is DumpList from
    its back to its front; [None] when no entry has level [pl]. *)
Fixpoint insertUnderNearest (pl : Z) (child : Item) (stack : list NodeData)
  : option (list NodeData) :=
  match stack with
  | [] => None
  | nd :: rest =>
      if (getLevel nd =? pl)%Z
      then Some (mkNodeData (getLevel nd) (insertChild0 (getItem nd) child) :: rest)
      else match insertUnderNearest pl child rest with
           | Some rest' => Some (nd :: rest')
           | None => None
           end
  end.

(** "Rebuild the model tree": [stages] passes are left.  Each takes the
    back of DumpList, hangs it under the nearest entry one level up, or
    makes it the top-level item and leaves the loop.  Taking the back of an
    empty list is a fault. *)
Fixpoint rebuild (stages : nat) (stack : list NodeData) : result (option Item) :=
  match stages with
  | O => Ret None
  | S stages' =>
      match stack with
      | [] => Crash NullItem
      | node :: rest =>
          match insertUnderNearest (getLevel node - 1) (getItem node) rest with
          | Some rest' => rebuild stages' rest'
          | None => Ret (Some (getItem node))
          end
      end
  end.

Definition lookupFile (f : string) (disk : list (string * list token))
  : option (list token) :=
  match find (fun e => String.eqb (fst e) f) disk with
  | Some e => Some (snd e)
  | None => None
  end.

(** What Open does with the contents of the file it could open. *)
Definition readModel (filename : string) (stream : list token) (st : Stox)
  : result Stox :=
  let (stages, s1) := readInt stream in
  let (DumpList, s2) := readStages (Z.to_nat stages) s1 [] in
  let (NumTables', s3) := readInt s2 in
  if (NumTables' <? 0)%Z then Crash LengthError
  else
    ' (tables, tablenames, _) <- readTables (Z.to_nat NumTables') s3 ;;
    let st1 := with_NumTables (with_Tables st tables) NumTables' in
    let st2 := setChecked (setSaved (with_FileName st1 filename) true) false in
    top <- rebuild (Z.to_nat stages) (rev DumpList) ;;
    (* addItems(tablenames); model()->sort(0) *)
    let st3 := with_CBCastings (with_TreeWid st2 top) (sort0 tablenames) in
    (* on_BExpandTree_clicked: Xpand on topLevelItem(0) *)
    match top with
    | None => Crash NullItem
    | Some _ => Ret st3
    end.

Definition on_actionOpen_triggered (dlg : Dialogs) (st : Stox) : result Stox :=
  let proceed (st1 : Stox) : result Stox :=
    let filename := openName dlg in
    if String.eqb filename "" then Ret st1
    else
      let st2 := with_TreeWid st1 None in
      match lookupFile filename (Disk st2) with
      | Some stream => readModel filename stream st2
      | None => on_actionNew_triggered dlg st2
      end in
  if negb (Saved st) then
    match saveAnswer dlg with
    | Yes => st1 <- on_actionSave_triggered dlg st ;; proceed st1
    | Cancel => Ret st
    | No => proceed st
    end
  else proceed st.

(** ** Paste a casting ([on_BPasteTable_clicked]) *)

Fixpoint count (ch : ascii) (s : string) : nat :=
  match s with
  | EmptyString => 0
  | String a s' => (if Ascii.eqb a ch then 1 else 0) + count ch s'
  end.

Definition tab : ascii := "009"%char.
Definition newline : ascii := "010"%char.

Section Paste.

(** [QTextStream parser(&source); parser >> raw[i]] for [i] below the
    given count: the floats a text yields, a library routine. *)
Variable parseFloats : string -> nat -> list F32.t.

Definition on_BPasteTable_clicked (dlg : Dialogs) (st : Stox) : Stox :=
  if String.eqb (ENewCastName st) "" then st
  else
    let name := ENewCastName st in
    if existsb (String.eqb name) TypeNames then with_ENewCastName st ""
    else if existsb (String.eqb name) (CBCastings st) then with_ENewCastName st ""
    else
      let st := with_ENewCastName st "" in
      let dummy := TableModel.create in
      (* Tables.push_back(dummy); NumTables++; *)
      let pushed (d : TableModel.t) : Stox :=
        with_NumTables (with_Tables st (Tables st ++ [d])) (NumTables st + 1) in
      match clipboard dlg with
      | Some source =>
          let c := count tab source in
          let r := count newline source in
          if (c <? 2)%nat || (r <? 1)%nat then pushed dummy
          else
            let c := ((c + r) / r)%nat in
            let raw := parseFloats source (r * c) in
            let dummy := TableModel.setName (TableModel.FillFromRaw dummy raw r c) name in
            (* addItem(name); model()->sort(0) *)
            let st := with_CBCastings (pushed dummy) (sort0 (CBCastings st ++ [name])) in
            setSaved (setChecked st false) false
      | None => pushed dummy
      end.

End Paste.

(** ** Report marks ([on_BShowAll_clicked] and its two siblings) *)

(** The iterator is advanced once before the loop: every item but the
    top-level one is visited. *)
Definition markBelowTop (f : Stage -> Stage) (st : Stox) : Stox :=
  match TreeWid st with
  | Some (Node d cs) => with_TreeWid st (Some (Node d (map (mapItem f) cs)))
  | None => st
  end.

Definition on_BShowAll_clicked (st : Stox) : Stox :=
  markBelowTop (fun d => setCheckState2 d true) st.

Definition on_BShowSuccess_clicked (st : Stox) : Stox :=
  markBelowTop (fun d => setCheckState2 d (String.eqb (text1 d) "Success")) st.

Definition on_BShowNone_clicked (st : Stox) : Stox :=
  markBelowTop (fun d => setCheckState2 d false) st.

(** ** Editing a cell in the table view

    The view's delegate calls [TableModel::setData] on the table it shows,
    here the one at position [i] of [Tables].  No slot of [Stox] is
    connected to the table's [dataChanged] signal. *)
Definition TableView_edit (st : Stox) (i row col : nat) (value : F32.t) : Stox :=
  match nth_error (Tables st) i with
  | Some t =>
      with_Tables st
        (assign i (snd (TableModel.setData t row col value EditRole)) (Tables st))
  | None => st
  end.

(** ** The structural rules of a checked model *)

(** What the check asks of one stage, by its number of following stages:
    none, a terminal kind; one, Direct; more, a casting that is not a
    reserved kind and is the name of a table with one column per following
    stage. *)
Definition stageRule (tables : list TableModel.t) (it : Item) : Prop :=
  match childCount it with
  | O => text1 (stage it) = "Success"%string \/ text1 (stage it) = "Sink"%string
  | S O => text1 (stage it) = "Direct"%string
  | n =>
      isReserved (text1 (stage it)) = false /\
      exists t, findTable (text1 (stage it)) tables = Some t /\
                TableModel.readCols t = n
  end.

(** ** Notions and concrete models used in the statements *)





(** The table of one pasted line "5 0" followed by a line "0 0". *)
Definition rawTable : TableModel.t :=
  TableModel.FillFromRaw TableModel.create [F32.of_Z 5; F32.zero; F32.zero; F32.zero] 2 2.

(** A casting of two equal rows: which one is drawn does not matter. *)
Definition tableQ : TableModel.t :=
  TableModel.setName
    (TableModel.FillFromRaw TableModel.create
       [F32.ratio 1 4; F32.ratio 3 4; F32.ratio 1 4; F32.ratio 3 4] 2 2) "Q".

Definition leaf (name kind : string) : Item :=
  Node (mkStage name kind true "" None) [].

Definition branchQ : Item :=
  Node (mkStage "B" "Q" true "" None) [leaf "C" "Success"; leaf "D" "Sink"].

(** [max], as the specification uses it. *)
Definition fmax (a b : F32.t) : F32.t := if F32.ltb a b then b else a.

(** A casting whose rows are both [0, 1], and a descent of [k] stages that
    carry it, each followed by the next one (under the zero cell) and by a
    sink; a Success stage ends the descent. *)
Definition tableZ : TableModel.t :=
  TableModel.setName
    (TableModel.FillFromRaw TableModel.create
       [F32.zero; F32.one; F32.zero; F32.one] 2 2) "Z".

Fixpoint chain (k : nat) : Item :=
  match k with
  | O => leaf "C" "Success"
  | S k' => Node (mkStage "B" "Z" true "" None) [chain k'; leaf "D" "Sink"]
  end.

(** A stage left without casting (empty name) above two stages that hold
    populations of an earlier iteration. *)
Definition orphanStage : Stage := mkStage "B" "" true "1.1" None.

Definition oldChildren : list Item :=
  [Node (mkStage "C" "Success" true "1.1.1" (Some (F32.of_Z 3))) [];
   Node (mkStage "D" "Sink" true "1.1.2" (Some (F32.of_Z 5))) []].

(** Start -> A (Direct) -> B (casting "T": one row 1/2, 1/2) -> C (Success),
    D (Sink); 100 individuals, one iteration. *)
Definition tableT : TableModel.t :=
  TableModel.setName (TableModel.FillFromRaw TableModel.create [F32.ratio 1 2; F32.ratio 1 2] 1 2) "T".

Definition scenarioTree : Item :=
  Node (mkStage "Start" "Direct" false "" None)
    [Node (mkStage "A" "Direct" true "" None)
       [Node (mkStage "B" "T" true "" None)
          [leaf "C" "Success"; leaf "D" "Sink"]]].

Definition scenario : Stox :=
  mkStox (Some scenarioTree) [tableT] 1 None false true "model.sxm" F32.zero false false
         [] "" ["T"%string] (F32.of_Z 100) 1 (F32.ratio 1 1024) [].

(** Every question answered with Yes, nothing on the clipboard, files
    writable, no cancelling; the top-level stage is current. *)
Definition agreeing : Dialogs :=
  mkDialogs Yes Yes (fun _ => Yes) "model.sxm" "model.sxm" true None (fun _ => false)
            (Some []).

(** A model like the scenario, its casting having two rows. *)
Definition tableT2 : TableModel.t :=
  TableModel.setName
    (TableModel.FillFromRaw TableModel.create [F32.ratio 1 2; F32.ratio 1 2; F32.ratio 1 4; F32.ratio 3 4] 2 2) "T".

Definition ruledModel : Stox :=
  mkStox (Some scenarioTree) [tableT2] 1 None false true "model.sxm" F32.zero false false
         [1%nat; 0%nat] "" ["T"%string] (F32.of_Z 100) 2 (F32.ratio 1 1024) [].

(** The same tree with the top-level stage as the program creates it:
    named "Start", no casting assignment. *)
Definition bareStartTree : Item :=
  Node (mkStage "Start" "" false "" None) (children scenarioTree).

Definition bareStartModel : Stox :=
  mkStox (Some bareStartTree) [tableT2] 1 None false true "model.sxm" F32.zero false false
         [1%nat; 0%nat] "" ["T"%string] (F32.of_Z 100) 2 (F32.ratio 1 1024) [].

(** Stage B carries a casting name of which there is no table: "Ghost",
    or the empty name a stage is left with when its casting is deleted. *)
Definition ghostBranch (casting : string) : Item :=
  Node (mkStage "Start" "Direct" false "" None)
    [Node (mkStage "B" casting true "" None) [leaf "C" "Success"; leaf "D" "Sink"]].

Definition ghostModel (casting : string) : Stox :=
  mkStox (Some (ghostBranch casting)) [tableT2] 1 None false true "model.sxm" F32.zero
         false false [] "" ["T"%string] (F32.of_Z 100) 1 (F32.ratio 1 1024) [].






(** The model of the two-row scenario, checked and saved. *)
Definition checkedModel : Stox := setChecked ruledModel true.

(** The scenario model with a name typed for a new casting. *)
Definition pastingModel : Stox := with_ENewCastName checkedModel "New".

Definition holding (clip : option string) : Dialogs :=
  mkDialogs Yes Yes (fun _ => Yes) "model.sxm" "model.sxm" true clip (fun _ => false)
            (Some []).

(** A tree with the IDs blanked: what remains is its shape and every
    item's name, casting, report mark and stored population. *)
Definition eraseIDs (tree : option Item) : option Item :=
  option_map (mapItem (fun d => setText3 d "")) tree.


(** A new model as the program starts with (only "Start"), taken as saved. *)
Definition freshModel : Stox :=
  mkStox (Some startItem) [] 0 None false true "model.sxm" F32.zero false false
         [] "" [] (F32.of_Z 100) 1 (F32.ratio 1 1024) [].



(** ** Notions used in the further properties *)

(** The IDs of a tree, in iterator order. *)
Definition ids (it : Item) : list string :=
  map (fun x => text3 (stage x)) (preorder it).

(** [s] is [p], or [p] followed by a dot and more. *)
Definition extends (p s : string) : Prop :=
  exists t, s = (p ++ t)%string /\ (t = ""%string \/ exists t', t = String "." t').

(** No dot in a string. *)
Fixpoint dotless (s : string) : Prop :=
  match s with
  | EmptyString => True
  | String a s' => a <> "."%char /\ dotless s'
  end.

(** What a stage that the check lets through looks like, read off the three
    branches of the checking loop: a stage with several following stages
    only needs a casting that is no reserved kind, and whose table, when
    there is one, has as many columns. *)
Definition passes (tables : list TableModel.t) (it : Item) : Prop :=
  match childCount it with
  | O => text1 (stage it) = "Success"%string \/ text1 (stage it) = "Sink"%string
  | S O => text1 (stage it) = "Direct"%string
  | n =>
      isReserved (text1 (stage it)) = false /\
      forall t, findTable (text1 (stage it)) tables = Some t ->
                TableModel.readCols t = n
  end.

(** What a critical box says about the stage [it] it names. *)
Definition describes (tables : list TableModel.t) (e : CheckError) (it : Item) : Prop :=
  match e with
  | NoFollowing nm id =>
      nm = text0 (stage it) /\ id = text3 (stage it) /\ childCount it = 0%nat /\
      text1 (stage it) <> "Success"%string /\ text1 (stage it) <> "Sink"%string
  | OneFollowing nm id =>
      nm = text0 (stage it) /\ id = text3 (stage it) /\ childCount it = 1%nat /\
      text1 (stage it) <> "Direct"%string
  | NoCasting nm id =>
      nm = text0 (stage it) /\ id = text3 (stage it) /\ (2 <= childCount it)%nat /\
      isReserved (text1 (stage it)) = true
  | ColumnsMismatch nm id n casting cols =>
      nm = text0 (stage it) /\ id = text3 (stage it) /\ n = childCount it /\
      (2 <= n)%nat /\ casting = text1 (stage it) /\
      exists t, findTable casting tables = Some t /\
                TableModel.readCols t = cols /\ cols <> n
  end.

(** The rows of a casting, and of all castings, whose sum is off 1 by more
    than 0.001. *)
Definition leakingIn (t : TableModel.t) : nat :=
  List.length (filter (fun r => leaks (TableModel.sumCols t r))
                      (seq 0 (TableModel.readRows t))).

Definition leakingRows (tables : list TableModel.t) : nat :=
  list_sum (map leakingIn tables).

(** An item's data without the population stored in it. *)
Definition clearData (d : Stage) : Stage :=
  mkStage (text0 d) (text1 d) (check2 d) (text3 d) None.

(** [data(0,Qt::UserRole).toFloat()]: the population stored in an item, 0
    when none was stored. *)
Definition population (it : Item) : F32.t :=
  match userData (stage it) with Some q => q | None => F32.zero end.

(** A table that can be sampled: shaped, with at least two rows. *)
Definition bootstrappable (t : TableModel.t) : Prop :=
  TableModel.shaped t /\ (2 <= TableModel.readRows t)%nat.

(** The sizes an output table is kept at: [R] rows of [C] cells. *)
Definition sized (o : OutTableModel.t) (R C : nat) : Prop :=
  List.length (OutTableModel.rawdata o) = R /\
  Forall (fun row => List.length row = C) (OutTableModel.rawdata o) /\
  OutTableModel.myrows o = R /\ OutTableModel.mycols o = C.


(** An item's data without its report mark. *)
Definition clearCheck (d : Stage) : Stage := setCheckState2 d false.

(** ** The slots that manage castings

    What these slots read from widgets that [Stox] does not hold is given
    to them: the values of the two spin boxes, the answer to a message box,
    and the selection. *)

(** The selection: the current entry of the combo box (-1 for none), the
    table the table view shows (its position in [Tables], [None] for a null
    model), and the current item of the tree (the positions leading to it
    from the top-level item, [None] for no current item). *)
Record Selection : Type := mkSelection {
  currentIndex : Z;
  model : option nat;
  currentItem : option (list nat)
}.

(** [findText]: position of the first entry equal to [name], -1 if none. *)
Fixpoint findText (name : string) (items : list string) : Z :=
  match items with
  | [] => (-1)%Z
  | x :: items' =>
      if String.eqb x name then 0%Z
      else let i := findText name items' in
           if (i <? 0)%Z then (-1)%Z else (i + 1)%Z
  end.

(** [itemText(index)]: the empty string for an index out of range. *)
Definition itemText (index : Z) (items : list string) : string :=
  if (index <? 0)%Z then ""%string else nth (Z.to_nat index) items ""%string.

(** "Create an empty casting table". *)
Definition on_BNewTable_clicked (SBRows SBCols : nat) (st : Stox) : Stox :=
  if String.eqb (ENewCastName st) "" then st
  else
    let name := ENewCastName st in
    if existsb (String.eqb name) TypeNames then with_ENewCastName st ""
    else if (0 <=? findText name (CBCastings st))%Z then with_ENewCastName st ""
    else
      let st := with_ENewCastName st "" in
      let dummy := TableModel.FillZeroes SBRows SBCols name in
      let st := with_NumTables (with_Tables st (Tables st ++ [dummy])) (NumTables st + 1) in
      (* addItem(name); model()->sort(0) *)
      let st := with_CBCastings st (sort0 (CBCastings st ++ [name])) in
      setSaved (setChecked st false) false.

(** The table behind [TableView->model()]. *)
Definition shownTable (sel : Selection) (st : Stox) : option TableModel.t :=
  match model sel with
  | Some i => nth_error (Tables st) i
  | None => None
  end.

(** "Duplicate the current casting table".  Copying from a null model is
    a fault. *)
Definition on_BDupliTable_clicked (sel : Selection) (st : Stox) : result Stox :=
  if (currentIndex sel <? 0)%Z then Ret st
  else if String.eqb (ENewCastName st) "" then Ret st
  else
    let name := ENewCastName st in
    if existsb (String.eqb name) TypeNames then Ret (with_ENewCastName st "")
    else if (0 <=? findText name (CBCastings st))%Z then Ret (with_ENewCastName st "")
    else
      let st1 := with_ENewCastName st "" in
      match shownTable sel st with
      | None => Crash NullItem
      | Some source =>
          let dummy := TableModel.FillFromCopy source name in
          let st2 := with_NumTables (with_Tables st1 (Tables st1 ++ [dummy]))
                                    (NumTables st1 + 1) in
          (* addItem(name); model()->sort(0) *)
          let st3 := with_CBCastings st2 (sort0 (CBCastings st2 ++ [name])) in
          Ret (setSaved (setChecked st3 false) false)
      end.

(** [if(it->text(1)==oldname) it->setText(1,name)], as done on every item
    the iterator gives. *)
Definition recast (oldname name : string) (d : Stage) : Stage :=
  if String.eqb (text1 d) oldname then setText1 d name else d.

(** "Rename the current casting".  The name typed is not cleared when the
    rename goes through. *)
Definition on_BRenameTable_clicked (sel : Selection) (st : Stox) : result Stox :=
  if (currentIndex sel <? 0)%Z then Ret st
  else if String.eqb (ENewCastName st) "" then Ret st
  else
    let name := ENewCastName st in
    if existsb (String.eqb name) TypeNames then Ret (with_ENewCastName st "")
    else
      let oldname := itemText (currentIndex sel) (CBCastings st) in
      let ind := findText name (CBCastings st) in
      if (0 <=? ind)%Z && negb (ind =? currentIndex sel)%Z
      then Ret (with_ENewCastName st "")
      else
        (* setItemText(currentIndex, name); model()->sort(0) *)
        let st1 := with_CBCastings st
                     (sort0 (assign (Z.to_nat (currentIndex sel)) name
                                    (CBCastings st))) in
        match model sel, shownTable sel st with
        | Some i, Some t =>
            let st2 := with_Tables st1 (assign i (TableModel.setName t name) (Tables st1)) in
            let st3 := with_TreeWid st2
                         (option_map (mapItem (recast oldname name)) (TreeWid st2)) in
            Ret (setSaved (setChecked st3 false) false)
        | _, _ => Crash NullItem
        end.

(** [removeItem(index)] and [Tables.remove(remTable)]. *)
Fixpoint removeNth {A : Type} (i : nat) (l : list A) : list A :=
  match l, i with
  | [], _ => []
  | _ :: l', O => l'
  | x :: l', S j => x :: removeNth j l'
  end.

(** "Delete the current casting"; [answer] is what the user says to the
    question the slot asks.  Removing a null model from the list removes
    nothing. *)
Definition on_BDelTable_clicked (sel : Selection) (answer : button) (st : Stox) : Stox :=
  if (currentIndex sel <? 0)%Z then st
  else
    let name := itemText (currentIndex sel) (CBCastings st) in
    if negb (is_yes answer) then st
    else
      let st1 := with_CBCastings st
                   (removeNth (Z.to_nat (currentIndex sel)) (CBCastings st)) in
      let st2 := with_Tables st1
                   (match model sel with
                    | Some i => removeNth i (Tables st1)
                    | None => Tables st1
                    end) in
      let st3 := with_NumTables st2 (NumTables st2 - 1) in
      let st4 := with_TreeWid st3 (option_map (mapItem (recast name "")) (TreeWid st3)) in
      setSaved (setChecked st4 false) false.

(** The castings are named apart: no two tables share a name, no table
    carries a name of [TypeNames], and the combo box lists the names of the
    tables, each once. *)
Definition namedApart (st : Stox) : Prop :=
  NoDup (map TableModel.readName (Tables st)) /\
  Forall (fun n => ~ In n TypeNames) (map TableModel.readName (Tables st)) /\
  NoDup (CBCastings st) /\
  (forall n, In n (CBCastings st) <-> In n (map TableModel.readName (Tables st))).

(** ** The slots that edit the tree

    The current item is a pointer in the program; here it is the list of
    child positions that lead to it from the top-level item.  A list that
    leads nowhere stands for no item of the tree and leaves it as it is. *)

Fixpoint itemAt (p : list nat) (it : Item) : option Item :=
  match p with
  | [] => Some it
  | i :: p' =>
      match nth_error (children it) i with
      | Some c => itemAt p' c
      | None => None
      end
  end.

(** Apply [f] to the element at position [i]. *)
Fixpoint applyNth {A : Type} (i : nat) (f : A -> A) (l : list A) : list A :=
  match l, i with
  | [], _ => []
  | x :: l', O => f x :: l'
  | x :: l', S j => x :: applyNth j f l'
  end.

(** Apply [f] to the item a path leads to. *)
Fixpoint updateAt (p : list nat) (f : Item -> Item) (it : Item) : Item :=
  match p with
  | [] => f it
  | i :: p' =>
      match it with
      | Node d cs => Node d (applyNth i (updateAt p' f) cs)
      end
  end.

(** [AddTreeChild(parent, name, cast, show)]: a new item with these three
    columns, added after the children [parent] has. *)
Definition AddTreeChild (name cast : string) (show : bool) (parent : Item) : Item :=
  match parent with
  | Node d cs => Node d (cs ++ [Node (mkStage name cast show "" None) []])
  end.

(** [NodeType==1?ui->CBCastings->currentText():TypeNames[NodeType]] *)
Definition chosenKind (sel : Selection) (NodeType : nat) (st : Stox) : string :=
  if (NodeType =? 1)%nat then itemText (currentIndex sel) (CBCastings st)
  else nth NodeType TypeNames ""%string.

(** "Add a stage following the current stage"; [ENewNodeName] is the name
    typed and [NodeType] the type selected with the radio buttons. *)
Definition on_BChild_clicked (sel : Selection) (ENewNodeName : string)
  (NodeType : nat) (st : Stox) : Stox :=
  match currentItem sel with
  | None => st
  | Some p =>
      if String.eqb ENewNodeName "" then st
      else
        let st1 := with_TreeWid st
          (option_map (updateAt p (AddTreeChild ENewNodeName
                                     (chosenKind sel NodeType st) false))
                      (TreeWid st)) in
        setSaved (setChecked st1 false) false
  end.

(** "Add a stage at the same level of the current stage": refused at the
    top-level item, which has no parent. *)
Definition on_BSibling_clicked (sel : Selection) (ENewNodeName : string)
  (NodeType : nat) (st : Stox) : Stox :=
  match currentItem sel with
  | None => st
  | Some p =>
      match p with
      | [] => st
      | _ :: _ =>
          if String.eqb ENewNodeName "" then st
          else
            let st1 := with_TreeWid st
              (option_map (updateAt (removelast p)
                             (AddTreeChild ENewNodeName
                                (chosenKind sel NodeType st) false))
                          (TreeWid st)) in
            setSaved (setChecked st1 false) false
      end
  end.

(** "Set stage type". *)
Definition on_BSetType_clicked (sel : Selection) (NodeType : nat) (st : Stox) : Stox :=
  match currentItem sel with
  | None => st
  | Some p =>
      let st1 := with_TreeWid st
        (option_map (updateAt p (fun it =>
                       Node (setText1 (stage it) (chosenKind sel NodeType st))
                            (children it)))
                    (TreeWid st)) in
      setSaved (setChecked st1 false) false
  end.

(** [RemoveNode(node)]: the item a path leads to is taken out of its
    parent with everything below it (the C++ first empties it child by
    child, then takes and deletes it); [None] when it is the top-level
    item itself, which leaves the widget empty. *)
Fixpoint RemoveNode (p : list nat) (it : Item) : option Item :=
  match p with
  | [] => None
  | i :: p' =>
      match it with
      | Node d cs =>
          match nth_error cs i with
          | Some c =>
              match RemoveNode p' c with
              | Some c' => Some (Node d (assign i c' cs))
              | None => Some (Node d (removeNth i cs))
              end
          | None => Some (Node d cs)
          end
      end
  end.

(** "Delete current stage from the model tree"; [answer] is what the user
    says to "Are you sure?". *)
Definition on_BRemoveNode_clicked (sel : Selection) (answer : button) (st : Stox)
  : Stox :=
  if CloneMode st then st
  else
    match currentItem sel with
    | None => st
    | Some p =>
        if negb (is_yes answer) then st
        else
          let st1 := with_TreeWid st
            (match TreeWid st with
             | Some root => RemoveNode p root
             | None => None
             end) in
          setSaved (setChecked st1 false) false
    end.

Definition with_CloneMode (st : Stox) (x : bool) : Stox :=
  mkStox (TreeWid st) (Tables st) (NumTables st) (Output st) (Checked st) (Saved st)
    (FileName st) (Eps st) (GoOn st) x (generator st)
    (ENewCastName st) (CBCastings st) (EInitial st) (EIters st)
    (EEps st) (Disk st).

(** "Start stage replication operation"; [isChecked] is the state of the
    Replicate button.  The stage to replicate, [SourceClone], is the
    current item; it is kept by the caller, as a path.  Starting with no
    current item is a fault (its name is read for the message). *)
Definition on_BCloneNode_clicked (sel : Selection) (isChecked : bool) (st : Stox)
  : result Stox :=
  let newCloneMode := isChecked in
  if CloneMode st && negb newCloneMode then Ret (with_CloneMode st false)
  else
    st1 <- (if newCloneMode
            then match currentItem sel with
                 | None => Crash NullItem
                 | Some _ => Ret (with_CloneMode st true)
                 end
            else Ret st) ;;
    Ret (setSaved (setChecked st1 false) false).

(** "React to stage selected in the model tree as replication target":
    [current] is the item clicked.  The copy is deep: the stage with all
    its columns and everything below it. *)
Definition on_TreeWid_currentItemChanged (current SourceClone : option (list nat))
  (st : Stox) : result Stox :=
  match current with
  | None => Ret st
  | Some target =>
      if CloneMode st then
        match TreeWid st with
        | None => Crash NullItem
        | Some root =>
            match SourceClone with
            | None => Crash NullItem
            | Some src =>
                match itemAt src root with
                | None => Crash NullItem
                | Some clone =>
                    Ret (with_CloneMode
                           (with_TreeWid st
                              (Some (updateAt target
                                       (fun it => Node (stage it) (children it ++ [clone]))
                                       root)))
                           false)
                end
            end
        end
      else Ret st
  end.

(** Two lines of three numbers. *)
Definition twoLines : string :=
  ("1" ++ String tab ("2" ++ String tab ("3" ++ String newline
   ("4" ++ String tab ("5" ++ String tab ("6" ++ String newline ""))))))%string.

(** Every question answered with Yes while no stage is current in the
    tree, as it is once the tree was cleared and before a stage is
    selected. *)
Definition unselected : Dialogs :=
  mkDialogs Yes Yes (fun _ => Yes) "model.sxm" "model.sxm" true None (fun _ => false)
            None.

(** The two-row scenario, checked and saved, with the largest number of
    iterations an [int] holds. *)
Definition longRun : Stox :=
  mkStox (Some scenarioTree) [tableT2] 1 None true true "model.sxm" F32.zero false
         false [] "" ["T"%string] (F32.of_Z 100) INT_MAX (F32.ratio 1 1024) [].

(** * Properties *)

Unset Implicit Arguments.

(** ** Vectors *)

Lemma assign_length {A : Type} (i : nat) (x : A) (v : list A) :
  List.length (assign i x v) = List.length v.
Proof.
  revert i. induction v as [| y v IH]; intros [| i]; simpl; auto.
Qed.

Lemma assign_Forall {A : Type} (P : A -> Prop) (i : nat) (x : A) (v : list A) :
  Forall P v -> P x -> Forall P (assign i x v).
Proof.
  intros Hv Hx. revert i.
  induction Hv as [| y v Hy Hv IH]; intros [| i]; simpl; auto.
Qed.

Lemma assign_nth_error {A : Type} (i : nat) (x : A) (v : list A) :
  (i < List.length v)%nat -> nth_error (assign i x v) i = Some x.
Proof.
  revert i. induction v as [| y v IH]; intros [| i] H; simpl in *; try lia; auto.
  apply IH. lia.
Qed.

Lemma assign_nth_error_other {A : Type} (i j : nat) (x : A) (v : list A) :
  i <> j -> nth_error (assign i x v) j = nth_error v j.
Proof.
  revert i j. induction v as [| y v IH]; intros [| i] [| j] H; simpl; auto;
    try congruence.
Qed.

(** ** Casting tables *)


(** Neither clamp stops a NaN: no comparison with it holds. *)
Lemma clampRow_nan (row : list F32.t) (pos : F32.t) :
  TableModel.clampRow row pos (TableModel.clamp01 S754_nan) = S754_nan.
Proof.
  change (TableModel.clamp01 S754_nan) with S754_nan.
  unfold TableModel.clampRow.
  assert (H : F32.add (accumulate row (F32.opp pos)) S754_nan = S754_nan).
  { destruct (accumulate row (F32.opp pos)); reflexivity. }
  rewrite H. reflexivity.
Qed.


Lemma FillFromRaw_shaped (tm : TableModel.t) (raw : list F32.t) (rows cols : nat) :
  TableModel.shaped (TableModel.FillFromRaw tm raw rows cols).
Proof.
  split; simpl.
  - rewrite length_map, length_seq. reflexivity.
  - apply Forall_forall. intros row Hin.
    apply in_map_iff in Hin. destruct Hin as [r [<- _]].
    rewrite length_map, length_seq. reflexivity.
Qed.

(** In a shaped table a valid index addresses a cell. *)
Lemma shaped_valid_cell (tm : TableModel.t) (row col : nat) :
  TableModel.shaped tm -> TableModel.isValid tm row col = true ->
  exists rowv pos, nth_error (TableModel.rawdata tm) row = Some rowv /\
                   nth_error rowv col = Some pos.
Proof.
  intros [Hr Hc] Hv. unfold TableModel.isValid in Hv.
  apply andb_true_iff in Hv. destruct Hv as [H1 H2].
  apply Nat.ltb_lt in H1. apply Nat.ltb_lt in H2.
  destruct (nth_error (TableModel.rawdata tm) row) as [rowv |] eqn:E.
  - assert (Hl : List.length rowv = TableModel.mycols tm).
    { rewrite Forall_forall in Hc. apply Hc. eapply nth_error_In; eauto. }
    destruct (nth_error rowv col) as [pos |] eqn:E2.
    + eauto.
    + apply nth_error_None in E2. lia.
  - apply nth_error_None in E. lia.
Qed.



(** One accepted write: what the cell holds afterwards, and that no other
    cell is touched. *)
Lemma setData_cell (tm : TableModel.t) (row col : nat) (v : F32.t)
  (rowv : list F32.t) (pos : F32.t) :
  TableModel.isValid tm row col = true ->
  nth_error (TableModel.rawdata tm) row = Some rowv ->
  nth_error rowv col = Some pos ->
  TableModel.setData tm row col v EditRole
  = (true, TableModel.mk
             (assign row (assign col (TableModel.clampRow rowv pos (TableModel.clamp01 v))
                                 rowv)
                     (TableModel.rawdata tm))
             (TableModel.myrows tm) (TableModel.mycols tm) (TableModel.name tm)) /\
  TableModel.readCell (snd (TableModel.setData tm row col v EditRole)) row col
  = Some (TableModel.clampRow rowv pos (TableModel.clamp01 v)) /\
  (forall r c, r <> row \/ c <> col ->
     TableModel.readCell (snd (TableModel.setData tm row col v EditRole)) r c
     = TableModel.readCell tm r c).
Proof.
  intros Hv E E2.
  unfold TableModel.setData. rewrite Hv, E, E2. cbn [andb role_is_edit snd].
  split; [reflexivity |].
  unfold TableModel.readCell. cbn [TableModel.rawdata]. split.
  - rewrite assign_nth_error by (apply nth_error_Some; congruence).
    apply assign_nth_error. apply nth_error_Some. congruence.
  - intros r c Hrc.
    destruct (Nat.eq_dec r row) as [-> | Hr].
    + rewrite assign_nth_error by (apply nth_error_Some; congruence).
      rewrite E. apply assign_nth_error_other.
      destruct Hrc as [H | H]; congruence.
    + rewrite assign_nth_error_other by congruence. reflexivity.
Qed.








(** ** The stage tree *)

Lemma Item_ind (P : Item -> Prop) :
  (forall d cs, Forall P cs -> P (Node d cs)) -> forall it, P it.
Proof.
  intro H. fix IH 1. intros [d cs]. apply H.
  induction cs as [| c cs IHcs]; constructor.
  - apply IH.
  - exact IHcs.
Qed.

(** ** Model run *)

Lemma isReserved_false (s : string) :
  isReserved s = false ->
  String.eqb s "Direct" = false /\ String.eqb s "Success" = false
  /\ String.eqb s "Sink" = false.
Proof.
  unfold isReserved. intro H.
  destruct (String.eqb s "Direct"), (String.eqb s "Success"), (String.eqb s "Sink");
    simpl in H; try discriminate; auto.
Qed.

(** Whatever its kind, a stage that [Cast] returns from holds the
    population it was called with. *)
Lemma Cast_records (tables : list TableModel.t) (Eps : F32.t) (node : Item) (n : F32.t)
  (g : list nat) (node' : Item) (g' : list nat) :
  Cast tables Eps node n g = Ret (node', g') ->
  userData (stage node') = Some n /\
  List.length (children node') = List.length (children node).
Proof.
  destruct node as [d cs]. cbn [Cast].
  destruct (String.eqb (text1 d) "Success" || String.eqb (text1 d) "Sink").
  - intro H. injection H as <- <-. auto.
  - destruct (String.eqb (text1 d) "Direct").
    + destruct cs as [| c0 rest]; [discriminate |].
      destruct (Cast tables Eps c0 n g) as [[c0' g0] |]; [| discriminate].
      intro H. injection H as <- <-. auto.
    + destruct (findTable (text1 d) tables) as [t |].
      * destruct (sampleRow t g) as [r g1].
        destruct (distribute (Cast tables Eps) t r n Eps 0 cs g1) as [[cs' g2] |] eqn:E;
          [| discriminate].
        intro H. injection H as <- <-. split; [reflexivity |].
        simpl. clear - E. revert E. generalize 0%nat. revert g1 cs'.
        induction cs as [| ch cs IH]; intros g1 cs' c E; cbn [distribute] in E.
        -- injection E as <- <-. reflexivity.
        -- destruct (TableModel.readCell t r c) as [q |]; [| discriminate].
           destruct (Cast tables Eps ch (F32.mul n (share Eps q)) g1) as [[ch' g3] |];
             [| discriminate].
           destruct (distribute (Cast tables Eps) t r n Eps (S c) cs g3)
             as [[l'' g4] |] eqn:E2; [| discriminate].
           injection E as <- <-. simpl. f_equal. eapply IH. exact E2.
      * intro H. injection H as <- <-. auto.
Qed.

(** What the distributing loop did for the stage at position [i]. *)
Lemma distribute_nth (cast : Item -> F32.t -> list nat -> result (Item * list nat))
  (t : TableModel.t) (r : nat) (n Eps : F32.t) (l : list Item) :
  forall (c : nat) (g : list nat) (l' : list Item) (g' : list nat),
    distribute cast t r n Eps c l g = Ret (l', g') ->
    forall (i : nat) (ch : Item), nth_error l i = Some ch ->
      exists f ch' gi gi',
        TableModel.readCell t r (c + i) = Some f /\
        nth_error l' i = Some ch' /\
        cast ch (F32.mul n (share Eps f)) gi = Ret (ch', gi').
Proof.
  induction l as [| x l IH]; intros c g l' g' E i ch Hi.
  - destruct i; discriminate.
  - cbn [distribute] in E.
    destruct (TableModel.readCell t r c) as [f |] eqn:Ef; [| discriminate].
    destruct (cast x (F32.mul n (share Eps f)) g) as [[x' g1] |] eqn:Ex; [| discriminate].
    destruct (distribute cast t r n Eps (S c) l g1) as [[l'' g2] |] eqn:El;
      [| discriminate].
    injection E as <- <-.
    destruct i as [| i].
    + injection Hi as ->. exists f, x', g, g1.
      rewrite Nat.add_0_r. auto.
    + simpl in Hi.
      destruct (IH (S c) g1 l'' g2 El i ch Hi) as [f' [ch' [gi [gi' [H1 [H2 H3]]]]]].
      exists f', ch', gi, gi'. rewrite Nat.add_succ_r. auto.
Qed.

Lemma share_cases (Eps f : F32.t) :
  (F32.ltb F32.zero f = true -> share Eps f = f) /\
  (F32.ltb F32.zero f = false -> share Eps f = Eps).
Proof.
  unfold share. split; intros ->; reflexivity.
Qed.

(** A casting that keeps its sizes and from whose drawn row a cell was
    read has at least two rows. *)
Lemma sampleRow_read (t : TableModel.t) (g : list nat) (c : nat) (f : F32.t) :
  TableModel.shaped t ->
  TableModel.readCell t (fst (sampleRow t g)) c = Some f ->
  (2 <= TableModel.readRows t)%nat.
Proof.
  intros [Hlen _] H. unfold sampleRow in H.
  destruct (Nat.ltb_spec 1 (TableModel.readRows t)) as [Hlt | Hge]; [lia |].
  cbn [fst] in H. unfold TableModel.readCell in H.
  assert (Hnone : nth_error (TableModel.rawdata t) (TableModel.readRows t) = None).
  { apply nth_error_None. unfold TableModel.readRows. lia. }
  rewrite Hnone in H. discriminate.
Qed.

(** C2 (as amended).  At a stage whose casting names a table that keeps
    its sizes, and from which [Cast] returns, each following stage [c] is
    called with the single-precision product of [n] and [share Eps f],
    [f] being the cell in column [c] of the row drawn, and holds that
    product afterwards: the cell itself when it compares greater than 0
    (also when it is below [Eps]), [Eps] otherwise.  [Cast] returning from
    such a stage, the casting has at least two rows. *)
Theorem Cast_distributes_share (tables : list TableModel.t) (Eps : F32.t) (d : Stage)
  (cs : list Item) (n : F32.t) (g : list nat) (t : TableModel.t)
  (node' : Item) (g' : list nat) :
  isReserved (text1 d) = false ->
  findTable (text1 d) tables = Some t ->
  TableModel.shaped t ->
  Cast tables Eps (Node d cs) n g = Ret (node', g') ->
  forall (c : nat) (ch : Item), nth_error cs c = Some ch ->
    (2 <= TableModel.readRows t)%nat /\
    exists f ch' gi gi',
      TableModel.readCell t (fst (sampleRow t g)) c = Some f /\
      nth_error (children node') c = Some ch' /\
      Cast tables Eps ch (F32.mul n (share Eps f)) gi = Ret (ch', gi') /\
      userData (stage ch') = Some (F32.mul n (share Eps f)) /\
      (F32.ltb F32.zero f = true -> share Eps f = f) /\
      (F32.ltb F32.zero f = false -> share Eps f = Eps).
Proof.
  intros Hres Hfind Hshaped HCast c ch Hc.
  destruct (isReserved_false _ Hres) as [Hd [Hs Hk]].
  cbn [Cast] in HCast. rewrite Hs, Hk, Hd, Hfind in HCast. cbn [orb] in HCast.
  destruct (sampleRow t g) as [r g1] eqn:Er.
  destruct (distribute (Cast tables Eps) t r n Eps 0 cs g1) as [[cs' g2] |] eqn:E;
    [| discriminate].
  injection HCast as <- <-.
  destruct (distribute_nth _ _ _ _ _ _ _ _ _ _ E c ch Hc)
    as [f [ch' [gi [gi' [H1 [H2 H3]]]]]].
  split.
  - apply (sampleRow_read t g c f Hshaped). rewrite Er. exact H1.
  - exists f, ch', gi, gi'. cbn [fst children].
    split; [exact H1 |]. split; [exact H2 |]. split; [exact H3 |].
    split; [apply (Cast_records _ _ _ _ _ _ _ H3) |].
    apply share_cases.
Qed.

Lemma Cast_distributes_share_witness :
  (2 <= TableModel.readRows tableQ)%nat /\
  exists f ch' gi gi',
    TableModel.readCell tableQ (fst (sampleRow tableQ [0%nat])) 0 = Some f /\
    nth_error
      (children (Node (mkStage "B" "Q" true "" (Some (F32.of_Z 8)))
                   [Node (mkStage "C" "Success" true "" (Some (F32.of_Z 2))) [];
                    Node (mkStage "D" "Sink" true "" (Some (F32.of_Z 6))) []])) 0
      = Some ch' /\
    Cast [tableQ] (F32.ratio 1 2) (leaf "C" "Success")
         (F32.mul (F32.of_Z 8) (share (F32.ratio 1 2) f)) gi = Ret (ch', gi') /\
    userData (stage ch') = Some (F32.mul (F32.of_Z 8) (share (F32.ratio 1 2) f)) /\
    (F32.ltb F32.zero f = true -> share (F32.ratio 1 2) f = f) /\
    (F32.ltb F32.zero f = false -> share (F32.ratio 1 2) f = F32.ratio 1 2).
Proof.
  apply (Cast_distributes_share [tableQ] (F32.ratio 1 2) (mkStage "B" "Q" true "" None)
           [leaf "C" "Success"; leaf "D" "Sink"] (F32.of_Z 8) [0%nat] tableQ
           (Node (mkStage "B" "Q" true "" (Some (F32.of_Z 8)))
                 [Node (mkStage "C" "Success" true "" (Some (F32.of_Z 2))) [];
                  Node (mkStage "D" "Sink" true "" (Some (F32.of_Z 6))) []])
           []).
  - reflexivity.
  - reflexivity.
  - apply FillFromRaw_shaped.
  - vm_compute. reflexivity.
  - reflexivity.
Defined.

(** C2 (as stated) fails for a cell strictly between 0 and [Eps]: with
    [Eps = 1/2], a cell of 1/4 and a population of 8 the following stage
    receives [8 * 1/4 = 2], not [8 * max(1/4, 1/2) = 4].  It also fails for
    an incoming population of 0, which every following stage receives as 0
    although [Eps] is positive; and for a product too small for single
    precision: with [Eps = 0.0001] and 100 individuals, the stage below
    twelve zero cells in a row receives exactly 0. *)
Lemma Cast_small_cell_counterexample :
  (exists ch' rest g',
     Cast [tableQ] (F32.ratio 1 2) branchQ (F32.of_Z 8) [0%nat]
     = Ret (Node (mkStage "B" "Q" true "" (Some (F32.of_Z 8))) (ch' :: rest), g') /\
     TableModel.readCell tableQ (fst (sampleRow tableQ [0%nat])) 0
     = Some (F32.ratio 1 4) /\
     F32.ltb F32.zero (F32.ratio 1 4) = true /\
     F32.ltb (F32.ratio 1 4) (F32.ratio 1 2) = true /\
     userData (stage ch') = Some (F32.of_Z 2) /\
     F32.mul (F32.of_Z 8) (fmax (F32.ratio 1 4) (F32.ratio 1 2)) = F32.of_Z 4 /\
     F32.of_Z 2 <> F32.of_Z 4) /\
  (exists ch' rest g',
     Cast [tableQ] (F32.ratio 1 2) branchQ F32.zero [0%nat]
     = Ret (Node (mkStage "B" "Q" true "" (Some F32.zero)) (ch' :: rest), g') /\
     F32.ltb F32.zero (F32.ratio 1 2) = true /\
     userData (stage ch') = Some F32.zero) /\
  (exists node' g',
     Cast [tableZ] (F32.ratio 1 10000) (chain 12) (F32.of_Z 100) [] = Ret (node', g') /\
     F32.ltb F32.zero (F32.ratio 1 10000) = true /\
     F32.ltb F32.zero (F32.of_Z 100) = true /\
     option_map population (itemAt (repeat 0%nat 12) node') = Some F32.zero).
Proof.
  split; [| split].
  - eexists. eexists. eexists.
    split; [vm_compute; reflexivity |].
    split; [vm_compute; reflexivity |].
    split; [reflexivity |]. split; [reflexivity |].
    split; [reflexivity |]. split; [reflexivity |].
    discriminate.
  - eexists. eexists. eexists.
    split; [vm_compute; reflexivity |].
    split; reflexivity.
  - eexists. eexists.
    split; [vm_compute; reflexivity |].
    split; [reflexivity |]. split; [reflexivity |].
    vm_compute. reflexivity.
Qed.

(** C10.  At a stage whose casting is neither a reserved kind nor the name
    of a table in [Tables], [Cast] stores the incoming population and
    returns normally: the stage holds [n] and is otherwise as it was, the
    following stages are not visited (they keep whatever they held) and
    the generator is not used. *)
Theorem Cast_unknown_casting_stops (tables : list TableModel.t) (Eps : F32.t)
  (d : Stage) (cs : list Item) (n : F32.t) (g : list nat) :
  isReserved (text1 d) = false ->
  findTable (text1 d) tables = None ->
  Cast tables Eps (Node d cs) n g = Ret (Node (setUserData d n) cs, g) /\
  userData (setUserData d n) = Some n /\
  clearData (setUserData d n) = clearData d.
Proof.
  intros Hres Hfind.
  destruct (isReserved_false _ Hres) as [Hd [Hs Hk]].
  cbn [Cast]. rewrite Hs, Hk, Hd, Hfind.
  split; [reflexivity |]. split; reflexivity.
Qed.

Lemma Cast_unknown_casting_stops_witness :
  Cast [tableQ] (F32.ratio 1 2) (Node orphanStage oldChildren) (F32.of_Z 8) [1%nat]
  = Ret (Node (setUserData orphanStage (F32.of_Z 8)) oldChildren, [1%nat]) /\
  userData (setUserData orphanStage (F32.of_Z 8)) = Some (F32.of_Z 8) /\
  clearData (setUserData orphanStage (F32.of_Z 8)) = clearData orphanStage.
Proof.
  apply (Cast_unknown_casting_stops [tableQ] (F32.ratio 1 2) orphanStage oldChildren
           (F32.of_Z 8) [1%nat]);
    reflexivity.
Defined.

(** *** The single-row scenario *)

(** With a shaped table of exactly one row every run through a stage that
    has a following stage ends the same way. *)
Lemma Cast_single_row_faults (tables : list TableModel.t) (Eps : F32.t) (d : Stage)
  (c0 : Item) (cs : list Item) (n : F32.t) (g : list nat) (t : TableModel.t) :
  isReserved (text1 d) = false ->
  findTable (text1 d) tables = Some t ->
  TableModel.shaped t -> TableModel.readRows t = 1%nat ->
  Cast tables Eps (Node d (c0 :: cs)) n g = Crash OutOfRange.
Proof.
  intros Hres Hfind [Hlen _] Hrows.
  destruct (isReserved_false _ Hres) as [Hd [Hs Hk]].
  cbn [Cast]. rewrite Hs, Hk, Hd, Hfind. cbn [orb].
  unfold sampleRow. rewrite Hrows. cbn [Nat.ltb Nat.leb distribute].
  unfold TableModel.readCell.
  assert (Hnone : nth_error (TableModel.rawdata t) 1 = None).
  { apply nth_error_None. unfold TableModel.readRows in Hrows. lia. }
  rewrite Hnone. reflexivity.
Qed.

(** C1 fails on the code.  For a table of one row, [r] keeps the row count
    1 and no draw replaces it: [Cast] reads row 1, which the table does not
    have, and [readCell] throws.  The scenario passes the check and its run
    ends in that fault instead of using row 0. *)
Theorem Cast_single_row_out_of_range :
  (forall g, sampleRow tableT g = (1%nat, g)) /\
  TableModel.readCell tableT 0 0 = Some (F32.ratio 1 2) /\
  TableModel.readCell tableT 1 0 = None /\
  (exists st, on_actionCheck_triggered agreeing scenario = Ret (st, Consistent)
              /\ Checked st = true
              /\ on_actionRun_triggered agreeing st = Crash OutOfRange) /\
  on_actionRun_triggered agreeing scenario = Crash OutOfRange.
Proof.
  split; [intro g; reflexivity |].
  split; [reflexivity |]. split; [reflexivity |].
  split.
  - eexists. split; [vm_compute; reflexivity |].
    split; [reflexivity |]. vm_compute. reflexivity.
  - vm_compute. reflexivity.
Qed.

(** ** Consistency check *)

Lemma markChildren_length (visit : string -> Item -> Item) (IDp : string)
  (l : list Item) : forall c, List.length (markChildren visit IDp c l) = List.length l.
Proof.
  induction l as [| ch l IH]; intro c; simpl; [reflexivity |].
  rewrite IH. reflexivity.
Qed.

Lemma IDMarkFrom_rule (tables : list TableModel.t) (it : Item) :
  forall id, Forall (stageRule tables) (preorder it) ->
             Forall (stageRule tables) (preorder (IDMarkFrom id it)).
Proof.
  induction it as [d cs IH] using Item_ind. intros id H.
  cbn [IDMarkFrom preorder] in *.
  apply Forall_cons_iff in H. destruct H as [Hhd Htl].
  constructor.
  - unfold stageRule, childCount in *. cbn [children stage] in *.
    rewrite markChildren_length. exact Hhd.
  - clear Hhd. generalize 0%nat.
    induction cs as [| ch cs IHcs]; intro c; cbn [markChildren flat_map].
    + constructor.
    + cbn [flat_map] in Htl. apply Forall_app in Htl. destruct Htl as [H1 H2].
      apply Forall_cons_iff in IH. destruct IH as [IHch IHrest].
      apply Forall_app. split.
      * apply IHch. exact H1.
      * apply IHcs; assumption.
Qed.

Lemma stageRule_checkStage (tables : list TableModel.t) (it : Item) :
  stageRule tables it -> checkStage tables it = None.
Proof.
  unfold stageRule, checkStage.
  destruct (childCount it) as [| [| n]].
  - intros [-> | ->]; reflexivity.
  - intros ->. reflexivity.
  - intros [Hres [t [Hfind Hcols]]]. rewrite Hres, Hfind, Hcols.
    rewrite Nat.eqb_refl. reflexivity.
Qed.

Lemma firstError_none (tables : list TableModel.t) (its : list Item) :
  Forall (stageRule tables) its -> firstError tables its = None.
Proof.
  induction 1 as [| it its Hit _ IH]; cbn [firstError]; [reflexivity |].
  rewrite (stageRule_checkStage _ _ Hit). exact IH.
Qed.

Lemma warnRows_continue (ask : nat -> button) (t : TableModel.t) (rs : list nat) :
  (forall k, ask k = Yes) -> forall w, exists w', warnRows ask t rs w = Some w'.
Proof.
  intro Hyes. induction rs as [| r rs IH]; intro w; cbn [warnRows].
  - eauto.
  - destruct (leaks (TableModel.sumCols t r)); [| apply IH].
    rewrite Hyes. cbn [is_yes]. apply IH.
Qed.

Lemma warnTables_continue (ask : nat -> button) (tables : list TableModel.t) :
  (forall k, ask k = Yes) -> forall w, exists w', warnTables ask tables w = Some w'.
Proof.
  intro Hyes. induction tables as [| t tables IH]; intro w; cbn [warnTables].
  - eauto.
  - destruct (warnRows_continue ask t (seq 0 (TableModel.readRows t)) Hyes w) as [w1 ->].
    apply IH.
Qed.

(** C9 (as amended).  The check treats the top-level stage like every
    other one.  When every stage of the tree, the top-level one included,
    meets the structural rules, no replication is pending and the user
    continues at every row-sum warning, the check succeeds: the model is
    marked checked, found consistent or workable, and only the IDs were
    rewritten. *)
Theorem check_accepts_ruled_tree (dlg : Dialogs) (st : Stox) (root : Item) :
  CloneMode st = false ->
  TreeWid st = Some root ->
  Forall (stageRule (Tables st)) (preorder root) ->
  (forall k, continueCheck dlg k = Yes) ->
  exists st' status,
    on_actionCheck_triggered dlg st = Ret (st', status) /\
    Checked st' = true /\
    (status = Consistent \/ exists w, status = Workable w) /\
    TreeWid st' = Some (IDMarkFrom "1" root) /\
    Tables st' = Tables st.
Proof.
  intros Hclone Htree Hrule Hyes.
  unfold on_actionCheck_triggered, IDMarkTree. rewrite Hclone.
  cbn [setChecked TreeWid]. rewrite Htree.
  cbn [bind with_TreeWid setChecked TreeWid Tables].
  rewrite (firstError_none _ _ (IDMarkFrom_rule _ _ "1"%string Hrule)).
  destruct (warnTables_continue (continueCheck dlg) (Tables st) Hyes 0%nat) as [w Hw].
  rewrite Hw. destruct w as [| w].
  - eexists. eexists. split; [reflexivity |]. cbn. auto.
  - eexists. eexists. split; [reflexivity |]. cbn. eauto 6.
Qed.

Ltac rule_holds :=
  unfold stageRule; cbn;
  first [ reflexivity
        | left; reflexivity
        | right; reflexivity
        | split; [reflexivity | eexists; split; reflexivity] ].

Lemma check_accepts_ruled_tree_witness :
  exists st' status,
    on_actionCheck_triggered agreeing ruledModel = Ret (st', status) /\
    Checked st' = true /\
    (status = Consistent \/ exists w, status = Workable w) /\
    TreeWid st' = Some (IDMarkFrom "1" scenarioTree) /\
    Tables st' = Tables ruledModel.
Proof.
  apply (check_accepts_ruled_tree agreeing ruledModel scenarioTree).
  - reflexivity.
  - reflexivity.
  - cbn [preorder scenarioTree leaf flat_map app ruledModel Tables].
    repeat (constructor; [rule_holds |]). constructor.
  - intro k. reflexivity.
Defined.

(** C9 (as stated) fails: every stage below the top-level one meets the
    rules, the top-level stage has no casting assignment, and the check
    stops at it asking for type 'direct'. *)
Lemma check_bare_start_counterexample :
  text1 (stage bareStartTree) = ""%string /\
  Forall (stageRule (Tables bareStartModel))
         (flat_map preorder (children bareStartTree)) /\
  exists st',
    on_actionCheck_triggered agreeing bareStartModel
    = Ret (st', Inconsistent (OneFollowing "Start" "1")) /\
    Checked st' = false.
Proof.
  split; [reflexivity |]. split.
  - cbn [preorder bareStartTree scenarioTree children leaf flat_map app
           bareStartModel Tables].
    repeat (constructor; [rule_holds |]). constructor.
  - eexists. split; [vm_compute; reflexivity | reflexivity].
Qed.

(** *** A branch whose casting names no table *)

Lemma checkStage_absent_table (tables : list TableModel.t) (it : Item) :
  (2 <= childCount it)%nat ->
  isReserved (text1 (stage it)) = false ->
  findTable (text1 (stage it)) tables = None ->
  checkStage tables it = None.
Proof.
  intros Hn Hres Hfind. unfold checkStage.
  destruct (childCount it) as [| [| n]]; try lia.
  rewrite Hres, Hfind. reflexivity.
Qed.

(** C4 fails on the code.  A stage with two following stages whose casting
    is not a reserved kind and names no existing table passes the check:
    the search for the table ends without a match and nothing is reported,
    so the model is marked checked and found consistent. *)
Theorem check_passes_absent_casting :
  isReserved "Ghost" = false /\
  findTable "Ghost" (Tables (ghostModel "Ghost")) = None /\
  (exists st', on_actionCheck_triggered agreeing (ghostModel "Ghost")
               = Ret (st', Consistent) /\ Checked st' = true) /\
  isReserved "" = false /\
  findTable "" (Tables (ghostModel "")) = None /\
  (exists st', on_actionCheck_triggered agreeing (ghostModel "")
               = Ret (st', Consistent) /\ Checked st' = true).
Proof.
  split; [reflexivity |]. split; [reflexivity |].
  split; [eexists; split; [vm_compute; reflexivity | reflexivity] |].
  split; [reflexivity |]. split; [reflexivity |].
  eexists; split; [vm_compute; reflexivity | reflexivity].
Qed.

(** ** The model file *)


Lemma map_seq_nth {A : Type} (g : nat -> A) (l : list A) :
  forall o,
    (forall i x, nth_error l i = Some x -> g (o + i)%nat = x) ->
    map g (seq o (List.length l)) = l.
Proof.
  induction l as [| a l IH]; intros o H; cbn [List.length seq map].
  - reflexivity.
  - rewrite <- (Nat.add_0_r o) at 1. rewrite (H 0%nat a eq_refl).
    f_equal. apply IH.
    intros i x Hi. rewrite Nat.add_succ_comm. apply H. exact Hi.
Qed.









Lemma Dump_levels (node : Item) :
  forall n, Forall (fun nd => (n <= getLevel nd)%Z) (Dump node n).
Proof.
  induction node as [d cs IH] using Item_ind. intro n. cbn [Dump].
  constructor; [cbn; lia |].
  induction cs as [| c cs IHcs]; cbn [flat_map]; [constructor |].
  apply Forall_cons_iff in IH. destruct IH as [IHc IHrest].
  apply Forall_app. split.
  - eapply Forall_impl; [| apply (IHc (n + 1)%Z)]. cbn. intros; lia.
  - apply IHcs. exact IHrest.
Qed.











(** ** Status flags and rejected operations *)

Lemma TableView_edit_flags (st : Stox) (i row col : nat) (value : F32.t) :
  Checked (TableView_edit st i row col value) = Checked st /\
  Saved (TableView_edit st i row col value) = Saved st.
Proof.
  unfold TableView_edit. destruct (nth_error (Tables st) i); auto.
Qed.

Lemma markBelowTop_flags (f : Stage -> Stage) (st : Stox) :
  Checked (markBelowTop f st) = Checked st /\ Saved (markBelowTop f st) = Saved st.
Proof.
  unfold markBelowTop. destruct (TreeWid st) as [[d cs] |]; auto.
Qed.

(** C6 fails on the code.  Editing a cell of a casting in the table view
    and changing report marks with the Show buttons change the model and
    leave both flags as they were: a model that was checked and saved still
    counts as checked and saved.  The flags are never touched by these
    paths, whatever the state. *)
Theorem edits_leave_flags_set :
  on_actionCheck_triggered agreeing ruledModel
    = Ret (setChecked (with_TreeWid ruledModel (Some (IDMarkFrom "1" scenarioTree))) true,
           Consistent) /\
  Checked checkedModel = true /\ Saved checkedModel = true /\
  (* a cell edit *)
  (exists t t',
     nth_error (Tables checkedModel) 0 = Some t /\
     nth_error (Tables (TableView_edit checkedModel 0 1 0 F32.zero)) 0 = Some t' /\
     TableModel.readCell t 1 0 = Some (F32.ratio 1 4) /\
     TableModel.readCell t' 1 0 = Some F32.zero) /\
  Checked (TableView_edit checkedModel 0 1 0 F32.zero) = true /\
  Saved (TableView_edit checkedModel 0 1 0 F32.zero) = true /\
  (* the report marks *)
  map (fun it => check2 (stage it)) (reported scenarioTree) = [true; true; true; true] /\
  (exists root', TreeWid (on_BShowNone_clicked checkedModel) = Some root' /\
                 reported root' = []) /\
  Checked (on_BShowNone_clicked checkedModel) = true /\
  Saved (on_BShowNone_clicked checkedModel) = true /\
  (* in general *)
  (forall st i row col value,
     Checked (TableView_edit st i row col value) = Checked st /\
     Saved (TableView_edit st i row col value) = Saved st) /\
  (forall st,
     (Checked (on_BShowAll_clicked st) = Checked st /\
      Saved (on_BShowAll_clicked st) = Saved st) /\
     (Checked (on_BShowSuccess_clicked st) = Checked st /\
      Saved (on_BShowSuccess_clicked st) = Saved st) /\
     (Checked (on_BShowNone_clicked st) = Checked st /\
      Saved (on_BShowNone_clicked st) = Saved st)).
Proof.
  split; [vm_compute; reflexivity |].
  split; [reflexivity |]. split; [reflexivity |].
  split; [eexists; eexists; repeat split; vm_compute; reflexivity |].
  split; [reflexivity |]. split; [reflexivity |].
  split; [reflexivity |].
  split; [eexists; split; vm_compute; reflexivity |].
  split; [reflexivity |]. split; [reflexivity |].
  split; [apply TableView_edit_flags |].
  intro st. repeat split; apply markBelowTop_flags.
Qed.

(** C8 fails on the code.  Paste appends the new, still empty and
    unnamed, table to [Tables] and counts it before it looks at the
    clipboard; when the clipboard is then rejected (text with fewer than two
    tabs or no newline, or no text at all) the slot returns with that table
    left in the list and [NumTables] one higher. *)
Theorem paste_rejected_leaves_table (parseFloats : string -> nat -> list F32.t) :
  count tab "abc" = 0%nat /\ count newline "abc" = 0%nat /\
  Tables pastingModel = [tableT2] /\ NumTables pastingModel = 1%Z /\
  Tables (on_BPasteTable_clicked parseFloats (holding (Some "abc"%string)) pastingModel)
    = [tableT2; TableModel.create] /\
  NumTables (on_BPasteTable_clicked parseFloats (holding (Some "abc"%string)) pastingModel)
    = 2%Z /\
  Tables (on_BPasteTable_clicked parseFloats (holding None) pastingModel)
    = [tableT2; TableModel.create] /\
  NumTables (on_BPasteTable_clicked parseFloats (holding None) pastingModel) = 2%Z /\
  CBCastings (on_BPasteTable_clicked parseFloats (holding None) pastingModel)
    = CBCastings pastingModel /\
  Checked (on_BPasteTable_clicked parseFloats (holding None) pastingModel) = true /\
  Saved (on_BPasteTable_clicked parseFloats (holding None) pastingModel) = true.
Proof.
  repeat split; reflexivity.
Qed.

(** ** Running a model that is not checked *)



Lemma IDMarkFrom_eraseIDs (it : Item) :
  forall id, mapItem (fun d => setText3 d "") (IDMarkFrom id it)
             = mapItem (fun d => setText3 d "") it.
Proof.
  induction it as [d cs IH] using Item_ind. intro id.
  cbn [IDMarkFrom mapItem]. f_equal.
  generalize 0%nat.
  induction cs as [| c cs IHcs]; intro k; cbn [markChildren map]; [reflexivity |].
  apply Forall_cons_iff in IH. destruct IH as [IHc IHrest].
  rewrite IHc, (IHcs IHrest). reflexivity.
Qed.







(** ** Copies of a casting *)

Lemma FillFromCopy_rawdata (source : TableModel.t) (nam : string) :
  TableModel.shaped source ->
  TableModel.rawdata (TableModel.FillFromCopy source nam) = TableModel.rawdata source.
Proof.
  intros [Hr Hc]. unfold TableModel.FillFromCopy, TableModel.readRows, TableModel.readCols.
  cbn [TableModel.rawdata]. rewrite <- Hr. apply map_seq_nth.
  intros r row Hrow. cbn [Nat.add].
  assert (Hl : List.length row = TableModel.mycols source).
  { rewrite Forall_forall in Hc. apply Hc. eapply nth_error_In; eauto. }
  rewrite <- Hl. apply map_seq_nth.
  intros c x Hx. cbn [Nat.add]. unfold TableModel.readCell.
  rewrite Hrow, Hx. reflexivity.
Qed.

Lemma FillFromCopy_keeps (source : TableModel.t) (nam : string) :
  TableModel.shaped source ->
  TableModel.shaped (TableModel.FillFromCopy source nam).
Proof.
  intros Hs. pose proof (FillFromCopy_rawdata source nam Hs) as Hraw.
  unfold TableModel.shaped. rewrite Hraw.
  destruct Hs as [Hr Hcols]. cbn [TableModel.FillFromCopy TableModel.myrows
    TableModel.mycols TableModel.readRows TableModel.readCols].
  auto.
Qed.

(** ** A complete run *)

(** The two-row model, checked on request and run for two iterations with
    the draws 1 and 0: the rows of the output that hold the results. *)
Example run_two_rows :
  exists st o,
    on_actionRun_triggered agreeing ruledModel = Ret (st, Ran) /\
    Output st = Some o /\
    nth_error (OutTableModel.rawdata o) 1
      = Some [Blank; Text "1.1"; Text "1.1.1"; Text "1.1.1.1"; Text "1.1.1.2"] /\
    nth_error (OutTableModel.rawdata o) 3
      = Some [IterNo 1; Fixed3 (F32.of_Z 100); Fixed3 (F32.of_Z 100);
              Fixed3 (F32.of_Z 25); Fixed3 (F32.of_Z 75)] /\
    nth_error (OutTableModel.rawdata o) 4
      = Some [IterNo 2; Fixed3 (F32.of_Z 100); Fixed3 (F32.of_Z 100);
              Fixed3 (F32.of_Z 50); Fixed3 (F32.of_Z 50)] /\
    generator st = [].
Proof.
  eexists. eexists. split; [vm_compute; reflexivity |].
  split; [reflexivity |]. repeat split; reflexivity.
Qed.

(** * Further properties of the code *)

(** ** Casting tables: single writes *)

Lemma sumCols_row (tm : TableModel.t) (r : nat) (rowv : list F32.t) :
  nth_error (TableModel.rawdata tm) r = Some rowv ->
  TableModel.sumCols tm r = accumulate rowv F32.zero.
Proof.
  intro H. unfold TableModel.sumCols. rewrite (nth_error_nth _ _ _ H). reflexivity.
Qed.

(** X1.  A cell edit with a valid index, on a table of any contents and
    whatever is typed, is accepted; afterwards every other cell of the
    table reads as before, and the sizes and the name are untouched.  A
    NaN passes both clamps and is stored. *)
Theorem setData_valid_write (tm : TableModel.t) (row col : nat) (v : F32.t) :
  TableModel.shaped tm ->
  TableModel.isValid tm row col = true ->
  fst (TableModel.setData tm row col v EditRole) = true /\
  (forall r c, r <> row \/ c <> col ->
     TableModel.readCell (snd (TableModel.setData tm row col v EditRole)) r c
     = TableModel.readCell tm r c) /\
  TableModel.readRows (snd (TableModel.setData tm row col v EditRole))
    = TableModel.readRows tm /\
  TableModel.readCols (snd (TableModel.setData tm row col v EditRole))
    = TableModel.readCols tm /\
  TableModel.readName (snd (TableModel.setData tm row col v EditRole))
    = TableModel.readName tm /\
  TableModel.readCell (snd (TableModel.setData tm row col S754_nan EditRole)) row col
  = Some S754_nan.
Proof.
  intros Hs Hv.
  destruct (shaped_valid_cell tm row col Hs Hv) as [rowv [pos [E E2]]].
  destruct (setData_cell tm row col v rowv pos Hv E E2) as [Heq [_ Hframe]].
  destruct (setData_cell tm row col S754_nan rowv pos Hv E E2) as [_ [Hnan _]].
  rewrite clampRow_nan in Hnan.
  split; [rewrite Heq; reflexivity |].
  split; [exact Hframe |].
  rewrite Heq. cbn [snd]. repeat split. exact Hnan.
Qed.

Lemma setData_valid_write_witness :
  fst (TableModel.setData rawTable 0 1 (F32.ratio 1 2) EditRole) = true /\
  (forall r c, r <> 0%nat \/ c <> 1%nat ->
     TableModel.readCell (snd (TableModel.setData rawTable 0 1 (F32.ratio 1 2) EditRole)) r c
     = TableModel.readCell rawTable r c) /\
  TableModel.readRows (snd (TableModel.setData rawTable 0 1 (F32.ratio 1 2) EditRole))
    = TableModel.readRows rawTable /\
  TableModel.readCols (snd (TableModel.setData rawTable 0 1 (F32.ratio 1 2) EditRole))
    = TableModel.readCols rawTable /\
  TableModel.readName (snd (TableModel.setData rawTable 0 1 (F32.ratio 1 2) EditRole))
    = TableModel.readName rawTable /\
  TableModel.readCell (snd (TableModel.setData rawTable 0 1 S754_nan EditRole)) 0 1
  = Some S754_nan.
Proof.
  apply (setData_valid_write rawTable 0 1 (F32.ratio 1 2)).
  - apply FillFromRaw_shaped.
  - reflexivity.
Defined.

Lemma nth_error_map_seq {A : Type} (f : nat -> A) (n i : nat) :
  nth_error (map f (seq 0 n)) i = if (i <? n)%nat then Some (f i) else None.
Proof.
  rewrite nth_error_map, nth_error_seq.
  destruct (i <? n)%nat; reflexivity.
Qed.

(** ** Hierarchical IDs *)

Lemma append_assoc (a b c : string) : ((a ++ b) ++ c = a ++ (b ++ c))%string.
Proof. induction a as [| x a IH]; simpl; [reflexivity | rewrite IH; reflexivity]. Qed.

Lemma append_inj_l (p a b : string) : (p ++ a = p ++ b)%string -> a = b.
Proof.
  induction p as [| x p IH]; simpl; intro H; [exact H |].
  injection H as H. apply IH, H.
Qed.

Lemma append_nil_r (a : string) : (a ++ "")%string = a.
Proof. induction a as [| x a IH]; simpl; [reflexivity | rewrite IH; reflexivity]. Qed.

Lemma append_self_nil (p t : string) : (p ++ t)%string = p -> t = ""%string.
Proof.
  intro H. apply (append_inj_l p). rewrite append_nil_r. exact H.
Qed.

Lemma dotless_digits (d : Decimal.uint) : dotless (NilEmpty.string_of_uint d).
Proof.
  induction d; simpl; try exact I; (split; [discriminate | assumption]).
Qed.

Lemma number_dotless (n : nat) : dotless (number n).
Proof.
  unfold number, NilZero.string_of_uint.
  destruct (Nat.to_uint n); try apply dotless_digits.
  simpl. split; [discriminate | exact I].
Qed.

Lemma to_uint_nonnil (n : nat) : Nat.to_uint n <> Decimal.Nil.
Proof.
  rewrite <- (DecimalNat.Unsigned.of_to n) at 1.
  rewrite DecimalNat.Unsigned.to_of. apply DecimalFacts.unorm_nonnil.
Qed.

Lemma number_inj (n m : nat) : number n = number m -> n = m.
Proof.
  unfold number. intro H.
  pose proof (NilZero.usu (Nat.to_uint n) (to_uint_nonnil n)) as Hn.
  pose proof (NilZero.usu (Nat.to_uint m) (to_uint_nonnil m)) as Hm.
  rewrite H in Hn. rewrite Hn in Hm. injection Hm as Hm.
  rewrite <- (DecimalNat.Unsigned.of_to n), <- (DecimalNat.Unsigned.of_to m), Hm.
  reflexivity.
Qed.

(** Two dotless strings, each followed by nothing or by a dot and more,
    that give the same whole are the same. *)
Lemma dotless_prefix_eq (a b t u : string) :
  dotless a -> dotless b ->
  (t = ""%string \/ exists t', t = String "." t') ->
  (u = ""%string \/ exists u', u = String "." u') ->
  (a ++ t = b ++ u)%string -> a = b.
Proof.
  revert b. induction a as [| x a IH]; intros [| y b] Ha Hb Ht Hu H; simpl in *.
  - reflexivity.
  - exfalso. destruct Ht as [-> | [t' ->]]; [discriminate |].
    injection H as Hxy _. destruct Hb as [Hy _]. congruence.
  - exfalso. destruct Hu as [-> | [u' ->]]; [discriminate |].
    injection H as Hxy _. destruct Ha as [Hx _]. congruence.
  - injection H as -> H. f_equal.
    apply (IH b); try assumption; [apply Ha | apply Hb].
Qed.

Lemma extends_refl (p : string) : extends p p.
Proof. exists ""%string. rewrite append_nil_r. auto. Qed.

Lemma extends_child (p n s : string) :
  extends (p ++ "." ++ n) s -> extends p s.
Proof.
  intros [t [-> _]]. exists ("." ++ n ++ t)%string. split.
  - rewrite !append_assoc. reflexivity.
  - right. exists (n ++ t)%string. reflexivity.
Qed.

Lemma extends_child_neq (p n s : string) : extends (p ++ "." ++ n) s -> s <> p.
Proof.
  intros [t [-> _]] H. rewrite !append_assoc in H.
  apply append_self_nil in H. discriminate H.
Qed.

(** IDs below two different following stages never meet. *)
Lemma extends_siblings_neq (p s : string) (i j : nat) :
  i <> j ->
  extends (p ++ "." ++ number i) s -> ~ extends (p ++ "." ++ number j) s.
Proof.
  intros Hij [t [-> Ht]] [u [H Hu]].
  rewrite !append_assoc in H. apply append_inj_l in H.
  cbn [append] in H. injection H as H.
  apply Hij, number_inj.
  apply (dotless_prefix_eq _ _ t u); auto using number_dotless.
Qed.

Lemma ids_extend (it : Item) :
  forall id, Forall (extends id) (ids (IDMarkFrom id it)).
Proof.
  induction it as [d cs IH] using Item_ind. intro id.
  unfold ids. cbn [IDMarkFrom preorder map stage text3 setText3].
  constructor; [apply extends_refl |].
  generalize 0%nat.
  induction cs as [| c cs IHcs]; intro k; cbn [markChildren flat_map map].
  - constructor.
  - apply Forall_cons_iff in IH. destruct IH as [IHc IHrest].
    rewrite map_app. apply Forall_app. split.
    + eapply Forall_impl; [| apply (IHc (id ++ "." ++ number (S k))%string)].
      intros s. apply extends_child.
    + apply IHcs. exact IHrest.
Qed.

(** The IDs given to the following stages of one stage, from position [k]
    on: without repetition, and each below the ID of a position [>= k]. *)
Lemma ids_children (id : string) (cs : list Item) :
  Forall (fun c => forall id', NoDup (ids (IDMarkFrom id' c))) cs ->
  forall k,
    NoDup (flat_map ids (markChildren IDMarkFrom id k cs)) /\
    Forall (fun s => exists j, (k < j)%nat /\ extends (id ++ "." ++ number j) s)
           (flat_map ids (markChildren IDMarkFrom id k cs)).
Proof.
  induction cs as [| c cs IHcs]; intros Hall k; cbn [markChildren flat_map].
  - split; constructor.
  - apply Forall_cons_iff in Hall. destruct Hall as [Hc Hrest].
    destruct (IHcs Hrest (S k)) as [Hnd Hbelow].
    assert (Hhere : Forall (extends (id ++ "." ++ number (S k)))
                           (ids (IDMarkFrom (id ++ "." ++ number (S k)) c)))
      by apply ids_extend.
    split.
    + apply NoDup_app; [apply Hc | exact Hnd |].
      intros s Hin1 Hin2.
      rewrite Forall_forall in Hhere, Hbelow.
      destruct (Hbelow s Hin2) as [j [Hj Hext]].
      apply (extends_siblings_neq id s (S k) j); [lia | apply Hhere, Hin1 | exact Hext].
    + apply Forall_app. split.
      * eapply Forall_impl; [| exact Hhere]. intros s Hs. exists (S k). split; [lia | exact Hs].
      * eapply Forall_impl; [| exact Hbelow].
        intros s [j [Hj Hs]]. exists j. split; [lia | exact Hs].
Qed.

Lemma ids_node (id : string) (d : Stage) (cs : list Item) :
  ids (IDMarkFrom id (Node d cs))
  = id :: flat_map ids (markChildren IDMarkFrom id 0 cs).
Proof.
  unfold ids. cbn [IDMarkFrom preorder map stage text3 setText3]. f_equal.
  generalize (markChildren IDMarkFrom id 0 cs). intro l.
  induction l as [| x l IH]; cbn [flat_map map]; [reflexivity |].
  rewrite map_app, IH. reflexivity.
Qed.

Lemma ids_NoDup (it : Item) : forall id, NoDup (ids (IDMarkFrom id it)).
Proof.
  induction it as [d cs IH] using Item_ind. intro id.
  rewrite ids_node.
  destruct (ids_children id cs IH 0%nat) as [Hnd Hbelow].
  constructor; [| exact Hnd].
  intro Hin. rewrite Forall_forall in Hbelow.
  destruct (Hbelow id Hin) as [j [_ Hext]].
  apply (extends_child_neq id (number j) id Hext). reflexivity.
Qed.

(** X4.  The check gives every stage an ID of its own: after [IDMarkTree]
    no two stages of the tree carry the same ID, and the top-level stage
    carries "1". *)
Theorem IDMarkTree_unique (st st' : Stox) :
  IDMarkTree st = Ret st' ->
  exists root, TreeWid st' = Some root /\
               text3 (stage root) = "1"%string /\
               NoDup (ids root).
Proof.
  unfold IDMarkTree. destruct (TreeWid st) as [root |]; [| discriminate].
  intro H. injection H as <-.
  exists (IDMarkFrom "1" root). cbn [TreeWid with_TreeWid].
  split; [reflexivity |]. split; [destruct root; reflexivity | apply ids_NoDup].
Qed.

Lemma IDMarkTree_unique_witness :
  exists root, TreeWid (with_TreeWid ruledModel (Some (IDMarkFrom "1" scenarioTree)))
               = Some root /\
               text3 (stage root) = "1"%string /\
               NoDup (ids root).
Proof.
  apply (IDMarkTree_unique ruledModel). reflexivity.
Defined.

Lemma IDMarkFrom_blank (it : Item) :
  forall id, IDMarkFrom id (mapItem (fun d => setText3 d "") it) = IDMarkFrom id it.
Proof.
  induction it as [d cs IH] using Item_ind. intro id.
  cbn [mapItem IDMarkFrom]. f_equal.
  generalize 0%nat.
  induction cs as [| c cs IHcs]; intro k; cbn [map markChildren]; [reflexivity |].
  apply Forall_cons_iff in IH. destruct IH as [IHc IHrest].
  rewrite IHc, (IHcs IHrest). reflexivity.
Qed.

(** X5.  The IDs depend on nothing but the positions in the tree: two
    trees that differ only in the IDs they carried are marked alike, so
    marking again changes nothing. *)
Theorem IDMarkFrom_ignores_old_ids (it it' : Item) (id : string) :
  eraseIDs (Some it) = eraseIDs (Some it') ->
  IDMarkFrom id it = IDMarkFrom id it' /\
  IDMarkFrom id (IDMarkFrom id it') = IDMarkFrom id it.
Proof.
  unfold eraseIDs. cbn [option_map]. intro H. injection H as H.
  assert (E : IDMarkFrom id it = IDMarkFrom id it').
  { rewrite <- (IDMarkFrom_blank it), <- (IDMarkFrom_blank it'), H. reflexivity. }
  split; [exact E |].
  rewrite <- (IDMarkFrom_blank (IDMarkFrom id it')), IDMarkFrom_eraseIDs.
  rewrite IDMarkFrom_blank. symmetry. exact E.
Qed.

Lemma IDMarkFrom_ignores_old_ids_witness :
  IDMarkFrom "1" scenarioTree = IDMarkFrom "1" (IDMarkFrom "7" scenarioTree) /\
  IDMarkFrom "1" (IDMarkFrom "1" (IDMarkFrom "7" scenarioTree))
  = IDMarkFrom "1" scenarioTree.
Proof.
  apply (IDMarkFrom_ignores_old_ids scenarioTree (IDMarkFrom "7" scenarioTree) "1").
  reflexivity.
Defined.

(** ** The consistency check, both ways *)

Lemma checkStage_passes (tables : list TableModel.t) (it : Item) :
  checkStage tables it = None -> passes tables it.
Proof.
  unfold checkStage, passes.
  destruct (childCount it) as [| [| n]].
  - destruct (String.eqb_spec (text1 (stage it)) "Success") as [-> | _]; [auto |].
    destruct (String.eqb_spec (text1 (stage it)) "Sink") as [-> | _]; [auto |].
    discriminate.
  - destruct (String.eqb_spec (text1 (stage it)) "Direct") as [-> | _]; [auto |].
    discriminate.
  - destruct (isReserved (text1 (stage it))); [discriminate |].
    intro H. split; [reflexivity |]. intros t Ht. rewrite Ht in H.
    destruct (Nat.eqb_spec (TableModel.readCols t) (S (S n))) as [E | _];
      [exact E | discriminate].
Qed.

Lemma checkStage_describes (tables : list TableModel.t) (it : Item) (e : CheckError) :
  checkStage tables it = Some e -> describes tables e it.
Proof.
  unfold checkStage.
  destruct (childCount it) as [| [| n]] eqn:En.
  - destruct (String.eqb_spec (text1 (stage it)) "Success") as [| H1]; [discriminate |].
    destruct (String.eqb_spec (text1 (stage it)) "Sink") as [| H2]; [discriminate |].
    cbn. intro H. injection H as <-. cbn. auto.
  - destruct (String.eqb_spec (text1 (stage it)) "Direct") as [| H1]; [discriminate |].
    cbn. intro H. injection H as <-. cbn. auto.
  - destruct (isReserved (text1 (stage it))) eqn:Er.
    + intro H. injection H as <-. cbn. rewrite En. repeat split; auto. lia.
    + destruct (findTable (text1 (stage it)) tables) as [t |] eqn:Ef; [| discriminate].
      destruct (Nat.eqb_spec (TableModel.readCols t) (S (S n))) as [| Hne];
        [discriminate |].
      cbn. intro H. injection H as <-. cbn. rewrite En.
      repeat split; auto; try lia. exists t. auto.
Qed.

Lemma firstError_all_pass (tables : list TableModel.t) (its : list Item) :
  firstError tables its = None -> Forall (passes tables) its.
Proof.
  induction its as [| it its IH]; cbn [firstError]; intro H; [constructor |].
  destruct (checkStage tables it) eqn:E; [discriminate |].
  constructor; [apply checkStage_passes, E | apply IH, H].
Qed.

Lemma firstError_first (tables : list TableModel.t) (its : list Item) (e : CheckError) :
  firstError tables its = Some e ->
  exists before it after,
    its = before ++ it :: after /\
    Forall (passes tables) before /\ describes tables e it.
Proof.
  induction its as [| it its IH]; cbn [firstError]; intro H; [discriminate |].
  destruct (checkStage tables it) as [e' |] eqn:E.
  - injection H as ->. exists [], it, its.
    split; [reflexivity |]. split; [constructor | apply checkStage_describes, E].
  - destruct (IH H) as [before [it' [after [-> [Hb Hd]]]]].
    exists (it :: before), it', after.
    split; [reflexivity |]. split; [| exact Hd].
    constructor; [apply checkStage_passes, E | exact Hb].
Qed.

Lemma warnRows_counts (ask : nat -> button) (t : TableModel.t) (rs : list nat) :
  forall w,
    match warnRows ask t rs w with
    | Some w' =>
        w' = (w + List.length (filter (fun r => leaks (TableModel.sumCols t r)) rs))%nat
    | None => (0 < List.length (filter (fun r => leaks (TableModel.sumCols t r)) rs))%nat
    end.
Proof.
  induction rs as [| r rs IH]; intro w; cbn [warnRows filter].
  - cbn. lia.
  - destruct (leaks (TableModel.sumCols t r)).
    + destruct (is_yes (ask (S w))).
      * specialize (IH (S w)). destruct (warnRows ask t rs (S w)); cbn [List.length]; lia.
      * cbn. lia.
    + apply IH.
Qed.

Lemma warnTables_counts (ask : nat -> button) (tables : list TableModel.t) :
  forall w,
    match warnTables ask tables w with
    | Some w' => w' = (w + leakingRows tables)%nat
    | None => (0 < leakingRows tables)%nat
    end.
Proof.
  unfold leakingRows.
  induction tables as [| t tables IH]; intro w; cbn [warnTables map].
  - cbn. lia.
  - change (list_sum (leakingIn t :: map leakingIn tables))
      with (leakingIn t + list_sum (map leakingIn tables))%nat.
    pose proof (warnRows_counts ask t (seq 0 (TableModel.readRows t)) w) as Hr.
    fold (leakingIn t) in Hr.
    destruct (warnRows ask t (seq 0 (TableModel.readRows t)) w) as [w1 |].
    + specialize (IH w1). destruct (warnTables ask tables w1); lia.
    + lia.
Qed.

(** What any finished check is made of. *)
Lemma on_actionCheck_cases (dlg : Dialogs) (st st' : Stox) (status : CheckStatus) :
  on_actionCheck_triggered dlg st = Ret (st', status) ->
  (CloneMode st = true /\ status = ReplicationPending /\ st' = st) \/
  (CloneMode st = false /\
   exists root,
     TreeWid st = Some root /\
     TreeWid st' = Some (IDMarkFrom "1" root) /\
     Tables st' = Tables st /\
     match firstError (Tables st) (preorder (IDMarkFrom "1" root)) with
     | Some e => status = Inconsistent e /\ Checked st' = false /\
                 treeCurrent dlg <> None
     | None =>
         match warnTables (continueCheck dlg) (Tables st) 0 with
         | None => status = CheckStopped /\ Checked st' = false
         | Some O => status = Consistent /\ Checked st' = true
         | Some (S w) => status = Workable (S w) /\ Checked st' = true
         end
     end).
Proof.
  unfold on_actionCheck_triggered, IDMarkTree.
  destruct (CloneMode st).
  - intro H. injection H as <- <-. left. auto.
  - cbn [setChecked TreeWid]. destruct (TreeWid st) as [root |]; [| discriminate].
    cbn [bind with_TreeWid setChecked TreeWid Tables].
    intro H. right. split; [reflexivity |]. exists root. split; [reflexivity |].
    destruct (firstError (Tables st) (preorder (IDMarkFrom "1" root))) as [e |].
    + destruct (treeCurrent dlg) as [cur |]; [| discriminate].
      injection H as <- <-. cbn. repeat split; auto. discriminate.
    + destruct (warnTables (continueCheck dlg) (Tables st) 0) as [[| w] |];
        injection H as <- <-; cbn; auto.
Qed.

(** X6.  The check is sound for what it tests: when it ends with
    "consistent" or "workable" the model is marked checked and every stage
    has a terminal kind if nothing follows it, is Direct if one stage
    follows, and otherwise has a casting that is no reserved kind and whose
    table, if it exists, has one column per following stage. *)
Theorem check_sound (dlg : Dialogs) (st st' : Stox) (status : CheckStatus) :
  on_actionCheck_triggered dlg st = Ret (st', status) ->
  status = Consistent \/ (exists w, status = Workable w) ->
  Checked st' = true /\
  exists root, TreeWid st' = Some root /\
               Forall (passes (Tables st')) (preorder root).
Proof.
  intros H Hok.
  destruct (on_actionCheck_cases dlg st st' status H)
    as [[_ [-> _]] | [_ [root [_ [Ht [Htab Hrest]]]]]].
  - destruct Hok as [Hc | [w Hw]]; discriminate.
  - destruct (firstError (Tables st) (preorder (IDMarkFrom "1" root))) as [e |] eqn:Ef.
    + destruct Hrest as [-> _]. destruct Hok as [Hc | [w Hw]]; discriminate.
    + assert (Hchk : Checked st' = true).
      { destruct (warnTables (continueCheck dlg) (Tables st) 0) as [[| w] |];
          destruct Hrest as [Hs Hc]; try exact Hc.
        subst status. destruct Hok as [Hc' | [w Hw]]; discriminate. }
      split; [exact Hchk |].
      exists (IDMarkFrom "1" root). split; [exact Ht |].
      rewrite Htab. apply firstError_all_pass, Ef.
Qed.

Lemma check_sound_witness :
  Checked (setChecked (with_TreeWid ruledModel (Some (IDMarkFrom "1" scenarioTree))) true)
  = true /\
  exists root,
    TreeWid (setChecked (with_TreeWid ruledModel (Some (IDMarkFrom "1" scenarioTree))) true)
    = Some root /\
    Forall (passes (Tables (setChecked (with_TreeWid ruledModel
                                          (Some (IDMarkFrom "1" scenarioTree))) true)))
           (preorder root).
Proof.
  apply (check_sound agreeing ruledModel _ Consistent).
  - vm_compute. reflexivity.
  - left. reflexivity.
Defined.

(** X7.  A failed check that shows its box names the first offending stage
    in iterator order: every stage before it passes, the box carries that
    stage's name and new ID and says what is wrong with it, and the model
    stays unchecked.  In particular a stage with no following stage and a
    kind other than Success or Sink is reported as such.  The box is only
    reached when an item is current in the tree. *)
Theorem check_reports_first_failure (dlg : Dialogs) (st st' : Stox) (e : CheckError) :
  on_actionCheck_triggered dlg st = Ret (st', Inconsistent e) ->
  treeCurrent dlg <> None /\
  Checked st' = false /\
  exists root before it after,
    TreeWid st' = Some root /\
    preorder root = before ++ it :: after /\
    Forall (passes (Tables st')) before /\
    describes (Tables st') e it.
Proof.
  intro H.
  destruct (on_actionCheck_cases dlg st st' _ H)
    as [[_ [Hs _]] | [_ [root [_ [Ht [Htab Hrest]]]]]]; [discriminate |].
  destruct (firstError (Tables st) (preorder (IDMarkFrom "1" root))) as [e' |] eqn:Ef.
  - destruct Hrest as [He [Hc Hcur]]. injection He as <-.
    split; [exact Hcur |]. split; [exact Hc |].
    destruct (firstError_first _ _ _ Ef) as [before [it [after [Hp [Hb Hd]]]]].
    exists (IDMarkFrom "1" root), before, it, after. rewrite Htab. auto.
  - destruct (warnTables (continueCheck dlg) (Tables st) 0) as [[| w] |];
      destruct Hrest as [Hs _]; discriminate.
Qed.

Lemma check_reports_first_failure_witness :
  treeCurrent agreeing <> None /\
  Checked (with_TreeWid bareStartModel (Some (IDMarkFrom "1" bareStartTree))) = false /\
  exists root before it after,
    TreeWid (with_TreeWid bareStartModel (Some (IDMarkFrom "1" bareStartTree)))
    = Some root /\
    preorder root = before ++ it :: after /\
    Forall (passes (Tables (with_TreeWid bareStartModel
                              (Some (IDMarkFrom "1" bareStartTree))))) before /\
    describes (Tables (with_TreeWid bareStartModel
                         (Some (IDMarkFrom "1" bareStartTree))))
              (OneFollowing "Start" "1") it.
Proof.
  apply (check_reports_first_failure agreeing bareStartModel).
  vm_compute. reflexivity.
Defined.

(** X8.  The warnings of a check count the leaking rows: "consistent" means
    no row of any casting is off 1 by more than 0.001, "workable (with n
    warnings)" means exactly n rows are, and a check the user stopped at a
    warning had at least one such row and leaves the model unchecked. *)
Theorem check_counts_leaking_rows (dlg : Dialogs) (st st' : Stox) (status : CheckStatus) :
  on_actionCheck_triggered dlg st = Ret (st', status) ->
  match status with
  | Consistent => leakingRows (Tables st) = 0%nat
  | Workable w => w = leakingRows (Tables st) /\ (0 < w)%nat
  | CheckStopped => (0 < leakingRows (Tables st))%nat /\ Checked st' = false
  | _ => True
  end.
Proof.
  intro H.
  destruct (on_actionCheck_cases dlg st st' _ H)
    as [[_ [-> _]] | [_ [root [_ [_ [_ Hrest]]]]]]; [exact I |].
  destruct (firstError (Tables st) (preorder (IDMarkFrom "1" root))) as [e |].
  - destruct Hrest as [-> _]. exact I.
  - pose proof (warnTables_counts (continueCheck dlg) (Tables st) 0) as Hw.
    destruct (warnTables (continueCheck dlg) (Tables st) 0) as [[| w] |];
      destruct Hrest as [-> Hc]; cbn in *; try lia.
    split; [lia | exact Hc].
Qed.

Lemma check_counts_leaking_rows_witness :
  leakingRows (Tables ruledModel) = 0%nat.
Proof.
  apply (check_counts_leaking_rows agreeing ruledModel
           (setChecked (with_TreeWid ruledModel (Some (IDMarkFrom "1" scenarioTree))) true)
           Consistent).
  vm_compute. reflexivity.
Defined.

(** ** What a call of Cast does to the tree and the generator *)

Lemma draw_suffix (r : nat) (g : list nat) :
  exists used, g = used ++ snd (draw r g).
Proof.
  destruct g as [| x g]; cbn.
  - exists []. reflexivity.
  - exists [x]. reflexivity.
Qed.

Lemma sampleRow_suffix (t : TableModel.t) (g : list nat) :
  exists used, g = used ++ snd (sampleRow t g).
Proof.
  unfold sampleRow. destruct (1 <? TableModel.readRows t)%nat.
  - apply draw_suffix.
  - exists []. reflexivity.
Qed.

Lemma distribute_frame (cast : Item -> F32.t -> list nat -> result (Item * list nat))
  (t : TableModel.t) (r : nat) (n Eps : F32.t) (l : list Item) :
  Forall (fun ch => forall m g ch' g',
            cast ch m g = Ret (ch', g') ->
            mapItem clearData ch' = mapItem clearData ch /\
            exists used, g = used ++ g') l ->
  forall c g l' g',
    distribute cast t r n Eps c l g = Ret (l', g') ->
    map (mapItem clearData) l' = map (mapItem clearData) l /\
    exists used, g = used ++ g'.
Proof.
  induction 1 as [| x l Hx _ IH]; intros c g l' g' E; cbn [distribute] in E.
  - injection E as <- <-. split; [reflexivity | exists []; reflexivity].
  - destruct (TableModel.readCell t r c) as [f |]; [| discriminate].
    destruct (cast x (F32.mul n (share Eps f)) g) as [[x' g1] |] eqn:Ex; [| discriminate].
    destruct (distribute cast t r n Eps (S c) l g1) as [[l'' g2] |] eqn:El;
      [| discriminate].
    injection E as <- <-.
    destruct (Hx _ _ _ _ Ex) as [H1 [u1 ->]].
    destruct (IH _ _ _ _ El) as [H2 [u2 ->]].
    split.
    + cbn [map]. rewrite H1, H2. reflexivity.
    + exists (u1 ++ u2). rewrite app_assoc. reflexivity.
Qed.

Lemma Cast_frame (tables : list TableModel.t) (Eps : F32.t) (node : Item) :
  forall (n : F32.t) (g : list nat) (node' : Item) (g' : list nat),
    Cast tables Eps node n g = Ret (node', g') ->
    mapItem clearData node' = mapItem clearData node /\
    exists used, g = used ++ g'.
Proof.
  induction node as [d cs IH] using Item_ind. intros n g node' g'.
  cbn [Cast].
  destruct (String.eqb (text1 d) "Success" || String.eqb (text1 d) "Sink").
  - intro H. injection H as <- <-. split; [reflexivity | exists []; reflexivity].
  - destruct (String.eqb (text1 d) "Direct").
    + destruct cs as [| c0 rest]; [discriminate |].
      apply Forall_cons_iff in IH. destruct IH as [IH0 _].
      destruct (Cast tables Eps c0 n g) as [[c0' g0] |] eqn:E0; [| discriminate].
      intro H. injection H as <- <-.
      destruct (IH0 _ _ _ _ E0) as [H1 Hu].
      split; [| exact Hu]. cbn [mapItem map]. rewrite H1. reflexivity.
    + destruct (findTable (text1 d) tables) as [t |].
      * destruct (sampleRow_suffix t g) as [u0 Hu0].
        destruct (sampleRow t g) as [r g1]. cbn [snd] in Hu0.
        destruct (distribute (Cast tables Eps) t r n Eps 0 cs g1) as [[cs' g2] |] eqn:E;
          [| discriminate].
        intro H. injection H as <- <-.
        destruct (distribute_frame _ t r n Eps cs IH _ _ _ _ E) as [H1 [u1 ->]].
        split.
        -- cbn [mapItem]. rewrite H1. reflexivity.
        -- exists (u0 ++ u1). rewrite <- app_assoc. exact Hu0.
      * intro H. injection H as <- <-. split; [reflexivity | exists []; reflexivity].
Qed.

Lemma sampleRow_in_range (t : TableModel.t) (g : list nat) :
  (2 <= TableModel.readRows t)%nat ->
  (fst (sampleRow t g) < TableModel.readRows t)%nat.
Proof.
  intro H. unfold sampleRow.
  destruct (Nat.ltb_spec 1 (TableModel.readRows t)) as [_ | Hle]; [| lia].
  destruct g as [| x g]; cbn [draw fst]; [lia |].
  apply Nat.mod_upper_bound. lia.
Qed.

Lemma distribute_total (cast : Item -> F32.t -> list nat -> result (Item * list nat))
  (t : TableModel.t) (r : nat) (n Eps : F32.t) (l : list Item) :
  Forall (fun ch => forall m g, exists ch' g', cast ch m g = Ret (ch', g')) l ->
  forall c g,
    (forall i, (i < List.length l)%nat ->
               exists f, TableModel.readCell t r (c + i) = Some f) ->
    exists l' g', distribute cast t r n Eps c l g = Ret (l', g').
Proof.
  induction 1 as [| x l Hx _ IH]; intros c g Hcells; cbn [distribute].
  - eauto.
  - destruct (Hcells 0%nat) as [f Hf]; [cbn; lia |].
    rewrite Nat.add_0_r in Hf. rewrite Hf.
    destruct (Hx (F32.mul n (share Eps f)) g) as [x' [g1 ->]].
    destruct (IH (S c) g1) as [l'' [g2 ->]].
    + intros i Hi. rewrite Nat.add_succ_comm. apply Hcells. cbn. lia.
    + eauto.
Qed.

Lemma stageRule_children (tables : list TableModel.t) (d : Stage) (cs : list Item) :
  Forall (stageRule tables) (preorder (Node d cs)) ->
  stageRule tables (Node d cs) /\
  Forall (fun c => Forall (stageRule tables) (preorder c)) cs.
Proof.
  cbn [preorder]. intro H. apply Forall_cons_iff in H. destruct H as [H1 H2].
  split; [exact H1 |]. apply Forall_flat_map. exact H2.
Qed.

Lemma Cast_total (tables : list TableModel.t) (Eps : F32.t) (node : Item) :
  Forall bootstrappable tables ->
  Forall (stageRule tables) (preorder node) ->
  forall (n : F32.t) (g : list nat),
    exists node' g', Cast tables Eps node n g = Ret (node', g').
Proof.
  intro Htabs. induction node as [d cs IH] using Item_ind. intros Hrule n g.
  destruct (stageRule_children _ _ _ Hrule) as [Hhere Hsub].
  cbn [Cast].
  destruct (String.eqb_spec (text1 d) "Success") as [| Hs]; [cbn [orb]; eauto |].
  destruct (String.eqb_spec (text1 d) "Sink") as [| Hk]; [cbn [orb]; eauto |].
  cbn [orb].
  unfold stageRule, childCount in Hhere. cbn [children stage] in Hhere.
  destruct (String.eqb_spec (text1 d) "Direct") as [Hd | Hd].
  - destruct cs as [| c0 rest].
    + cbn in Hhere. destruct Hhere; congruence.
    + apply Forall_cons_iff in IH. destruct IH as [IH0 _].
      apply Forall_cons_iff in Hsub. destruct Hsub as [Hsub0 _].
      destruct (IH0 Hsub0 n g) as [c0' [g0 ->]]. eauto.
  - destruct (findTable (text1 d) tables) as [t |] eqn:Ef; [| eauto].
    destruct cs as [| c0 [| c1 rest]].
    + cbn in Hhere. destruct Hhere; congruence.
    + cbn in Hhere. congruence.
    + destruct Hhere as [_ [t' [Ht' Hcols]]].
      assert (t' = t) by congruence. subst t'.
      apply find_some in Ef. destruct Ef as [Hin _].
      rewrite Forall_forall in Htabs. destruct (Htabs t Hin) as [Hshape Hrows].
      pose proof (sampleRow_in_range t g Hrows) as Hr.
      destruct (sampleRow t g) as [r g1]. cbn [fst] in Hr.
      assert (Hall : Forall (fun ch => forall m g0, exists ch' g',
                               Cast tables Eps ch m g0 = Ret (ch', g'))
                            (c0 :: c1 :: rest)).
      { rewrite Forall_forall in IH, Hsub. apply Forall_forall.
        intros ch Hch m g0. apply (IH ch Hch). apply (Hsub ch Hch). }
      destruct (distribute_total (Cast tables Eps) t r n Eps _ Hall 0%nat g1)
        as [l' [g2 ->]]; [| eauto].
      intros i Hi. cbn [Nat.add].
      destruct (shaped_valid_cell t r i Hshape) as [rowv [pos [E1 E2]]].
      * unfold TableModel.isValid.
        apply andb_true_iff. split; apply Nat.ltb_lt.
        -- exact Hr.
        -- unfold TableModel.readCols in Hcols. rewrite Hcols. exact Hi.
      * exists pos. unfold TableModel.readCell. rewrite E1. exact E2.
Qed.

Lemma preorder_mapItem (f : Stage -> Stage) (it : Item) :
  preorder (mapItem f it) = map (mapItem f) (preorder it).
Proof.
  induction it as [d cs IH] using Item_ind.
  cbn [mapItem preorder map]. f_equal.
  induction cs as [| c cs IHcs]; cbn [map flat_map]; [reflexivity |].
  apply Forall_cons_iff in IH. destruct IH as [IHc IHrest].
  rewrite map_app, IHc, (IHcs IHrest). reflexivity.
Qed.

Lemma stageRule_clearData (tables : list TableModel.t) (it : Item) :
  stageRule tables (mapItem clearData it) <-> stageRule tables it.
Proof.
  destruct it as [d cs]. unfold stageRule, childCount.
  cbn [mapItem children stage clearData text1]. rewrite length_map. reflexivity.
Qed.

Lemma rule_clearData (tables : list TableModel.t) (a : Item) :
  Forall (stageRule tables) (preorder (mapItem clearData a)) <->
  Forall (stageRule tables) (preorder a).
Proof.
  rewrite preorder_mapItem, Forall_map.
  split; apply Forall_impl; intro it; apply stageRule_clearData.
Qed.

Lemma rule_same_shape (tables : list TableModel.t) (a b : Item) :
  mapItem clearData a = mapItem clearData b ->
  Forall (stageRule tables) (preorder a) -> Forall (stageRule tables) (preorder b).
Proof.
  intros E H. apply rule_clearData. rewrite <- E. apply rule_clearData. exact H.
Qed.



(** X9.  A call of [Cast] that returns has stored the incoming population
    at the stage and changed nothing else in the tree but stored
    populations: shape, names, castings, report marks and IDs are as before;
    and the generator it leaves is what remains of the one it got after the
    draws it made. *)
Theorem Cast_only_stores_populations (tables : list TableModel.t) (Eps : F32.t)
  (node : Item) (n : F32.t) (g : list nat) (node' : Item) (g' : list nat) :
  Cast tables Eps node n g = Ret (node', g') ->
  userData (stage node') = Some n /\
  mapItem clearData node' = mapItem clearData node /\
  exists used, g = used ++ g'.
Proof.
  intro H. split.
  - apply (Cast_records _ _ _ _ _ _ _ H).
  - apply (Cast_frame tables Eps node n g node' g' H).
Qed.

Lemma Cast_only_stores_populations_witness :
  userData (stage (Node (mkStage "B" "Q" true "" (Some (F32.of_Z 8)))
          [Node (mkStage "C" "Success" true "" (Some (F32.of_Z 2))) [];
           Node (mkStage "D" "Sink" true "" (Some (F32.of_Z 6))) []]))
  = Some (F32.of_Z 8) /\
  mapItem clearData
    (Node (mkStage "B" "Q" true "" (Some (F32.of_Z 8)))
          [Node (mkStage "C" "Success" true "" (Some (F32.of_Z 2))) [];
           Node (mkStage "D" "Sink" true "" (Some (F32.of_Z 6))) []])
  = mapItem clearData branchQ /\
  exists used, [0%nat; 5%nat] = used ++ [5%nat].
Proof.
  apply (Cast_only_stores_populations [tableQ] (F32.ratio 1 2) branchQ (F32.of_Z 8)
           [0%nat; 5%nat]).
  vm_compute. reflexivity.
Defined.

(** X10.  On a tree that meets the structural rules, with castings that
    are shaped and have at least two rows, a call of [Cast] always returns:
    no stage is left without the following stage it passes to and no cell
    is read outside its table; and the tree it returns meets the rules
    again, so the next iteration can be cast as well. *)
Theorem Cast_returns_on_ruled_tree (tables : list TableModel.t) (Eps : F32.t)
  (node : Item) (n : F32.t) (g : list nat) :
  Forall bootstrappable tables ->
  Forall (stageRule tables) (preorder node) ->
  exists node' g',
    Cast tables Eps node n g = Ret (node', g') /\
    Forall (stageRule tables) (preorder node').
Proof.
  intros Htabs Hrule.
  destruct (Cast_total tables Eps node Htabs Hrule n g) as [node' [g' H]].
  exists node', g'. split; [exact H |].
  destruct (Cast_frame tables Eps node n g node' g' H) as [E _].
  apply (rule_same_shape tables node node'); [symmetry; exact E | exact Hrule].
Qed.

Lemma Cast_returns_on_ruled_tree_witness :
  exists node' g',
    Cast [tableT2] (F32.ratio 1 1024) scenarioTree (F32.of_Z 100) [1%nat]
    = Ret (node', g') /\
    Forall (stageRule [tableT2]) (preorder node').
Proof.
  apply (Cast_returns_on_ruled_tree [tableT2] (F32.ratio 1 1024) scenarioTree).
  - constructor; [| constructor].
    split; [split; [reflexivity | repeat constructor] | cbn; lia].
  - cbn [preorder scenarioTree leaf flat_map app].
    repeat (constructor; [rule_holds |]). constructor.
Defined.

(** ** The output table and the run *)

Lemma Init_sized (rows cols : Z) :
  (0 <= rows)%Z -> (0 <= cols)%Z ->
  exists o, OutTableModel.Init rows cols = Ret o /\
            sized o (Z.to_nat rows) (Z.to_nat cols).
Proof.
  intros Hr Hc. unfold OutTableModel.Init.
  destruct (Z.ltb_spec rows 0); [lia |]. destruct (Z.ltb_spec cols 0); [lia |].
  cbn [orb]. eexists. split; [reflexivity |].
  unfold sized. cbn. split; [apply repeat_length |].
  split; [| auto]. apply Forall_forall. intros row Hin.
  apply repeat_spec in Hin. subst. apply repeat_length.
Qed.

Lemma setCell_sized (o : OutTableModel.t) (R C : nat) (r c : Z) (v : cell) :
  sized o R C -> (0 <= r < Z.of_nat R)%Z -> (0 <= c < Z.of_nat C)%Z ->
  exists o', OutTableModel.setCell o r c v = Ret o' /\ sized o' R C.
Proof.
  intros [Hlen [Hrows [Hmr Hmc]]] Hr Hc. unfold OutTableModel.setCell.
  destruct (Z.ltb_spec r 0); [lia |]. destruct (Z.ltb_spec c 0); [lia |].
  cbn [orb].
  destruct (nth_error (OutTableModel.rawdata o) (Z.to_nat r)) as [row |] eqn:E.
  - assert (Hl : List.length row = C).
    { rewrite Forall_forall in Hrows. apply Hrows. eapply nth_error_In; eauto. }
    destruct (Nat.ltb_spec (Z.to_nat c) (List.length row)); [| lia].
    eexists. split; [reflexivity |].
    unfold sized. cbn. rewrite assign_length.
    split; [exact Hlen |]. split; [| auto].
    apply assign_Forall; [exact Hrows |]. rewrite assign_length. exact Hl.
  - apply nth_error_None in E. lia.
Qed.

Lemma setCell_no_row (o : OutTableModel.t) (R C : nat) (r c : Z) (v : cell) :
  sized o R C -> (Z.of_nat R <= r)%Z ->
  OutTableModel.setCell o r c v = Crash OutOfRange.
Proof.
  intros [Hlen _] Hr. unfold OutTableModel.setCell.
  destruct ((r <? 0)%Z || (c <? 0)%Z); [reflexivity |].
  destruct (nth_error (OutTableModel.rawdata o) (Z.to_nat r)) eqn:E; [| reflexivity].
  assert (nth_error (OutTableModel.rawdata o) (Z.to_nat r) <> None) by congruence.
  apply nth_error_Some in H. lia.
Qed.




Lemma wrapInt_small (z : Z) : (z <= INT_MAX)%Z -> wrapInt z = z.
Proof.
  intro H. unfold wrapInt. destruct (Z.ltb_spec INT_MAX z); [lia | reflexivity].
Qed.



(** X13.  Run does not guard against a negative number of iterations: on
    a checked and saved model it then always ends in a fault, a length
    error when the output table would have a negative number of rows
    ([Iters < -3]) and an out-of-range access while the header is written
    otherwise. *)
Theorem run_negative_iterations_faults (dlg : Dialogs) (st : Stox) (root : Item) :
  Checked st = true -> Saved st = true ->
  TreeWid st = Some root ->
  (EIters st < 0)%Z ->
  on_actionRun_triggered dlg st
  = Crash (if (EIters st <? -3)%Z then LengthError else OutOfRange).
Proof.
  intros Hchk Hsav Htree Hneg.
  unfold on_actionRun_triggered. rewrite Hsav. cbn [negb andb bind].
  rewrite !Hchk. cbn [negb andb bind]. rewrite ?Hchk. cbn [negb].
  unfold runModel. cbn [TreeWid with_Eps]. rewrite Htree.
  rewrite (wrapInt_small (EIters st + 3)) by (unfold INT_MAX; lia).
  set (n := List.length (reported root)).
  set (cols := if (1 + Z.of_nat n <? 5)%Z then 5%Z else (1 + Z.of_nat n)%Z).
  assert (Hcols5 : (5 <= cols)%Z).
  { unfold cols. destruct (Z.ltb_spec (1 + Z.of_nat n) 5); lia. }
  destruct (Z.ltb_spec (EIters st) (-3)) as [Hlt | Hge].
  - unfold OutTableModel.Init.
    destruct (Z.ltb_spec (EIters st + 3) 0); [reflexivity | lia].
  - destruct (Init_sized (EIters st + 3) cols) as [o0 [-> Hs0]]; try lia.
    cbn [bind].
    set (R := Z.to_nat (EIters st + 3)) in *.
    set (C := Z.to_nat cols) in *.
    destruct (Nat.eq_dec R 0) as [HR0 | HR0].
    + rewrite (setCell_no_row o0 R C 0 1 _ Hs0) by lia. reflexivity.
    + destruct (setCell_sized o0 R C 0 1 (Text "Initial") Hs0) as [o1 [-> Hs1]];
        try lia.
      cbn [bind].
      destruct (setCell_sized o1 R C 0 2 (Number (EInitial st)) Hs1) as [o2 [-> Hs2]];
        try lia.
      cbn [bind].
      destruct (setCell_sized o2 R C 0 3 (Text "Eps") Hs2) as [o3 [-> Hs3]]; try lia.
      cbn [bind].
      destruct (setCell_sized o3 R C 0 4
                  (Number (Eps (with_Eps st (EEps st)))) Hs3) as [o4 [-> Hs4]]; try lia.
      cbn [bind].
      rewrite (setCell_no_row o4 R C 2 0 _ Hs4) by (unfold R; lia). reflexivity.
Qed.

Lemma run_negative_iterations_faults_witness :
  on_actionRun_triggered agreeing
    (mkStox (Some scenarioTree) [tableT2] 1 None true true "model.sxm" F32.zero false
            false [] "" ["T"%string] (F32.of_Z 100) (-1) (F32.ratio 1 1024) [])
  = Crash OutOfRange.
Proof.
  apply (run_negative_iterations_faults agreeing
           (mkStox (Some scenarioTree) [tableT2] 1 None true true "model.sxm" F32.zero
                   false false [] "" ["T"%string] (F32.of_Z 100) (-1)
                   (F32.ratio 1 1024) [])
           scenarioTree); reflexivity.
Defined.

(** ** Opening files that cannot be read as a model *)

(** X14.  Open does not keep the model in memory when the chosen file
    cannot be opened: the tree was cleared before the attempt, and the slot
    falls back to New, so the result is the empty model (only "Start", no
    casting, no file name), modified and unchecked. *)
Theorem open_unreadable_starts_new_model (dlg : Dialogs) (st : Stox) :
  Saved st = true \/ saveAnswer dlg = No ->
  String.eqb (openName dlg) "" = false ->
  lookupFile (openName dlg) (Disk st) = None ->
  exists st',
    on_actionOpen_triggered dlg st = Ret st' /\
    TreeWid st' = Some startItem /\
    Tables st' = [] /\ NumTables st' = 0%Z /\ CBCastings st' = [] /\
    FileName st' = ""%string /\ Saved st' = false /\ Checked st' = false.
Proof.
  intros Hsaved Hname Hfile.
  assert (Hnew : on_actionNew_triggered dlg (with_TreeWid st None)
                 = Ret (setChecked (setSaved (with_CBCastings (with_NumTables
                          (with_Tables (with_TreeWid
                             (with_FileName (with_TreeWid st None) "")
                             (Some startItem)) []) 0) []) false) false)).
  { unfold on_actionNew_triggered. cbn [Saved with_TreeWid].
    destruct Hsaved as [-> | ->]; [reflexivity |].
    rewrite andb_false_r. reflexivity. }
  unfold on_actionOpen_triggered. rewrite Hname. cbn [Disk with_TreeWid].
  rewrite Hfile, Hnew.
  destruct Hsaved as [Hs | Hs]; rewrite Hs.
  - cbn [negb]. eexists. split; [reflexivity |]. cbn. auto 10.
  - destruct (negb (Saved st)); (eexists; split; [reflexivity |]; cbn; auto 10).
Qed.

Lemma open_unreadable_starts_new_model_witness :
  exists st',
    on_actionOpen_triggered agreeing checkedModel = Ret st' /\
    TreeWid st' = Some startItem /\
    Tables st' = [] /\ NumTables st' = 0%Z /\ CBCastings st' = [] /\
    FileName st' = ""%string /\ Saved st' = false /\ Checked st' = false.
Proof.
  apply (open_unreadable_starts_new_model agreeing checkedModel).
  - left. reflexivity.
  - reflexivity.
  - reflexivity.
Defined.

Lemma readModel_no_stage (filename : string) (stream : list token) (st : Stox) :
  (fst (readInt stream) <= 0)%Z ->
  exists f, readModel filename stream st = Crash f.
Proof.
  intro H. unfold readModel.
  destruct (readInt stream) as [stages s1]. cbn [fst] in H.
  replace (Z.to_nat stages) with 0%nat by lia. cbn [readStages].
  destruct (readInt s1) as [nt s3].
  destruct (nt <? 0)%Z; [eauto |].
  destruct (readTables (Z.to_nat nt) s3) as [[[tables names] s] | f]; cbn; eauto.
Qed.

(** X15.  A file that announces no stage, the empty file included, cannot
    be opened: whatever else it holds, Open ends in a fault (at the
    latest when it expands the tree it did not get). *)
Theorem open_without_stages_faults (dlg : Dialogs) (st : Stox) (stream : list token) :
  Saved st = true \/ saveAnswer dlg = No ->
  String.eqb (openName dlg) "" = false ->
  lookupFile (openName dlg) (Disk st) = Some stream ->
  (fst (readInt stream) <= 0)%Z ->
  exists f, on_actionOpen_triggered dlg st = Crash f.
Proof.
  intros Hsaved Hname Hfile Hstages.
  unfold on_actionOpen_triggered. rewrite Hname. cbn [Disk with_TreeWid].
  rewrite Hfile.
  destruct (readModel_no_stage (openName dlg) stream (with_TreeWid st None) Hstages)
    as [f Hf].
  rewrite Hf. exists f.
  destruct Hsaved as [Hs | Hs]; rewrite Hs; [reflexivity |].
  destruct (negb (Saved st)); reflexivity.
Qed.

Lemma open_without_stages_faults_witness :
  exists f,
    on_actionOpen_triggered agreeing
      (with_Disk checkedModel [("model.sxm"%string, [])]) = Crash f.
Proof.
  apply (open_without_stages_faults agreeing
           (with_Disk checkedModel [("model.sxm"%string, [])]) []).
  - left. reflexivity.
  - reflexivity.
  - reflexivity.
  - cbn. lia.
Defined.

(** ** The serialized tree *)

(** X16.  [Dump] lists every stage once, in iterator order, the stage it
    is called on first and at the level asked, everything below it at a
    higher level; the stage count Save writes is the number of stages. *)
Theorem Dump_iterator_order (node : Item) (n : Z) :
  map getItem (Dump node n) = preorder node /\
  (exists rest, Dump node n = mkNodeData n node :: rest /\
                Forall (fun nd => (n < getLevel nd)%Z) rest) /\
  List.length (Dump node n) = List.length (preorder node).
Proof.
  assert (Hitems : forall it m, map getItem (Dump it m) = preorder it).
  { induction it as [d cs IH] using Item_ind. intro m.
    cbn [Dump preorder map getItem]. f_equal.
    induction cs as [| c cs IHcs]; cbn [flat_map]; [reflexivity |].
    apply Forall_cons_iff in IH. destruct IH as [IHc IHrest].
    rewrite map_app, IHc, (IHcs IHrest). reflexivity. }
  split; [apply Hitems |]. split.
  - destruct node as [d cs]. cbn [Dump]. eexists. split; [reflexivity |].
    apply Forall_flat_map. apply Forall_forall. intros c _.
    eapply Forall_impl; [| apply (Dump_levels c (n + 1))]. cbn. intros; lia.
  - rewrite <- (Hitems node n), length_map. reflexivity.
Qed.

(** ** The report marks *)

Lemma mapItem_check (b : Stage -> bool) (it : Item) :
  (forall d, b (setCheckState2 d (b d)) = b d) ->
  mapItem clearCheck (mapItem (fun d => setCheckState2 d (b d)) it)
  = mapItem clearCheck it /\
  Forall (fun x => check2 (stage x) = b (stage x))
         (preorder (mapItem (fun d => setCheckState2 d (b d)) it)).
Proof.
  intro Hb. induction it as [d cs IH] using Item_ind.
  cbn [mapItem preorder]. split.
  - f_equal. rewrite map_map.
    induction cs as [| c cs IHcs]; cbn [map]; [reflexivity |].
    apply Forall_cons_iff in IH. destruct IH as [[IHc _] IHrest].
    rewrite IHc, (IHcs IHrest). reflexivity.
  - constructor; [cbn; symmetry; apply Hb |].
    induction cs as [| c cs IHcs]; cbn [map flat_map]; [constructor |].
    apply Forall_cons_iff in IH. destruct IH as [[_ IHc] IHrest].
    apply Forall_app. split; [exact IHc | apply IHcs, IHrest].
Qed.

(** X17.  The three Show buttons only touch report marks, and never the
    one of the top-level stage: below it, Show all marks every stage, Show
    none unmarks every stage, and Show success marks exactly the stages of
    kind Success. *)
Theorem show_buttons_mark (st : Stox) (d : Stage) (cs : list Item) :
  TreeWid st = Some (Node d cs) ->
  (exists cs',
     TreeWid (on_BShowAll_clicked st) = Some (Node d cs') /\
     map (mapItem clearCheck) cs' = map (mapItem clearCheck) cs /\
     Forall (fun x => check2 (stage x) = true) (flat_map preorder cs')) /\
  (exists cs',
     TreeWid (on_BShowNone_clicked st) = Some (Node d cs') /\
     map (mapItem clearCheck) cs' = map (mapItem clearCheck) cs /\
     Forall (fun x => check2 (stage x) = false) (flat_map preorder cs')) /\
  (exists cs',
     TreeWid (on_BShowSuccess_clicked st) = Some (Node d cs') /\
     map (mapItem clearCheck) cs' = map (mapItem clearCheck) cs /\
     Forall (fun x => check2 (stage x) = String.eqb (text1 (stage x)) "Success")
            (flat_map preorder cs')).
Proof.
  intro Htree.
  assert (Hgen : forall b : Stage -> bool,
    (forall d0, b (setCheckState2 d0 (b d0)) = b d0) ->
    exists cs',
      TreeWid (markBelowTop (fun d0 => setCheckState2 d0 (b d0)) st) = Some (Node d cs') /\
      map (mapItem clearCheck) cs' = map (mapItem clearCheck) cs /\
      Forall (fun x => check2 (stage x) = b (stage x)) (flat_map preorder cs')).
  { intros b Hb. unfold markBelowTop. rewrite Htree. cbn [TreeWid with_TreeWid].
    eexists. split; [reflexivity |]. split.
    - rewrite map_map. apply map_ext. intro c. apply (mapItem_check b c Hb).
    - apply Forall_flat_map, Forall_map, Forall_forall. intros c _.
      apply (mapItem_check b c Hb). }
  split; [| split].
  - apply (Hgen (fun _ => true)). reflexivity.
  - apply (Hgen (fun _ => false)). reflexivity.
  - apply (Hgen (fun d0 => String.eqb (text1 d0) "Success")). reflexivity.
Qed.

Lemma show_buttons_mark_witness :
  (exists cs',
     TreeWid (on_BShowAll_clicked ruledModel)
     = Some (Node (mkStage "Start" "Direct" false "" None) cs') /\
     map (mapItem clearCheck) cs' = map (mapItem clearCheck) (children scenarioTree) /\
     Forall (fun x => check2 (stage x) = true) (flat_map preorder cs')) /\
  (exists cs',
     TreeWid (on_BShowNone_clicked ruledModel)
     = Some (Node (mkStage "Start" "Direct" false "" None) cs') /\
     map (mapItem clearCheck) cs' = map (mapItem clearCheck) (children scenarioTree) /\
     Forall (fun x => check2 (stage x) = false) (flat_map preorder cs')) /\
  (exists cs',
     TreeWid (on_BShowSuccess_clicked ruledModel)
     = Some (Node (mkStage "Start" "Direct" false "" None) cs') /\
     map (mapItem clearCheck) cs' = map (mapItem clearCheck) (children scenarioTree) /\
     Forall (fun x => check2 (stage x) = String.eqb (text1 (stage x)) "Success")
            (flat_map preorder cs')).
Proof.
  apply (show_buttons_mark ruledModel). reflexivity.
Defined.

(** ** Managing castings *)

Lemma findText_In (name : string) (items : list string) :
  (0 <=? findText name items)%Z = true <-> In name items.
Proof.
  induction items as [| x items IH]; cbn [findText In].
  - split; [discriminate | tauto].
  - destruct (String.eqb_spec x name) as [-> | Hne].
    + split; [auto | reflexivity].
    + destruct (Z.ltb_spec (findText name items) 0) as [Hlt | Hge].
      * split; [discriminate |]. intros [H | H]; [congruence |].
        apply IH in H. apply Z.leb_le in H. lia.
      * split.
        -- intros _. right. apply IH. apply Z.leb_le. lia.
        -- intros _. apply Z.leb_le. lia.
Qed.

Lemma findText_absent (name : string) (items : list string) :
  ~ In name items -> (0 <=? findText name items)%Z = false.
Proof.
  intro H. destruct (0 <=? findText name items)%Z eqn:E; [| reflexivity].
  apply findText_In in E. contradiction.
Qed.

Lemma existsb_eqb_In (name : string) (items : list string) :
  existsb (String.eqb name) items = true <-> In name items.
Proof.
  rewrite existsb_exists. split.
  - intros [x [Hin Heq]]. apply String.eqb_eq in Heq. subst. exact Hin.
  - intro H. exists name. split; [exact H | apply String.eqb_refl].
Qed.

Lemma existsb_eqb_absent (name : string) (items : list string) :
  existsb (String.eqb name) items = false -> ~ In name items.
Proof.
  intros H Hin. apply existsb_eqb_In in Hin. congruence.
Qed.

(** Sorting the combo box rearranges its entries and nothing else. *)
Lemma insertSorted_perm (x : string) (l : list string) :
  Permutation (insertSorted x l) (x :: l).
Proof.
  induction l as [| y l IH]; cbn [insertSorted]; [reflexivity |].
  destruct (String.leb x y); [reflexivity |].
  rewrite IH. apply perm_swap.
Qed.

Lemma sort0_perm (l : list string) : Permutation (sort0 l) l.
Proof.
  induction l as [| x l IH]; cbn [sort0 fold_right]; [reflexivity |].
  fold (sort0 l). rewrite insertSorted_perm, IH. reflexivity.
Qed.

Lemma sort0_In (l : list string) (n : string) : In n (sort0 l) <-> In n l.
Proof.
  split; apply Permutation_in; [apply sort0_perm | symmetry; apply sort0_perm].
Qed.

Lemma sort0_NoDup (l : list string) : NoDup l -> NoDup (sort0 l).
Proof.
  apply Permutation_NoDup. symmetry. apply sort0_perm.
Qed.

(** Appending a table under a name that is neither reserved nor listed. *)
Lemma namedApart_add (st st' : Stox) (t : TableModel.t) :
  namedApart st ->
  ~ In (TableModel.readName t) TypeNames ->
  ~ In (TableModel.readName t) (CBCastings st) ->
  Tables st' = Tables st ++ [t] ->
  CBCastings st' = sort0 (CBCastings st ++ [TableModel.readName t]) ->
  namedApart st'.
Proof.
  intros [Hnd [Hres [Hcb Hiff]]] Hnr Hnew Ht Hc.
  unfold namedApart. rewrite Ht, Hc, map_app. cbn [map].
  assert (Hnot : ~ In (TableModel.readName t) (map TableModel.readName (Tables st))).
  { intro H. apply Hnew, Hiff, H. }
  split; [| split; [| split]].
  - apply NoDup_app; [exact Hnd | repeat constructor; intros [] |].
    intros n H1 [H2 | []]. subst. contradiction.
  - apply Forall_app. split; [exact Hres | repeat constructor; exact Hnr].
  - apply sort0_NoDup.
    apply NoDup_app; [exact Hcb | repeat constructor; intros [] |].
    intros n H1 [H2 | []]. subst. contradiction.
  - intro n. rewrite sort0_In, !in_app_iff, Hiff. reflexivity.
Qed.

Lemma namedApart_same (st st' : Stox) :
  namedApart st -> Tables st' = Tables st -> CBCastings st' = CBCastings st ->
  namedApart st'.
Proof.
  unfold namedApart. intros H Ht Hc. rewrite Ht, Hc. exact H.
Qed.

(** X18.  New, Duplicate and an accepted Paste keep the castings named
    apart: after any of them no two tables share a name, no table is named
    like a stage type, and the combo box lists exactly the names of the
    tables. *)
Theorem castings_stay_named_apart (st : Stox) :
  namedApart st ->
  (forall SBRows SBCols, namedApart (on_BNewTable_clicked SBRows SBCols st)) /\
  (forall sel st', on_BDupliTable_clicked sel st = Ret st' -> namedApart st') /\
  (forall parseFloats dlg source,
     clipboard dlg = Some source ->
     (2 <= count tab source)%nat -> (1 <= count newline source)%nat ->
     namedApart (on_BPasteTable_clicked parseFloats dlg st)).
Proof.
  intro Hst. split; [| split].
  - intros r c. unfold on_BNewTable_clicked.
    destruct (String.eqb (ENewCastName st) ""); [exact Hst |].
    destruct (existsb (String.eqb (ENewCastName st)) TypeNames) eqn:Eres;
      [apply (namedApart_same st); auto |].
    destruct (0 <=? findText (ENewCastName st) (CBCastings st))%Z eqn:Efind;
      [apply (namedApart_same st); auto |].
    apply (namedApart_add st _ (TableModel.FillZeroes r c (ENewCastName st)));
      try reflexivity; try exact Hst.
    + apply existsb_eqb_absent, Eres.
    + intro H. apply findText_In in H. cbn in H. congruence.
  - intros sel st'. unfold on_BDupliTable_clicked.
    destruct (currentIndex sel <? 0)%Z; [intro H; injection H as <-; exact Hst |].
    destruct (String.eqb (ENewCastName st) "");
      [intro H; injection H as <-; exact Hst |].
    destruct (existsb (String.eqb (ENewCastName st)) TypeNames) eqn:Eres;
      [intro H; injection H as <-; apply (namedApart_same st); auto |].
    destruct (0 <=? findText (ENewCastName st) (CBCastings st))%Z eqn:Efind;
      [intro H; injection H as <-; apply (namedApart_same st); auto |].
    destruct (shownTable sel st) as [source |]; [| discriminate].
    intro H. injection H as <-.
    apply (namedApart_add st _ (TableModel.FillFromCopy source (ENewCastName st)));
      try reflexivity; try exact Hst.
    + apply existsb_eqb_absent, Eres.
    + intro H. apply findText_In in H. cbn in H. congruence.
  - intros parseFloats dlg source Hclip Htabs Hlines. unfold on_BPasteTable_clicked.
    destruct (String.eqb (ENewCastName st) ""); [exact Hst |].
    destruct (existsb (String.eqb (ENewCastName st)) TypeNames) eqn:Eres;
      [apply (namedApart_same st); auto |].
    destruct (existsb (String.eqb (ENewCastName st)) (CBCastings st)) eqn:Efind;
      [apply (namedApart_same st); auto |].
    rewrite Hclip.
    destruct (Nat.ltb_spec (count tab source) 2); [lia |].
    destruct (Nat.ltb_spec (count newline source) 1); [lia |].
    cbn [orb].
    eapply (namedApart_add st); try exact Hst.
    3: reflexivity. 3: reflexivity.
    + apply existsb_eqb_absent, Eres.
    + apply existsb_eqb_absent, Efind.
Qed.

Lemma ruledModel_namedApart : namedApart ruledModel.
Proof.
  unfold namedApart. cbn.
  split; [repeat constructor; intros [] |].
  split; [repeat constructor; intros [H | [H | [H | [H | []]]]]; discriminate H |].
  split; [repeat constructor; intros [] | tauto].
Qed.

Lemma castings_stay_named_apart_witness :
  ((forall SBRows SBCols, namedApart (on_BNewTable_clicked SBRows SBCols pastingModel)) /\
   (forall sel st', on_BDupliTable_clicked sel pastingModel = Ret st' -> namedApart st') /\
   (forall parseFloats dlg source,
      clipboard dlg = Some source ->
      (2 <= count tab source)%nat -> (1 <= count newline source)%nat ->
      namedApart (on_BPasteTable_clicked parseFloats dlg pastingModel))) /\
  map TableModel.readName (Tables (on_BNewTable_clicked 2 3 pastingModel))
  = ["T"; "New"]%string /\
  CBCastings (on_BNewTable_clicked 2 3 pastingModel) = ["New"; "T"]%string /\
  (exists st', on_BDupliTable_clicked (mkSelection 0 (Some 0%nat) None) pastingModel
               = Ret st' /\
               map TableModel.readName (Tables st') = ["T"; "New"]%string /\
               CBCastings st' = ["New"; "T"]%string) /\
  (forall parseFloats,
     CBCastings (on_BPasteTable_clicked parseFloats (holding (Some twoLines)) pastingModel)
     = ["New"; "T"]%string).
Proof.
  split; [| repeat split].
  - apply (castings_stay_named_apart pastingModel).
    unfold namedApart. cbn.
    split; [repeat constructor; intros [] |].
    split; [repeat constructor; intros [H | [H | [H | [H | []]]]]; discriminate H |].
    split; [repeat constructor; intros [] | tauto].
  - eexists. split; [reflexivity |]. split; reflexivity.
Defined.

Lemma removeNth_map {A B : Type} (f : A -> B) (i : nat) (l : list A) :
  map f (removeNth i l) = removeNth i (map f l).
Proof.
  revert i. induction l as [| x l IH]; intros [| i]; cbn; auto.
  rewrite IH. reflexivity.
Qed.

Lemma removeNth_In {A : Type} (i : nat) (l : list A) (x : A) :
  In x (removeNth i l) -> In x l.
Proof.
  revert i. induction l as [| y l IH]; intros [| i]; cbn; auto.
  intros [H | H]; [auto | right; apply (IH i), H].
Qed.

(** Removing an entry from a list without repetition removes its value. *)
Lemma removeNth_NoDup {A : Type} (i : nat) (l : list A) (a : A) :
  NoDup l -> nth_error l i = Some a ->
  NoDup (removeNth i l) /\
  forall x, In x (removeNth i l) <-> In x l /\ x <> a.
Proof.
  revert i. induction l as [| y l IH]; intros [| i] Hnd Hi; cbn in Hi; try discriminate.
  - injection Hi as ->. inversion Hnd as [| ? ? Hnotin Hnd']; subst. cbn. split.
    + exact Hnd'.
    + intro x. split.
      * intro H. split; [auto |]. intro; subst. contradiction.
      * intros [[H | H] Hne]; [congruence | exact H].
  - inversion Hnd as [| ? ? Hnotin Hnd']; subst.
    destruct (IH i Hnd' Hi) as [H1 H2]. cbn. split.
    + constructor; [| exact H1]. intro H. apply Hnotin. apply (removeNth_In i l y H).
    + intro x. cbn. rewrite H2. split.
      * intros [H | [H Hne]]; [| tauto]. subst. split; [auto |].
        intro; subst. apply Hnotin. eapply nth_error_In; eauto.
      * intros [[H | H] Hne]; [auto | right; auto].
Qed.

Lemma findTable_named (s : string) (tables : list TableModel.t) (t : TableModel.t) :
  findTable s tables = Some t -> In t tables /\ TableModel.readName t = s.
Proof.
  unfold findTable. intro H. apply find_some in H. destruct H as [H1 H2].
  apply String.eqb_eq in H2. auto.
Qed.

Lemma findTable_unnamed (s : string) (tables : list TableModel.t) :
  ~ In s (map TableModel.readName tables) -> findTable s tables = None.
Proof.
  intro H. unfold findTable.
  destruct (find _ tables) as [t |] eqn:E; [| reflexivity].
  apply find_some in E. destruct E as [Hin Heq]. apply String.eqb_eq in Heq.
  exfalso. apply H. apply in_map_iff. exists t. auto.
Qed.

(** Among tables named apart, the table found under a name is the one
    that carries it. *)
Lemma findTable_unique (tables : list TableModel.t) (i : nat) (t : TableModel.t) :
  NoDup (map TableModel.readName tables) -> nth_error tables i = Some t ->
  findTable (TableModel.readName t) tables = Some t.
Proof.
  unfold findTable. revert i.
  induction tables as [| x tables IH]; intros [| i] Hnd Hi; cbn in Hi; try discriminate.
  - injection Hi as ->. cbn [find]. rewrite String.eqb_refl. reflexivity.
  - cbn [map] in Hnd. inversion Hnd as [| ? ? Hnotin Hnd']; subst.
    cbn [find].
    destruct (String.eqb_spec (TableModel.readName x) (TableModel.readName t)) as [E | _].
    + exfalso. apply Hnotin. rewrite E. apply in_map. eapply nth_error_In; eauto.
    + apply (IH i Hnd' Hi).
Qed.

Lemma recast_preorder (oldname name : string) (root : Item) :
  oldname <> name ->
  Forall (fun it => text1 (stage it) <> oldname)
         (preorder (mapItem (recast oldname name) root)).
Proof.
  intro Hne. rewrite preorder_mapItem. apply Forall_map, Forall_forall.
  intros [d cs] _. cbn [mapItem stage]. unfold recast.
  destruct (String.eqb_spec (text1 d) oldname) as [E | E]; [cbn; congruence | exact E].
Qed.

Lemma recast_only_castings (oldname name : string) (root : Item) :
  mapItem (fun d => setText1 d "") (mapItem (recast oldname name) root)
  = mapItem (fun d => setText1 d "") root.
Proof.
  induction root as [d cs IH] using Item_ind. cbn [mapItem]. f_equal.
  - unfold recast. destruct (String.eqb (text1 d) oldname); reflexivity.
  - rewrite map_map. apply map_ext_Forall. exact IH.
Qed.

(** X19.  Deleting a casting (the one shown, named by the current combo
    entry) takes its table and its name out, clears it from every stage
    that carried it and touches nothing else of the tree: afterwards no
    stage names the deleted casting, no table is found under that name,
    the remaining castings are still named apart, and the model is
    unchecked and modified. *)
Theorem delete_clears_references (sel : Selection) (st : Stox) (root : Item)
  (i : nat) (t : TableModel.t) (name : string) :
  namedApart st ->
  (0 <= currentIndex sel)%Z ->
  nth_error (CBCastings st) (Z.to_nat (currentIndex sel)) = Some name ->
  name <> ""%string ->
  model sel = Some i ->
  nth_error (Tables st) i = Some t ->
  TableModel.readName t = name ->
  TreeWid st = Some root ->
  exists root',
    TreeWid (on_BDelTable_clicked sel Yes st) = Some root' /\
    Forall (fun it => text1 (stage it) <> name) (preorder root') /\
    mapItem (fun d => setText1 d "") root' = mapItem (fun d => setText1 d "") root /\
    findTable name (Tables (on_BDelTable_clicked sel Yes st)) = None /\
    Tables (on_BDelTable_clicked sel Yes st) = removeNth i (Tables st) /\
    NumTables (on_BDelTable_clicked sel Yes st) = (NumTables st - 1)%Z /\
    namedApart (on_BDelTable_clicked sel Yes st) /\
    Checked (on_BDelTable_clicked sel Yes st) = false /\
    Saved (on_BDelTable_clicked sel Yes st) = false.
Proof.
  intros [Hnd [Hres [Hcb Hiff]]] Hidx Hcur Hne Hmodel Hnth Hname Htree.
  assert (Hitem : itemText (currentIndex sel) (CBCastings st) = name).
  { unfold itemText. destruct (Z.ltb_spec (currentIndex sel) 0); [lia |].
    apply nth_error_nth. exact Hcur. }
  assert (Hnames : nth_error (map TableModel.readName (Tables st)) i = Some name).
  { rewrite nth_error_map, Hnth. cbn. congruence. }
  destruct (removeNth_NoDup i _ name Hnd Hnames) as [Hnd' Hin'].
  destruct (removeNth_NoDup (Z.to_nat (currentIndex sel)) _ name Hcb Hcur)
    as [Hcb' Hcbin'].
  unfold on_BDelTable_clicked.
  destruct (Z.ltb_spec (currentIndex sel) 0) as [Hlt | _]; [lia |].
  rewrite Hitem, Hmodel. cbn [is_yes negb].
  cbn [TreeWid Tables NumTables CBCastings Checked Saved setSaved setChecked
       with_TreeWid with_NumTables with_Tables with_CBCastings].
  rewrite Htree. cbn [option_map].
  exists (mapItem (recast name "") root).
  split; [reflexivity |].
  split; [apply recast_preorder; exact Hne |].
  split; [apply recast_only_castings |].
  split.
  { apply findTable_unnamed. rewrite removeNth_map. intro H.
    apply Hin' in H. destruct H as [_ H]. apply H. reflexivity. }
  split; [reflexivity |]. split; [reflexivity |].
  split; [| split; reflexivity].
  unfold namedApart.
  cbn [TreeWid Tables NumTables CBCastings Checked Saved setSaved setChecked
       with_TreeWid with_NumTables with_Tables with_CBCastings].
  rewrite removeNth_map.
  split; [exact Hnd' |]. split.
  - apply Forall_forall. intros n Hn. apply Hin' in Hn. destruct Hn as [Hn _].
    rewrite Forall_forall in Hres. apply Hres, Hn.
  - split; [exact Hcb' |].
    intro n. rewrite Hin', Hcbin', Hiff. reflexivity.
Qed.

(** The two-row model with its casting selected and shown. *)
Lemma delete_clears_references_witness :
  exists root',
    TreeWid (on_BDelTable_clicked (mkSelection 0 (Some 0%nat) None) Yes ruledModel)
    = Some root' /\
    Forall (fun it => text1 (stage it) <> "T"%string) (preorder root') /\
    mapItem (fun d => setText1 d "") root'
    = mapItem (fun d => setText1 d "") scenarioTree /\
    findTable "T" (Tables (on_BDelTable_clicked (mkSelection 0 (Some 0%nat) None)
                                                Yes ruledModel)) = None /\
    Tables (on_BDelTable_clicked (mkSelection 0 (Some 0%nat) None) Yes ruledModel)
    = removeNth 0 (Tables ruledModel) /\
    NumTables (on_BDelTable_clicked (mkSelection 0 (Some 0%nat) None) Yes ruledModel)
    = (NumTables ruledModel - 1)%Z /\
    namedApart (on_BDelTable_clicked (mkSelection 0 (Some 0%nat) None) Yes ruledModel) /\
    Checked (on_BDelTable_clicked (mkSelection 0 (Some 0%nat) None) Yes ruledModel)
    = false /\
    Saved (on_BDelTable_clicked (mkSelection 0 (Some 0%nat) None) Yes ruledModel)
    = false.
Proof.
  apply (delete_clears_references (mkSelection 0 (Some 0%nat) None) ruledModel
           scenarioTree 0 tableT2 "T").
  - apply ruledModel_namedApart.
  - cbn. lia.
  - reflexivity.
  - discriminate.
  - reflexivity.
  - reflexivity.
  - reflexivity.
  - reflexivity.
Defined.

Lemma assign_map {A B : Type} (f : A -> B) (i : nat) (x : A) (l : list A) :
  map f (assign i x l) = assign i (f x) (map f l).
Proof.
  revert i. induction l as [| y l IH]; intros [| i]; cbn; auto.
  rewrite IH. reflexivity.
Qed.

(** Replacing an entry of a list without repetition by a value not in it. *)
Lemma assign_NoDup {A : Type} (i : nat) (l : list A) (a b : A) :
  NoDup l -> nth_error l i = Some a -> ~ In b l ->
  NoDup (assign i b l) /\
  forall x, In x (assign i b l) <-> x = b \/ (In x l /\ x <> a).
Proof.
  revert i. induction l as [| y l IH]; intros [| i] Hnd Hi Hb; cbn in Hi;
    try discriminate.
  - injection Hi as ->. inversion Hnd as [| ? ? Hnotin Hnd']; subst. cbn. split.
    + constructor; [| exact Hnd']. intro H. apply Hb. right. exact H.
    + intro x. split.
      * intros [H | H]; [auto |]. right. split; [auto |]. intro; subst. contradiction.
      * intros [H | [[H | H] Hne]]; [auto | congruence | auto].
  - inversion Hnd as [| ? ? Hnotin Hnd']; subst.
    assert (Hb' : ~ In b l) by (intro H; apply Hb; right; exact H).
    destruct (IH i Hnd' Hi Hb') as [H1 H2]. cbn. split.
    + constructor; [| exact H1]. intro H. apply H2 in H.
      destruct H as [H | [H _]]; [| contradiction]. subst. apply Hb. left. reflexivity.
    + intro x. cbn. rewrite H2. split.
      * intros [H | [H | [H Hne]]]; [| auto | tauto].
        subst. right. split; [auto |]. intro; subst. apply Hnotin.
        eapply nth_error_In; eauto.
      * intros [H | [[H | H] Hne]]; [auto | auto | auto].
Qed.

Lemma findTable_assign_other (s : string) (tables : list TableModel.t) (i : nat)
  (t t' : TableModel.t) :
  nth_error tables i = Some t ->
  TableModel.readName t <> s -> TableModel.readName t' <> s ->
  findTable s (assign i t' tables) = findTable s tables.
Proof.
  unfold findTable. revert i.
  induction tables as [| x tables IH]; intros [| i] Hi Hn Hn'; cbn in Hi;
    try discriminate; cbn [assign find].
  - injection Hi as ->.
    apply String.eqb_neq in Hn. apply String.eqb_neq in Hn'. rewrite Hn, Hn'.
    reflexivity.
  - rewrite (IH i Hi Hn Hn'). reflexivity.
Qed.

Lemma not_TypeName_not_reserved (s : string) : ~ In s TypeNames -> isReserved s = false.
Proof.
  intro H. unfold isReserved.
  destruct (String.eqb_spec s "Direct") as [-> | _]; [exfalso; apply H; cbn; auto |].
  destruct (String.eqb_spec s "Success") as [-> | _]; [exfalso; apply H; cbn; auto |].
  destruct (String.eqb_spec s "Sink") as [-> | _]; [exfalso; apply H; cbn; auto |].
  reflexivity.
Qed.

Lemma kind_is_TypeName (s : string) :
  s = "Success"%string \/ s = "Sink"%string \/ s = "Direct"%string -> In s TypeNames.
Proof. intros [-> | [-> | ->]]; cbn; auto. Qed.

(** What a rename does to one stage that met the rules. *)
Lemma rename_rule (tables : list TableModel.t) (i : nat) (t : TableModel.t)
  (name : string) (it : Item) :
  NoDup (map TableModel.readName tables) ->
  Forall (fun n => ~ In n TypeNames) (map TableModel.readName tables) ->
  nth_error tables i = Some t ->
  ~ In name (map TableModel.readName tables) ->
  ~ In name TypeNames ->
  stageRule tables it ->
  stageRule (assign i (TableModel.setName t name) tables)
            (mapItem (recast (TableModel.readName t) name) it).
Proof.
  intros Hnd Hres Hnth Hnew Hnr.
  assert (Hold : ~ In (TableModel.readName t) TypeNames).
  { rewrite Forall_forall in Hres. apply Hres. apply in_map.
    eapply nth_error_In; eauto. }
  destruct it as [d cs]. unfold stageRule, childCount.
  cbn [mapItem children stage]. rewrite length_map.
  unfold recast.
  destruct (List.length cs) as [| [| n]].
  - intro H.
    destruct (String.eqb_spec (text1 d) (TableModel.readName t)) as [E | _]; [| exact H].
    exfalso. apply Hold. rewrite <- E. apply kind_is_TypeName. tauto.
  - intro H.
    destruct (String.eqb_spec (text1 d) (TableModel.readName t)) as [E | _]; [| exact H].
    exfalso. apply Hold. rewrite <- E. apply kind_is_TypeName. tauto.
  - intros [Hr [t0 [Hf Hc]]].
    destruct (String.eqb_spec (text1 d) (TableModel.readName t)) as [E | E].
    + cbn [setText1 text1]. split; [apply not_TypeName_not_reserved, Hnr |].
      assert (t0 = t).
      { rewrite E, (findTable_unique tables i t Hnd Hnth) in Hf. congruence. }
      subst t0. exists (TableModel.setName t name). split; [| exact Hc].
      change name with (TableModel.readName (TableModel.setName t name)) at 1.
      apply (findTable_unique _ i).
      * rewrite assign_map. cbn [TableModel.readName TableModel.setName TableModel.name].
        apply (assign_NoDup i _ (TableModel.readName t) name Hnd);
          [rewrite nth_error_map, Hnth; reflexivity | exact Hnew].
      * apply assign_nth_error. apply nth_error_Some. congruence.
    + split; [exact Hr |]. exists t0. split; [| exact Hc].
      rewrite (findTable_assign_other (text1 d) tables i t); auto.
      cbn [TableModel.readName TableModel.setName TableModel.name].
      intro E'. apply Hnew. rewrite E'.
      destruct (findTable_named _ _ _ Hf) as [Hin Hn]. rewrite <- Hn.
      apply in_map, Hin.
Qed.

(** X20.  Renaming a casting (the one shown, named by the current combo
    entry) to a name that is new and no stage type takes every stage that
    carried the old name along: the table is found under the new name and
    no longer under the old one, a tree that met the structural rules
    meets them with the renamed table, the castings stay named apart, and
    the model is unchecked and modified. *)
Theorem rename_keeps_stages_attached (sel : Selection) (st : Stox) (root : Item)
  (i : nat) (t : TableModel.t) (name : string) :
  namedApart st ->
  (0 <= currentIndex sel)%Z ->
  nth_error (CBCastings st) (Z.to_nat (currentIndex sel)) = Some (TableModel.readName t) ->
  model sel = Some i ->
  nth_error (Tables st) i = Some t ->
  ENewCastName st = name ->
  name <> ""%string ->
  ~ In name TypeNames ->
  ~ In name (CBCastings st) ->
  TreeWid st = Some root ->
  Forall (stageRule (Tables st)) (preorder root) ->
  exists st' root',
    on_BRenameTable_clicked sel st = Ret st' /\
    TreeWid st' = Some root' /\
    Forall (stageRule (Tables st')) (preorder root') /\
    findTable name (Tables st') = Some (TableModel.setName t name) /\
    findTable (TableModel.readName t) (Tables st') = None /\
    namedApart st' /\
    Checked st' = false /\ Saved st' = false.
Proof.
  intros [Hnd [Hres [Hcb Hiff]]] Hidx Hcur Hmodel Hnth Hname Hne Hnr Hnew Htree Hrule.
  assert (Hnew' : ~ In name (map TableModel.readName (Tables st))).
  { intro H. apply Hnew, Hiff, H. }
  assert (Hitem : itemText (currentIndex sel) (CBCastings st) = TableModel.readName t).
  { unfold itemText. destruct (Z.ltb_spec (currentIndex sel) 0); [lia |].
    apply nth_error_nth. exact Hcur. }
  assert (Hnames : nth_error (map TableModel.readName (Tables st)) i
                   = Some (TableModel.readName t)).
  { rewrite nth_error_map, Hnth. reflexivity. }
  destruct (assign_NoDup i _ _ name Hnd Hnames Hnew') as [Hnd' Hin'].
  destruct (assign_NoDup (Z.to_nat (currentIndex sel)) _ _ name Hcb Hcur Hnew)
    as [Hcb' Hcbin'].
  unfold on_BRenameTable_clicked, shownTable.
  destruct (Z.ltb_spec (currentIndex sel) 0) as [Hlt | _]; [lia |].
  rewrite Hname.
  destruct (String.eqb_spec name "") as [E | _]; [contradiction |].
  destruct (existsb (String.eqb name) TypeNames) eqn:Eres.
  { apply existsb_eqb_In in Eres. contradiction. }
  rewrite (findText_absent name (CBCastings st) Hnew). cbn [andb].
  rewrite Hitem, Hmodel, Hnth.
  cbn [TreeWid Tables CBCastings with_Tables with_CBCastings].
  rewrite Htree. cbn [option_map].
  eexists. eexists. split; [reflexivity |].
  cbn [TreeWid Tables NumTables CBCastings Checked Saved setSaved setChecked
       with_TreeWid with_NumTables with_Tables with_CBCastings].
  split; [reflexivity |].
  split.
  { rewrite preorder_mapItem. apply Forall_map.
    eapply Forall_impl; [| exact Hrule].
    intros it Hit. apply rename_rule; assumption. }
  split.
  { change name with (TableModel.readName (TableModel.setName t name)) at 1.
    apply (findTable_unique _ i).
    - rewrite assign_map. exact Hnd'.
    - apply assign_nth_error. apply nth_error_Some. congruence. }
  split.
  { apply findTable_unnamed. rewrite assign_map. intro H.
    apply Hin' in H. destruct H as [H | [_ H]]; [| apply H; reflexivity].
    apply Hnew'. cbn in H. rewrite <- H.
    apply in_map. eapply nth_error_In; eauto. }
  split; [| split; reflexivity].
  unfold namedApart.
  cbn [TreeWid Tables NumTables CBCastings Checked Saved setSaved setChecked
       with_TreeWid with_NumTables with_Tables with_CBCastings].
  rewrite assign_map.
  cbn [TableModel.readName TableModel.setName TableModel.name].
  split; [exact Hnd' |]. split.
  - apply Forall_forall. intros n Hn. apply Hin' in Hn.
    destruct Hn as [-> | [Hn _]]; [exact Hnr |].
    rewrite Forall_forall in Hres. apply Hres, Hn.
  - split; [apply sort0_NoDup, Hcb' |].
    intro n. rewrite sort0_In, Hin', Hcbin', Hiff. reflexivity.
Qed.

Lemma rename_keeps_stages_attached_witness :
  exists st' root',
    on_BRenameTable_clicked (mkSelection 0 (Some 0%nat) None)
                            (with_ENewCastName ruledModel "U") = Ret st' /\
    TreeWid st' = Some root' /\
    Forall (stageRule (Tables st')) (preorder root') /\
    findTable "U" (Tables st') = Some (TableModel.setName tableT2 "U") /\
    findTable (TableModel.readName tableT2) (Tables st') = None /\
    namedApart st' /\
    Checked st' = false /\ Saved st' = false.
Proof.
  apply (rename_keeps_stages_attached (mkSelection 0 (Some 0%nat) None)
           (with_ENewCastName ruledModel "U") scenarioTree 0 tableT2 "U").
  - apply (namedApart_same ruledModel); [apply ruledModel_namedApart | | ]; reflexivity.
  - cbn. lia.
  - reflexivity.
  - reflexivity.
  - reflexivity.
  - reflexivity.
  - discriminate.
  - intros [H | [H | [H | [H | []]]]]; discriminate H.
  - intros [H | []]. discriminate H.
  - reflexivity.
  - cbn [preorder scenarioTree leaf flat_map app with_ENewCastName ruledModel Tables].
    repeat (constructor; [rule_holds |]). constructor.
Defined.

(** ** Editing the tree *)

Lemma nth_error_applyNth {A : Type} (i : nat) (f : A -> A) (l : list A) (x : A) :
  nth_error l i = Some x -> nth_error (applyNth i f l) i = Some (f x).
Proof.
  revert i. induction l as [| y l IH]; intros [| i] H; cbn in *; try discriminate.
  - congruence.
  - apply IH, H.
Qed.

Lemma assign_applyNth {A : Type} (i : nat) (f : A -> A) (l : list A) (x : A) :
  nth_error l i = Some x -> assign i x (applyNth i f l) = l.
Proof.
  revert i. induction l as [| y l IH]; intros [| i] H; cbn in *; try discriminate.
  - congruence.
  - rewrite (IH i H). reflexivity.
Qed.

Lemma removeNth_last {A : Type} (l : list A) (x : A) :
  removeNth (List.length l) (l ++ [x]) = l.
Proof.
  induction l as [| y l IH]; cbn; [reflexivity | rewrite IH; reflexivity].
Qed.

Lemma nth_error_last {A : Type} (l : list A) (x : A) :
  nth_error (l ++ [x]) (List.length l) = Some x.
Proof.
  rewrite nth_error_app2 by lia. rewrite Nat.sub_diag. reflexivity.
Qed.

(** What is found below the item a path leads to, once [f] was applied
    there. *)
Lemma itemAt_updateAt (p : list nat) (f : Item -> Item) (k : nat) :
  forall root parent,
    itemAt p root = Some parent ->
    itemAt (p ++ [k]) (updateAt p f root) = nth_error (children (f parent)) k.
Proof.
  induction p as [| i p IH]; intros root parent H; cbn [itemAt app updateAt] in *.
  - injection H as ->. destruct (nth_error (children (f parent)) k); reflexivity.
  - destruct root as [d cs]. cbn [children] in *.
    destruct (nth_error cs i) as [c |] eqn:E; [| discriminate].
    rewrite (nth_error_applyNth i _ cs c E). apply (IH c parent H).
Qed.

Lemma RemoveNode_added (name cast : string) (show : bool) (p : list nat) :
  forall root parent,
    itemAt p root = Some parent ->
    RemoveNode (p ++ [childCount parent])
               (updateAt p (AddTreeChild name cast show) root)
    = Some root.
Proof.
  induction p as [| i p IH]; intros root parent H; cbn [itemAt app updateAt] in *.
  - injection H as ->. destruct parent as [d cs].
    unfold childCount. cbn [AddTreeChild children RemoveNode].
    rewrite nth_error_last, removeNth_last. reflexivity.
  - destruct root as [d cs]. cbn [children] in *.
    destruct (nth_error cs i) as [c |] eqn:E; [| discriminate].
    cbn [RemoveNode].
    rewrite (nth_error_applyNth i _ cs c E), (IH c parent H).
    rewrite (assign_applyNth i _ cs c E). reflexivity.
Qed.

(** X21.  Adding a stage under the current one puts it last among the
    stages that follow, unreported and without ID; removing that new stage
    again gives back the tree exactly as it was (the model staying
    unchecked and modified). *)
Theorem add_child_then_remove (ci : Z) (m : option nat) (p : list nat)
  (name : string) (NodeType : nat) (st : Stox) (root parent : Item) :
  TreeWid st = Some root ->
  CloneMode st = false ->
  itemAt p root = Some parent ->
  name <> ""%string ->
  (exists root1,
     TreeWid (on_BChild_clicked (mkSelection ci m (Some p)) name NodeType st)
     = Some root1 /\
     itemAt (p ++ [childCount parent]) root1
     = Some (Node (mkStage name (chosenKind (mkSelection ci m (Some p)) NodeType st)
                           false "" None) [])) /\
  TreeWid (on_BRemoveNode_clicked
             (mkSelection ci m (Some (p ++ [childCount parent]))) Yes
             (on_BChild_clicked (mkSelection ci m (Some p)) name NodeType st))
  = Some root /\
  Checked (on_BRemoveNode_clicked
             (mkSelection ci m (Some (p ++ [childCount parent]))) Yes
             (on_BChild_clicked (mkSelection ci m (Some p)) name NodeType st))
  = false /\
  Saved (on_BRemoveNode_clicked
           (mkSelection ci m (Some (p ++ [childCount parent]))) Yes
           (on_BChild_clicked (mkSelection ci m (Some p)) name NodeType st))
  = false.
Proof.
  intros Htree Hclone Hp Hne.
  unfold on_BChild_clicked. cbn [currentItem].
  destruct (String.eqb_spec name "") as [E | _]; [contradiction |].
  rewrite Htree. cbn [option_map]. split.
  - eexists. split; [reflexivity |].
    rewrite (itemAt_updateAt p _ _ root parent Hp).
    destruct parent as [d cs]. unfold childCount.
    cbn [AddTreeChild children]. apply nth_error_last.
  - unfold on_BRemoveNode_clicked.
    cbn [CloneMode setSaved setChecked with_TreeWid currentItem is_yes negb TreeWid].
    rewrite Hclone. rewrite (RemoveNode_added _ _ _ p root parent Hp).
    cbn. auto.
Qed.

Lemma add_child_then_remove_witness :
  (exists root1,
     TreeWid (on_BChild_clicked (mkSelection 0 None (Some [0%nat; 0%nat])) "E" 2
                                ruledModel)
     = Some root1 /\
     itemAt ([0%nat; 0%nat] ++ [childCount branchQ]) root1
     = Some (Node (mkStage "E" (chosenKind (mkSelection 0 None (Some [0%nat; 0%nat]))
                                           2 ruledModel)
                           false "" None) [])) /\
  TreeWid (on_BRemoveNode_clicked
             (mkSelection 0 None (Some ([0%nat; 0%nat] ++ [childCount branchQ]))) Yes
             (on_BChild_clicked (mkSelection 0 None (Some [0%nat; 0%nat])) "E" 2
                                ruledModel))
  = Some scenarioTree /\
  Checked (on_BRemoveNode_clicked
             (mkSelection 0 None (Some ([0%nat; 0%nat] ++ [childCount branchQ]))) Yes
             (on_BChild_clicked (mkSelection 0 None (Some [0%nat; 0%nat])) "E" 2
                                ruledModel))
  = false /\
  Saved (on_BRemoveNode_clicked
           (mkSelection 0 None (Some ([0%nat; 0%nat] ++ [childCount branchQ]))) Yes
           (on_BChild_clicked (mkSelection 0 None (Some [0%nat; 0%nat])) "E" 2
                              ruledModel))
  = false.
Proof.
  apply (add_child_then_remove 0 None [0%nat; 0%nat] "E" 2 ruledModel scenarioTree
           (Node (mkStage "B" "T" true "" None) [leaf "C" "Success"; leaf "D" "Sink"])).
  - reflexivity.
  - reflexivity.
  - reflexivity.
  - discriminate.
Defined.

(** X22.  Nothing keeps the top-level stage from being removed.  Once it
    is, the widget is empty, and the slots that start from the top-level
    item fault: Check, and Save under a known file name. *)
Theorem remove_top_level_then_faults (ci : Z) (m : option nat) (dlg : Dialogs)
  (st : Stox) (root : Item) :
  TreeWid st = Some root ->
  CloneMode st = false ->
  String.eqb (FileName st) "" = false ->
  TreeWid (on_BRemoveNode_clicked (mkSelection ci m (Some [])) Yes st) = None /\
  on_actionCheck_triggered dlg
    (on_BRemoveNode_clicked (mkSelection ci m (Some [])) Yes st) = Crash NullItem /\
  on_actionSave_triggered dlg
    (on_BRemoveNode_clicked (mkSelection ci m (Some [])) Yes st) = Crash NullItem.
Proof.
  intros Htree Hclone Hname.
  unfold on_BRemoveNode_clicked. rewrite Hclone. cbn [currentItem is_yes negb].
  rewrite Htree. cbn [RemoveNode].
  split; [reflexivity |]. split.
  - unfold on_actionCheck_triggered, IDMarkTree.
    cbn [CloneMode setSaved setChecked with_TreeWid TreeWid]. rewrite Hclone.
    reflexivity.
  - unfold on_actionSave_triggered, saveModel.
    cbn [FileName setSaved setChecked with_TreeWid TreeWid]. rewrite Hname.
    reflexivity.
Qed.

Lemma remove_top_level_then_faults_witness :
  TreeWid (on_BRemoveNode_clicked (mkSelection 0 None (Some [])) Yes ruledModel)
  = None /\
  on_actionCheck_triggered agreeing
    (on_BRemoveNode_clicked (mkSelection 0 None (Some [])) Yes ruledModel)
  = Crash NullItem /\
  on_actionSave_triggered agreeing
    (on_BRemoveNode_clicked (mkSelection 0 None (Some [])) Yes ruledModel)
  = Crash NullItem.
Proof.
  apply (remove_top_level_then_faults 0 None agreeing ruledModel scenarioTree);
    reflexivity.
Defined.

(** X23.  Completing a replication hangs a copy of the source stage, with
    everything below it, as last following stage under the stage clicked,
    and ends the replication; it does not touch the flags, which only the
    start of the replication reset: a model saved in between still counts
    as saved. *)
Theorem clone_appends_copy (src tgt : list nat) (st : Stox)
  (root source target : Item) :
  CloneMode st = true ->
  TreeWid st = Some root ->
  itemAt src root = Some source ->
  itemAt tgt root = Some target ->
  exists st' root',
    on_TreeWid_currentItemChanged (Some tgt) (Some src) st = Ret st' /\
    TreeWid st' = Some root' /\
    itemAt (tgt ++ [childCount target]) root' = Some source /\
    CloneMode st' = false /\
    Checked st' = Checked st /\ Saved st' = Saved st /\ Tables st' = Tables st.
Proof.
  intros Hclone Htree Hsrc Htgt.
  unfold on_TreeWid_currentItemChanged. rewrite Hclone, Htree, Hsrc.
  eexists. eexists. split; [reflexivity |].
  cbn [TreeWid CloneMode Checked Saved Tables with_CloneMode with_TreeWid].
  split; [reflexivity |]. split; [| auto].
  rewrite (itemAt_updateAt tgt _ _ root target Htgt).
  cbn [children]. apply nth_error_last.
Qed.

Lemma clone_appends_copy_witness :
  exists st' root',
    on_TreeWid_currentItemChanged (Some [0%nat]) (Some [0%nat; 0%nat])
      (with_CloneMode checkedModel true) = Ret st' /\
    TreeWid st' = Some root' /\
    itemAt ([0%nat] ++ [childCount (Node (mkStage "A" "Direct" true "" None)
                                    [Node (mkStage "B" "T" true "" None)
                                       [leaf "C" "Success"; leaf "D" "Sink"]])]) root'
    = Some (Node (mkStage "B" "T" true "" None) [leaf "C" "Success"; leaf "D" "Sink"]) /\
    CloneMode st' = false /\
    Checked st' = Checked (with_CloneMode checkedModel true) /\
    Saved st' = Saved (with_CloneMode checkedModel true) /\
    Tables st' = Tables (with_CloneMode checkedModel true).
Proof.
  apply (clone_appends_copy [0%nat; 0%nat] [0%nat] (with_CloneMode checkedModel true)
           scenarioTree); reflexivity.
Defined.

(** ** An accepted paste *)

(** X24.  Paste reads the shape of the table off the clipboard text: with
    [r] newlines and [k] tabs per line (at least two tabs in all) the new
    casting has [r] rows and [k + 1] columns, holds the numbers parsed from
    the text row by row, and carries the name typed; it is added last
    among the tables, the combo box gets its name and is sorted again, and
    the model is unchecked and modified. *)
Theorem paste_accepted_shape (parseFloats : string -> nat -> list F32.t) (dlg : Dialogs)
  (st : Stox) (source name : string) (r k : nat) :
  ENewCastName st = name ->
  name <> ""%string ->
  ~ In name TypeNames ->
  ~ In name (CBCastings st) ->
  clipboard dlg = Some source ->
  count newline source = r ->
  count tab source = (r * k)%nat ->
  (1 <= r)%nat -> (2 <= r * k)%nat ->
  exists t,
    Tables (on_BPasteTable_clicked parseFloats dlg st) = Tables st ++ [t] /\
    TableModel.readName t = name /\
    TableModel.readRows t = r /\
    TableModel.readCols t = S k /\
    TableModel.shaped t /\
    (forall i j, (i < r)%nat -> (j < S k)%nat ->
       TableModel.readCell t i j
       = Some (nth (i * S k + j) (parseFloats source (r * S k)%nat) F32.zero)) /\
    NumTables (on_BPasteTable_clicked parseFloats dlg st) = (NumTables st + 1)%Z /\
    CBCastings (on_BPasteTable_clicked parseFloats dlg st)
    = sort0 (CBCastings st ++ [name]) /\
    Checked (on_BPasteTable_clicked parseFloats dlg st) = false /\
    Saved (on_BPasteTable_clicked parseFloats dlg st) = false.
Proof.
  intros Hname Hne Hnr Hnew Hclip Hlines Htabs Hr Hrk.
  assert (Hcols : ((r * k + r) / r = S k)%nat).
  { replace (r * k + r)%nat with (S k * r)%nat by lia. apply Nat.div_mul. lia. }
  unfold on_BPasteTable_clicked. rewrite Hname.
  destruct (String.eqb_spec name "") as [E | _]; [contradiction |].
  destruct (existsb (String.eqb name) TypeNames) eqn:Eres.
  { apply existsb_eqb_In in Eres. contradiction. }
  destruct (existsb (String.eqb name) (CBCastings st)) eqn:Efind.
  { apply existsb_eqb_In in Efind. contradiction. }
  rewrite Hclip, Hlines, Htabs, Hcols.
  destruct (Nat.ltb_spec (r * k) 2); [lia |].
  destruct (Nat.ltb_spec r 1); [lia |].
  cbn [orb].
  eexists. split; [reflexivity |].
  split; [reflexivity |]. split; [reflexivity |]. split; [reflexivity |].
  split.
  { exact (FillFromRaw_shaped TableModel.create
             (parseFloats source (r * S k)%nat) r (S k)). }
  split; [| cbn; auto].
  intros i j Hi Hj. unfold TableModel.readCell.
  unfold TableModel.setName, TableModel.FillFromRaw. cbn [TableModel.rawdata].
  rewrite nth_error_map_seq.
  destruct (Nat.ltb_spec i r); [| lia].
  rewrite nth_error_map_seq.
  destruct (Nat.ltb_spec j (S k)); [| lia]. reflexivity.
Qed.

Lemma paste_accepted_shape_witness :
  exists t,
    Tables (on_BPasteTable_clicked (fun _ n => repeat (F32.ratio 1 2) n)
              (holding (Some twoLines)) pastingModel) = Tables pastingModel ++ [t] /\
    TableModel.readName t = "New"%string /\
    TableModel.readRows t = 2%nat /\
    TableModel.readCols t = 3%nat /\
    TableModel.shaped t /\
    (forall i j, (i < 2)%nat -> (j < 3)%nat ->
       TableModel.readCell t i j
       = Some (nth (i * 3 + j)
                   ((fun _ n => repeat (F32.ratio 1 2) n) twoLines (2 * 3)%nat)
                   F32.zero)) /\
    NumTables (on_BPasteTable_clicked (fun _ n => repeat (F32.ratio 1 2) n)
                 (holding (Some twoLines)) pastingModel)
    = (NumTables pastingModel + 1)%Z /\
    CBCastings (on_BPasteTable_clicked (fun _ n => repeat (F32.ratio 1 2) n)
                  (holding (Some twoLines)) pastingModel)
    = sort0 (CBCastings pastingModel ++ ["New"%string]) /\
    Checked (on_BPasteTable_clicked (fun _ n => repeat (F32.ratio 1 2) n)
               (holding (Some twoLines)) pastingModel) = false /\
    Saved (on_BPasteTable_clicked (fun _ n => repeat (F32.ratio 1 2) n)
             (holding (Some twoLines)) pastingModel) = false.
Proof.
  apply (paste_accepted_shape (fun _ n => repeat (F32.ratio 1 2) n) (holding (Some twoLines))
           pastingModel twoLines "New" 2 2).
  - reflexivity.
  - discriminate.
  - intros [H | [H | [H | [H | []]]]]; discriminate H.
  - intros [H | []]. discriminate H.
  - reflexivity.
  - reflexivity.
  - reflexivity.
  - lia.
  - lia.
Defined.

(** ** What the output table holds after a run *)










(** ** Faults of the check and of the run *)

(** X27.  The check removes the highlight of the current item before it
    shows a critical box, without testing that there is one: when no item
    is current and some stage does not pass, the check ends in a fault (a
    null item is dereferenced) instead of reporting the stage, and so does
    a Run that was allowed to check first. *)
Theorem check_failure_without_current_item_faults (dlg : Dialogs) (st : Stox)
  (root : Item) :
  CloneMode st = false ->
  TreeWid st = Some root ->
  ~ Forall (passes (Tables st)) (preorder (IDMarkFrom "1" root)) ->
  treeCurrent dlg = None ->
  on_actionCheck_triggered dlg st = Crash NullItem /\
  (Saved st = true -> Checked st = false -> checkAnswer dlg = Yes ->
   on_actionRun_triggered dlg st = Crash NullItem).
Proof.
  intros Hclone Htree Hfail Hcur.
  assert (Hcheck : on_actionCheck_triggered dlg st = Crash NullItem).
  { unfold on_actionCheck_triggered, IDMarkTree. rewrite Hclone.
    cbn [setChecked TreeWid]. rewrite Htree.
    cbn [bind with_TreeWid setChecked TreeWid Tables].
    destruct (firstError (Tables st) (preorder (IDMarkFrom "1" root))) as [e |] eqn:Ef.
    - rewrite Hcur. reflexivity.
    - exfalso. apply Hfail, firstError_all_pass, Ef. }
  split; [exact Hcheck |].
  intros Hsav Hchk Hyes. unfold on_actionRun_triggered.
  rewrite Hsav. cbn [negb andb bind]. rewrite Hchk, Hyes.
  cbn [negb andb bind is_yes]. rewrite Hcheck. reflexivity.
Qed.

Lemma check_failure_without_current_item_faults_witness :
  on_actionCheck_triggered unselected freshModel = Crash NullItem /\
  (Saved freshModel = true -> Checked freshModel = false -> checkAnswer unselected = Yes ->
   on_actionRun_triggered unselected freshModel = Crash NullItem).
Proof.
  apply (check_failure_without_current_item_faults unselected freshModel startItem).
  - reflexivity.
  - reflexivity.
  - intro H. cbn in H. apply Forall_inv in H. cbn in H. destruct H; discriminate.
  - reflexivity.
Defined.

(** X28.  Run does not guard against a number of iterations so large that
    the row count [Iters + 3] is no [int] any more: for the three largest
    values of an [int] the sum wraps to a negative number and the output
    table cannot be allocated, so Run on a checked and saved model ends in
    a length error. *)
Theorem run_iterations_overflow_faults (dlg : Dialogs) (st : Stox) (root : Item) :
  Checked st = true -> Saved st = true ->
  TreeWid st = Some root ->
  (INT_MAX - 2 <= EIters st <= INT_MAX)%Z ->
  on_actionRun_triggered dlg st = Crash LengthError.
Proof.
  intros Hchk Hsav Htree Hit.
  unfold on_actionRun_triggered. rewrite Hsav. cbn [negb andb bind].
  rewrite !Hchk. cbn [negb andb bind]. rewrite ?Hchk. cbn [negb].
  unfold runModel. cbn [TreeWid with_Eps]. rewrite Htree.
  unfold wrapInt, INT_MAX in *.
  destruct (Z.ltb_spec 2147483647 (EIters st + 3)) as [_ | H]; [| lia].
  unfold OutTableModel.Init.
  destruct (Z.ltb_spec (EIters st + 3 - 4294967296) 0) as [_ | H]; [| lia].
  reflexivity.
Qed.

Lemma run_iterations_overflow_faults_witness :
  on_actionRun_triggered agreeing longRun = Crash LengthError.
Proof.
  apply (run_iterations_overflow_faults agreeing longRun scenarioTree).
  - reflexivity.
  - reflexivity.
  - reflexivity.
  - split; vm_compute; discriminate.
Defined.
